(** * A virtualized data grid: viewport window, sort toggle, column resize,
      scroll synchronisation and row-height estimation.

    Shallow embedding of the React components of the CSV data grid
    (App, DataGrid, VirtualizedRows, DataGridBody, DataGridHeader), of the
    headers CSVUploader builds and of the grouping done by the observer
    utilities, together with the properties their specification states
    about them and further properties read off the code.

    The program.  App renders CSVUploader and, once a file with rows is
    loaded, DataGrid, which renders its rows through VirtualizedRows.
    DataGridBody and DataGridHeader are not imported by any module; they
    are modelled as components of their own.

    Numbers.  JavaScript numbers are modelled by exact rationals ([Q]) for
    pixel quantities and by integers ([Z]) where the code has produced one
    with [Math.floor], [Math.ceil] or [Math.round].  Division is only ever
    used with a strictly positive divisor in the statements below, so
    JavaScript's [Infinity] and [NaN] never arise there.  Equality of two
    numbers ([===]) is [Qeq].

    State.  Each component is a record of its [useState] cells; an updater
    passed to a setter is applied at once.  A ref is [None] for [null] and
    otherwise holds the scroll offsets of the element it points to.  The
    browser stores an assignment to [scrollLeft] clamped into the scroll
    range [0, scrollWidth - clientWidth] of the element, and delivers a
    scroll event for that element later on when the stored offset has
    changed; the scroll handler is given both with the scroll ranges of
    the two regions ([handleScrollIn]) and for offsets that lie within
    them ([handleScroll]).  A function handed to the browser as a listener
    or as an observer callback reads the state cells of the render that
    created it; refs are read when it runs.

    Libraries.  lodash's [_.clamp] is modelled by its definition;
    [_.orderBy] is a parameter: some function that returns a new array.
    [ROW_HEIGHT] comes from the constants module and is a parameter too. *)

From Stdlib Require Import ZArith QArith Qround Qabs Lia Lqa Bool List.
From stdpp Require Import gmap strings.
Import ListNotations.

Local Open Scope Z_scope.

(** ** JavaScript primitives used by the components *)

Module JS.

  (** [Math.floor], [Math.ceil] on a number. *)
Definition floor (x : Q) : Z := Qfloor x.
Definition ceil (x : Q) : Z := Qceiling x.

  (** [Math.round]: the nearest integer, ties towards +infinity. *)
Definition round (x : Q) : Z := Qfloor (x + (1 # 2))%Q.

  (** Truthiness of a number: [0] is falsy (NaN does not occur here). *)
Definition truthy (x : Q) : bool := negb (Qeq_bool x 0).

  (** [a || b] on numbers. *)
Definition or (a b : Q) : Q := if truthy a then a else b.

  (** Relative index of [Array.prototype.slice]: a negative index counts
      from the end, and everything is clipped to [0, len]. *)
Definition relIndex (len i : Z) : Z :=
    if i <? 0 then Z.max (len + i) 0 else Z.min i len.

  (** [arr.slice(start, end)]: a fresh array with the elements at positions
      [start .. end-1]. *)
Definition slice {A : Type} (arr : list A) (start end_ : Z) : list A :=
    let len := Z.of_nat (length arr) in
    let k := relIndex len start in
    let final := relIndex len end_ in
    firstn (Z.to_nat (final - k)) (skipn (Z.to_nat k) arr).

  (** [_.clamp(number, lower, upper)] of lodash. *)
Definition clamp (number lower upper : Q) : Q :=
    let n1 := if Qle_bool number upper then number else upper in
    if Qle_bool lower n1 then n1 else lower.

  (** [Math.max], [Math.min] on numbers. *)
Definition max (a b : Q) : Q := if Qle_bool a b then b else a.
Definition min (a b : Q) : Q := if Qle_bool a b then a else b.

End JS.

(** ** Mutation records, as a MutationObserver delivers them *)

Module Dom.

Inductive MutationType := attributes | childList | characterData.

(** [type], [attributeName] ([None] for [null]) and [target.id] of a
    MutationRecord. *)
Record MutationRecord := {
  type : MutationType;
  attributeName : option string;
  targetId : string
}.

Definition isAttributes (m : MutationRecord) : bool :=
  match type m with attributes => true | _ => false end.

Definition isChildList (m : MutationRecord) : bool :=
  match type m with childList => true | _ => false end.

(** [mutation.attributeName === name] *)
Definition attributeIs (name : string) (m : MutationRecord) : bool :=
  match attributeName m with
  | Some a => String.eqb a name
  | None => false
  end.

End Dom.

(** ** DataGridBody: row metrics and the visible-row window *)

Module DataGridBody.

  (** The scrolling container as the component reads it through
      [containerRef.current]. *)
Record Container := {
    scrollTop : Q;
    clientHeight : Q;
    (** [getBoundingClientRect().height] of the first [.data-grid-row]
        below the container, when one is rendered *)
    rowElementHeight : option Q
  }.

  (** The locals [start], [end] of [calculateVisibleRows] and the [top]
      style of the rows container. *)
Record Window := {
    start : Z;
    end_ : Z;
    topOffsetPx : Q
  }.

  (** The arithmetic of [calculateVisibleRows]: from the scroll offset, the
      viewport height, the row height and [data.length]. *)
Definition visibleWindow (scrollTop clientHeight measuredRowHeight : Q)
      (dataLength : Z) : Window :=
    let visibleRowCount := JS.ceil (clientHeight / measuredRowHeight) in
    let overscanRowCount := JS.ceil (inject_Z visibleRowCount * (1 # 2)) in
    let start :=
      Z.max 0 (JS.floor (scrollTop / measuredRowHeight) - overscanRowCount) in
    let end_ :=
      Z.min (dataLength - 1)
            (JS.floor (scrollTop / measuredRowHeight)
             + visibleRowCount + overscanRowCount) in
    {| start := start;
       end_ := end_;
       topOffsetPx := inject_Z start * measuredRowHeight |}.

Section Component.
Context {Row : Type}.

    (** The [useState] cells of the component. *)
Record State := {
      visibleRows : list Row;
      startIndex : Z;
      dimensionsHeight : Q;
      measuredRowHeight : Z;
      scrollTicking : bool
    }.

Definition initialState : State :=
      {| visibleRows := [];
         startIndex := 0;
         dimensionsHeight := 0;
         measuredRowHeight := 35;
         scrollTicking := false |}.

Definition setMeasuredRowHeight (h : Z) (st : State) : State :=
      {| visibleRows := visibleRows st;
         startIndex := startIndex st;
         dimensionsHeight := dimensionsHeight st;
         measuredRowHeight := h;
         scrollTicking := scrollTicking st |}.

    (** [measureRowHeight], as the render whose estimate is
        [closureHeight] creates it ([useCallback] on [measuredRowHeight]):
        the comparison reads the estimate of that render, the setter
        writes the component's cell.  [container] is
        [containerRef.current]. *)
Definition measureRowHeight (closureHeight : Z) (container : option Container)
        (st : State) : State :=
      match container with
      | None => st
      | Some c =>
          match rowElementHeight c with
          | None => st
          | Some h =>
              let computedHeight := JS.round h in
              if (0 <? computedHeight)
                 && (1 <? Z.abs (computedHeight - closureHeight))
              then setMeasuredRowHeight computedHeight st
              else st
          end
      end.

    (** The three places [measureRowHeight()] is called from. *)
Inductive CallSite :=
  | ScrollEffect
  | ResizeObserverCallback
  | MutationObserverCallback.

    (** The estimate held by the [measureRowHeight] a call site runs.  The
        scroll effect depends on [measureRowHeight] and is re-run with
        every new one, so it calls the function of the latest render.  The
        two observers are created by effects with an empty dependency
        list, which run after the first render only: their callbacks keep
        the function of that render, whose estimate is the initial one. *)
Definition estimateSeenFrom (site : CallSite) (st : State) : Z :=
      match site with
      | ScrollEffect => measuredRowHeight st
      | ResizeObserverCallback | MutationObserverCallback =>
          measuredRowHeight initialState
      end.

    (** A call of [measureRowHeight()] from [site]. *)
Definition measureFrom (site : CallSite) (container : option Container)
        (st : State) : State :=
      measureRowHeight (estimateSeenFrom site st) container st.

    (** [calculateVisibleRows]: [data] is the component's [data] prop. *)
Definition calculateVisibleRows (container : option Container)
        (data : list Row) (st : State) : State :=
      match container with
      | None => st
      | Some c =>
          let clientHeight := JS.or (clientHeight c) (dimensionsHeight st) in
          let w := visibleWindow (scrollTop c) clientHeight
                     (inject_Z (measuredRowHeight st))
                     (Z.of_nat (length data)) in
          {| visibleRows := JS.slice data (start w) (end_ w + 1);
             startIndex := start w;
             dimensionsHeight := dimensionsHeight st;
             measuredRowHeight := measuredRowHeight st;
             scrollTicking := false |}
      end.


(** The [height] of the spacer and the [top] of the rows container. *)
Definition spacerHeight (data : list Row) (st : State) : Q :=
  inject_Z (Z.of_nat (length data)) * inject_Z (measuredRowHeight st).

Definition rowsTop (st : State) : Q :=
  inject_Z (startIndex st) * inject_Z (measuredRowHeight st).

(** The mounted component: its state, the scroll container with its
    horizontal offset, the animation-frame callbacks it has requested and
    not yet run, and the offsets it has passed to [onScroll]. *)
Record Mounted := {
  state : State;
  container : Container;
  scrollLeft : Q;
  frames : nat;
  reported : list Q
}.

(** What happens to the component: the user scrolls the container to the
    offsets [(newTop, newLeft)], which fires [handleScroll]; or the browser
    runs the oldest requested animation frame. *)
Inductive Event := Scroll (newTop newLeft : Q) | Frame.

Definition setTicking (b : bool) (st : State) : State :=
  {| visibleRows := visibleRows st;
     startIndex := startIndex st;
     dimensionsHeight := dimensionsHeight st;
     measuredRowHeight := measuredRowHeight st;
     scrollTicking := b |}.

(** The scroll listener of the effect: [handleScroll], and the callback it
    hands to [requestAnimationFrame]. *)
Definition step (data : list Row) (ev : Event) (m : Mounted) : Mounted :=
  match ev with
  | Scroll newTop newLeft =>
      let c := {| scrollTop := newTop;
                  clientHeight := clientHeight (container m);
                  rowElementHeight := rowElementHeight (container m) |} in
      if negb (scrollTicking (state m)) then
        {| state := setTicking true (state m); container := c;
           scrollLeft := newLeft; frames := S (frames m);
           reported := reported m |}
      else
        {| state := state m; container := c; scrollLeft := newLeft;
           frames := frames m; reported := reported m |}
  | Frame =>
      match frames m with
      | O => m
      | S n =>
          {| state := calculateVisibleRows (Some (container m)) data (state m);
             container := container m; scrollLeft := scrollLeft m;
             frames := n;
             reported := reported m ++ [scrollLeft m] |}
      end
  end.

Definition steps (data : list Row) (evs : list Event) (m : Mounted)
    : Mounted :=
  List.fold_left (fun acc ev => step data ev acc) evs m.

End Component.

Arguments State : clear implicits.
Arguments Mounted : clear implicits.

End DataGridBody.

(** ** VirtualizedRows: the window of the rows DataGrid renders *)

Module VirtualizedRows.

  (** The [visibleRange] state: [endIndex] is exclusive, the rows rendered
      are [data.slice(startIndex, endIndex)]. *)
Record Range := {
    startIndex : Z;
    endIndex : Z
  }.

Section Component.
    (** [ROW_HEIGHT] is imported from the constants module. *)
Variable ROW_HEIGHT : Q.

    (** The effect on [scrollTop, visibleRowsCount, data.length]. *)
Definition visibleRange (scrollTop : Q) (visibleRowsCount dataLength : Z)
        : Range :=
      let startIndex := Z.max 0 (JS.floor (scrollTop / ROW_HEIGHT)) in
      let endIndex := Z.min dataLength (startIndex + visibleRowsCount + 2) in
      {| startIndex := startIndex; endIndex := endIndex |}.

(** The two updaters of [handleIntersection], for the top and for the
    bottom sentinel. *)
Definition loadAbove (prev : Range) : Range :=
  {| startIndex := Z.max 0 (startIndex prev); endIndex := endIndex prev |}.

Definition loadBelow (dataLength : Z) (prev : Range) : Range :=
  {| startIndex := startIndex prev;
     endIndex := Z.min dataLength (endIndex prev) |}.

Definition offsetY (r : Range) : Q := inject_Z (startIndex r) * ROW_HEIGHT.

(** [totalHeight] and the [top] of the two sentinel elements. *)
Definition totalHeight (dataLength : Z) : Q := inject_Z dataLength * ROW_HEIGHT.

Definition topSentinel (r : Range) : Q :=
  JS.max 0 (inject_Z (startIndex r) * ROW_HEIGHT - ROW_HEIGHT).

Definition bottomSentinel (dataLength : Z) (r : Range) : Q :=
  JS.min (totalHeight dataLength)
         (inject_Z (endIndex r) * ROW_HEIGHT + ROW_HEIGHT).

Definition visibleData {Row : Type} (data : list Row) (r : Range)
        : list Row :=
      JS.slice data (startIndex r) (endIndex r).

End Component.

End VirtualizedRows.

(** ** Column definitions, as the CSV uploader hands them to the grid *)

Module Header.

Record t := {
  id : string;
  name : string;
  width : Q;
  minWidth : Q;
  maxWidth : Q;
  resizable : bool;
  sortable : bool
}.

(** [{ ...header, width: newWidth }] *)
Definition withWidth (newWidth : Q) (h : t) : t :=
  {| id := id h; name := name h; width := newWidth;
     minWidth := minWidth h; maxWidth := maxWidth h;
     resizable := resizable h; sortable := sortable h |}.

(** [headers.find((h) => h.id === headerId)] *)
Definition find (headerId : string) (headers : list t) : option t :=
  List.find (fun h => String.eqb (id h) headerId) headers.

(** The header [parseCSV] builds for a field of the file. *)
Definition ofField (field : string) : t :=
  {| id := field; name := field; width := 150;
     minWidth := 50; maxWidth := 500;
     resizable := true; sortable := true |}.

End Header.

(** ** DataGridHeader: the resize gesture of the header component *)

Module DataGridHeader.

(** The [useState] cells of the component; [resizingColumn] is [null] or a
    header id. *)
Record State := {
  resizingColumn : option string;
  startX : Q;
  startWidth : Q
}.

Definition initialState : State :=
  {| resizingColumn := None; startX := 0; startWidth := 0 |}.

(** [!resizingColumn]: [null] and the empty string are falsy. *)
Definition resizing (st : State) : option string :=
  match resizingColumn st with
  | Some EmptyString => None
  | other => other
  end.

(** [handleSortClick(headerId)]: the call [onSort(headerId)] it makes, if
    any; [None] stands for the TypeError of reading a property of
    [undefined] when no header has that id. *)
Definition handleSortClick (headerId : string) (headers : list Header.t)
    : option (option string) :=
  match Header.find headerId headers with
  | None => None
  | Some header =>
      if negb (Header.sortable header) then Some None
      else Some (Some headerId)
  end.

(** [handleResizeStart(e, headerId)]; [None] stands for the TypeError of
    reading a property of [undefined] when no header has that id. *)
Definition handleResizeStart (clientX : Q) (headerId : string)
    (headers : list Header.t) (st : State) : option State :=
  match Header.find headerId headers with
  | None => None
  | Some header =>
      if negb (Header.resizable header) then Some st
      else Some {| resizingColumn := Some headerId;
                   startX := clientX;
                   startWidth := Header.width header |}
  end.

(** [handleResizeMove(e)]: the width written to the style of the header
    cell being dragged (the column sequence is not touched). *)
Definition handleResizeMove (clientX : Q) (headers : list Header.t)
    (st : State) : option (option Q) :=
  match resizing st with
  | None => Some None
  | Some column =>
      match Header.find column headers with
      | None => None
      | Some header =>
          let diff := (clientX - startX st)%Q in
          Some (Some (JS.max (Header.minWidth header)
                        (JS.min (Header.maxWidth header)
                                (startWidth st + diff)%Q)))
      end
  end.

(** [handleResizeEnd(e)]: the state after it and the call
    [onResize(resizingColumn, newWidth)] it makes, if any. *)
Definition handleResizeEnd (clientX : Q) (headers : list Header.t)
    (st : State) : option (State * option (string * Q)) :=
  match resizing st with
  | None => Some (st, None)
  | Some column =>
      match Header.find column headers with
      | None => None
      | Some header =>
          let diff := (clientX - startX st)%Q in
          let newWidth :=
            JS.max (Header.minWidth header)
                   (JS.min (Header.maxWidth header) (startWidth st + diff)%Q) in
          Some ({| resizingColumn := None;
                   startX := startX st;
                   startWidth := startWidth st |},
                Some (column, newWidth))
      end
  end.

(** The component between events: its state cells and, for each pair of
    document listeners [handleResizeStart] has attached and that is still
    attached, the state cells of the render that created the pair (a
    listener reads the cells of the render it was created in). *)
Record Listening := {
  current : State;
  attached : list State
}.

(** A mousedown on the resize handle of [headerId]: [handleResizeStart]
    sets the state cells and attaches the listeners of the current
    render. *)
Definition mouseDown (clientX : Q) (headerId : string)
    (headers : list Header.t) (l : Listening) : option Listening :=
  match Header.find headerId headers with
  | None => None
  | Some header =>
      if negb (Header.resizable header) then Some l
      else
        match handleResizeStart clientX headerId headers (current l) with
        | None => None
        | Some st1 =>
            Some {| current := st1; attached := attached l ++ [current l] |}
        end
  end.

(** A mouseup on the document: every attached [handleResizeEnd] runs on
    the cells of its own render; one that passes its guard removes its pair
    of listeners, calls [onResize] and clears [resizingColumn]. *)
Fixpoint mouseUp (clientX : Q) (headers : list Header.t)
    (listeners : list State) (st : State)
    : option (Listening * list (string * Q)) :=
  match listeners with
  | [] => Some ({| current := st; attached := [] |}, [])
  | captured :: rest =>
      match handleResizeEnd clientX headers captured with
      | None => None
      | Some (_, None) =>
          match mouseUp clientX headers rest st with
          | None => None
          | Some (l, calls) =>
              Some ({| current := current l;
                       attached := captured :: attached l |}, calls)
          end
      | Some (_, Some call) =>
          match mouseUp clientX headers rest
                  {| resizingColumn := None;
                     startX := startX st;
                     startWidth := startWidth st |} with
          | None => None
          | Some (l, calls) => Some (l, call :: calls)
          end
      end
  end.

End DataGridHeader.

(** ** DataGrid: the orchestrating component *)

Module DataGrid.

Record SortConfig := {
  key : option string;
  direction : string
}.

Record ScrollPosition := {
  top : Q;
  left : Q
}.

(** The scroll offsets of a DOM element held in a ref. *)
Record Element := {
  scrollTop : Q;
  scrollLeft : Q
}.

(** The element a scroll event was fired on. *)
Inductive Target := Body | HeaderRegion | Elsewhere.

(** The scroll ranges of the two regions: [scrollWidth - clientWidth] of
    the body and of the header.  The header hides its scrollbar and the
    body does not, so the two need not be equal. *)
Record ScrollRange := {
  bodyMax : Q;
  headerMax : Q
}.

(** [element.scrollLeft = value] on an element whose scroll range is
    [0, max]: the element with the offset the browser stores, and whether
    that offset differs from the one before (a scroll event is fired on the
    element exactly then). *)
Definition assignScrollLeft (max value : Q) (element : Element)
    : Element * bool :=
  let stored := JS.clamp value 0 max in
  ({| scrollTop := scrollTop element; scrollLeft := stored |},
   negb (Qeq_bool (scrollLeft element) stored)).

(** What [onMouseDown] on a resize handle captures in its closure. *)
Record Drag := {
  startX : Q;
  startWidth : Q;
  dragged : Header.t;
  containerRight : Q
}.

(** [!sortConfig.key] is false exactly for a non-empty string. *)
Definition keyTruthy (k : option string) : bool :=
  match k with
  | None => false
  | Some EmptyString => false
  | Some _ => true
  end.

(** [handleSort(key)], as the updater applied to the previous config. *)
Definition handleSort (k : string) (prevConfig : SortConfig) : SortConfig :=
  if bool_decide (key prevConfig = Some k) then
    if String.eqb (direction prevConfig) "asc" then
      {| key := Some k; direction := "desc" |}
    else if String.eqb (direction prevConfig) "desc" then
      {| key := None; direction := "asc" |}
    else {| key := Some k; direction := "asc" |}
  else {| key := Some k; direction := "asc" |}.

(** [onClick] of a header cell: [header.sortable && handleSort(header.id)]. *)
Definition onHeaderClick (header : Header.t) (cfg : SortConfig) : SortConfig :=
  if Header.sortable header then handleSort (Header.id header) cfg else cfg.

(** [handleColumnResize(columnId, newWidth)], as the updater applied to the
    previous headers. *)
Definition handleColumnResize (columnId : string) (newWidth : Q)
    (prevHeaders : list Header.t) : list Header.t :=
  List.map (fun header =>
              if String.eqb (Header.id header) columnId
              then Header.withWidth newWidth header
              else header)
           prevHeaders.

(** [_.sumBy(headers, "width")] *)
Definition totalColumnsWidth (headers : list Header.t) : Q :=
  List.fold_left (fun acc h => (acc + Header.width h)%Q) headers 0%Q.

(** The resize handle is rendered only under [header.resizable &&]; its
    [onMouseDown] starts a drag. *)
Definition onMouseDown (header : Header.t) (clientX containerRight : Q)
    : option Drag :=
  if Header.resizable header
  then Some {| startX := clientX;
               startWidth := Header.width header;
               dragged := header;
               containerRight := containerRight |}
  else None.

Section Component.
Context {Row : Type}.

(** [ROW_HEIGHT] is imported from the constants module. *)
Variable ROW_HEIGHT : Q.

(** [_.orderBy(collection, iteratees, orders)] of lodash: some function
    that returns a new array. *)
Variable orderBy : list Row -> list string -> list string -> list Row.

(** The props and [useState] cells of the component, with the elements its
    refs point to ([None] for a [null] ref). *)
Record State := {
  data : list Row;
  headers : list Header.t;
  sortConfig : SortConfig;
  dimensionsHeight : Q;
  scrollPosition : ScrollPosition;
  bodyRef : option Element;
  headerRef : option Element
}.

Definition setData (d : list Row) (st : State) : State :=
  {| data := d; headers := headers st; sortConfig := sortConfig st;
     dimensionsHeight := dimensionsHeight st;
     scrollPosition := scrollPosition st;
     bodyRef := bodyRef st; headerRef := headerRef st |}.

Definition setHeaders (f : list Header.t -> list Header.t) (st : State)
    : State :=
  {| data := data st; headers := f (headers st); sortConfig := sortConfig st;
     dimensionsHeight := dimensionsHeight st;
     scrollPosition := scrollPosition st;
     bodyRef := bodyRef st; headerRef := headerRef st |}.

Definition setSortConfig (f : SortConfig -> SortConfig) (st : State) : State :=
  {| data := data st; headers := headers st; sortConfig := f (sortConfig st);
     dimensionsHeight := dimensionsHeight st;
     scrollPosition := scrollPosition st;
     bodyRef := bodyRef st; headerRef := headerRef st |}.

Definition setScrollPosition (f : ScrollPosition -> ScrollPosition)
    (st : State) : State :=
  {| data := data st; headers := headers st; sortConfig := sortConfig st;
     dimensionsHeight := dimensionsHeight st;
     scrollPosition := f (scrollPosition st);
     bodyRef := bodyRef st; headerRef := headerRef st |}.

Definition setBodyRef (b : option Element) (st : State) : State :=
  {| data := data st; headers := headers st; sortConfig := sortConfig st;
     dimensionsHeight := dimensionsHeight st;
     scrollPosition := scrollPosition st;
     bodyRef := b; headerRef := headerRef st |}.

Definition setHeaderRef (h : option Element) (st : State) : State :=
  {| data := data st; headers := headers st; sortConfig := sortConfig st;
     dimensionsHeight := dimensionsHeight st;
     scrollPosition := scrollPosition st;
     bodyRef := bodyRef st; headerRef := h |}.

(** The state of a freshly mounted component. *)
Definition initialState (d : list Row) (initialHeaders : list Header.t)
    : State :=
  {| data := d; headers := initialHeaders;
     sortConfig := {| key := None; direction := "asc" |};
     dimensionsHeight := 0;
     scrollPosition := {| top := 0; left := 0 |};
     bodyRef := None; headerRef := None |}.

(** [visibleRowsCount] *)
Definition visibleRowsCount (height : Q) : Z :=
  Z.max 10 (JS.ceil (JS.or height 300 / ROW_HEIGHT)).

(** [sortedData], as the rows it denotes. *)
Definition sortedRows (d : list Row) (cfg : SortConfig) : list Row :=
  if negb (keyTruthy (key cfg)) then d
  else orderBy d (match key cfg with Some k => [k] | None => [] end)
               [direction cfg].

(** [sortedData] over a store of arrays: [d] is the reference held in the
    [data] prop; the result is the reference the memo returns and the store
    after the call.  With no active key the very same reference comes back;
    otherwise [_.orderBy] allocates a new array. *)
Definition sortedData (store : gmap positive (list Row)) (d : positive)
    (cfg : SortConfig) : gmap positive (list Row) * positive :=
  if negb (keyTruthy (key cfg)) then (store, d)
  else
    let l := fresh (dom store) in
    (<[l := sortedRows (default [] (store !! d)) cfg]> store, l).

(** The range VirtualizedRows settles on for the props DataGrid passes. *)
Definition renderedRange (st : State) : VirtualizedRows.Range :=
  VirtualizedRows.visibleRange ROW_HEIGHT
    (top (scrollPosition st))
    (visibleRowsCount (dimensionsHeight st))
    (Z.of_nat (length (sortedRows (data st) (sortConfig st)))).

(** [handleMouseMove(moveEvent)] of a drag; [scrollWidth] and [clientWidth]
    are those of the header element at the time of the event.  The
    increment of [scrollLeft] is stored as written, which is what the
    browser does as long as [scrollLeft + 10] is within the scroll
    range. *)
Definition handleMouseMove (d : Drag) (clientX scrollWidth clientWidth : Q)
    (st : State) : State :=
  let diff := (clientX - startX d)%Q in
  let newWidth := JS.clamp (startWidth d + diff)%Q 50 500 in
  let st1 := setHeaders (handleColumnResize (Header.id (dragged d)) newWidth)
                        st in
  match headerRef st1 with
  | Some h =>
      if Qlt_le_dec (containerRight d - 20)%Q clientX then
        if Qlt_le_dec (scrollLeft h) (scrollWidth - clientWidth)%Q then
          setHeaderRef
            (Some {| scrollTop := scrollTop h;
                     scrollLeft := (scrollLeft h + 10)%Q |}) st1
        else st1
      else st1
  | None => st1
  end.

(** [handleScroll(e)] when the offset it copies lies within the scroll
    range of the region it is copied to, so that the browser stores it as
    written: the state after the handler and the elements whose
    [scrollLeft] it has changed (each such write makes the browser fire a
    scroll event on that element).  [handleScrollIn] below is the handler
    for arbitrary scroll ranges. *)
Definition handleScroll (target : Target) (st : State)
    : State * list Target :=
  match target with
  | Body =>
      match bodyRef st with
      | None => (st, [])
      | Some b =>
          let st1 :=
            setScrollPosition
              (fun prev =>
                 if Qeq_bool (top prev) (scrollTop b)
                    && Qeq_bool (left prev) (scrollLeft b)
                 then prev
                 else {| top := scrollTop b; left := scrollLeft b |}) st in
          match headerRef st1 with
          | Some h =>
              if negb (Qeq_bool (scrollLeft h) (scrollLeft b)) then
                (setHeaderRef
                   (Some {| scrollTop := scrollTop h;
                            scrollLeft := scrollLeft b |}) st1,
                 [HeaderRegion])
              else (st1, [])
          | None => (st1, [])
          end
      end
  | HeaderRegion =>
      match headerRef st with
      | None => (st, [])
      | Some h =>
          let st1 :=
            setScrollPosition
              (fun prev =>
                 if Qeq_bool (left prev) (scrollLeft h) then prev
                 else {| top := top prev; left := scrollLeft h |}) st in
          match bodyRef st1 with
          | Some b =>
              if negb (Qeq_bool (scrollLeft b) (scrollLeft h)) then
                (setBodyRef
                   (Some {| scrollTop := scrollTop b;
                            scrollLeft := scrollLeft h |}) st1,
                 [Body])
              else (st1, [])
          | None => (st1, [])
          end
      end
  | Elsewhere => (st, [])
  end.

(** [handleScroll(e)] in a grid whose regions have the scroll ranges
    [range]: the state after the handler and the elements on which the
    browser fires a scroll event because the handler has moved them. *)
Definition handleScrollIn (range : ScrollRange) (target : Target) (st : State)
    : State * list Target :=
  match target with
  | Body =>
      match bodyRef st with
      | None => (st, [])
      | Some b =>
          let st1 :=
            setScrollPosition
              (fun prev =>
                 if Qeq_bool (top prev) (scrollTop b)
                    && Qeq_bool (left prev) (scrollLeft b)
                 then prev
                 else {| top := scrollTop b; left := scrollLeft b |}) st in
          match headerRef st1 with
          | Some h =>
              if negb (Qeq_bool (scrollLeft h) (scrollLeft b)) then
                let (h', moved) :=
                  assignScrollLeft (headerMax range) (scrollLeft b) h in
                (setHeaderRef (Some h') st1,
                 if moved then [HeaderRegion] else [])
              else (st1, [])
          | None => (st1, [])
          end
      end
  | HeaderRegion =>
      match headerRef st with
      | None => (st, [])
      | Some h =>
          let st1 :=
            setScrollPosition
              (fun prev =>
                 if Qeq_bool (left prev) (scrollLeft h) then prev
                 else {| top := top prev; left := scrollLeft h |}) st in
          match bodyRef st1 with
          | Some b =>
              if negb (Qeq_bool (scrollLeft b) (scrollLeft h)) then
                let (b', moved) :=
                  assignScrollLeft (bodyMax range) (scrollLeft h) b in
                (setBodyRef (Some b') st1,
                 if moved then [Body] else [])
              else (st1, [])
          | None => (st1, [])
          end
      end
  | Elsewhere => (st, [])
  end.

(** The grid and the scroll events the browser has still to deliver. *)
Record World := {
  grid : State;
  pending : list Target
}.

(** Delivery of the oldest pending scroll event. *)
Definition deliver (range : ScrollRange) (w : World) : World :=
  match pending w with
  | [] => w
  | e :: rest =>
      let (st', raised) := handleScrollIn range e (grid w) in
      {| grid := st'; pending := rest ++ raised |}
  end.

Fixpoint run (range : ScrollRange) (fuel : nat) (w : World) : World :=
  match fuel with
  | O => w
  | S n => match pending w with
           | [] => w
           | _ => run range n (deliver range w)
           end
  end.

(** The effect that depends on [data.length]. *)
Definition dataChangeEffect (st : State) : State :=
  match bodyRef st with
  | Some b =>
      setScrollPosition
        (fun _ => {| top := 0; left := left (scrollPosition st) |})
        (setBodyRef (Some {| scrollTop := 0; scrollLeft := scrollLeft b |})
                    st)
  | None => st
  end.

(** [_.isEmpty] on an array. *)
Definition isEmpty {A : Type} (l : list A) : bool :=
  match l with [] => true | _ => false end.

(** The refs after a render: the placeholder is rendered, and both refs
    are [null], when [data] or [headers] is empty; otherwise elements
    already mounted are kept and missing ones are mounted unscrolled. *)
Definition commitRefs (st : State) : State :=
  if isEmpty (data st) || isEmpty (headers st) then
    setHeaderRef None (setBodyRef None st)
  else
    let mount r :=
      match r with
      | Some e => Some e
      | None => Some {| scrollTop := 0; scrollLeft := 0 |}
      end in
    setHeaderRef (mount (headerRef st)) (setBodyRef (mount (bodyRef st)) st).

(** A new instance of the component on the props [d] and
    [initialHeaders]: the first render sets the refs, then every effect
    runs once, the data-change effect among them. *)
Definition mount (d : list Row) (initialHeaders : list Header.t) : State :=
  dataChangeEffect (commitRefs (initialState d initialHeaders)).

(** [setDimensions({ width, height })] of the ResizeObserver callback; the
    width is not read anywhere. *)
Definition setDimensions (height : Q) (st : State) : State :=
  {| data := data st; headers := headers st; sortConfig := sortConfig st;
     dimensionsHeight := height;
     scrollPosition := scrollPosition st;
     bodyRef := bodyRef st; headerRef := headerRef st |}.

(** [relevantMutation] of the MutationObserver callback. *)
Definition relevantMutation (mutations : list Dom.MutationRecord) : bool :=
  existsb (fun mutation =>
             Dom.isAttributes mutation
             && (Dom.attributeIs "class" mutation
                 || Dom.attributeIs "style" mutation))
          mutations.

(** One run of the MutationObserver callback, on the batch [mutations]
    the debounce passes on to it (the last one of a burst): on a relevant
    batch it dispatches a scroll event on the body, which runs
    [handleScroll] at once (the listener is attached when both refs are
    set). *)
Definition onMutations (range : ScrollRange)
    (mutations : list Dom.MutationRecord) (st : State)
    : State * list Target :=
  if relevantMutation mutations then
    match bodyRef st, headerRef st with
    | Some _, Some _ => handleScrollIn range Body st
    | _, _ => (st, [])
    end
  else (st, []).

(** A run of pointer moves, each with the drag it belongs to and the
    header geometry at that time. *)
Definition dragAll (moves : list (Drag * Q * Q * Q)) (st : State) : State :=
  List.fold_left
    (fun acc move =>
       match move with
       | (d, clientX, scrollWidth, clientWidth) =>
           handleMouseMove d clientX scrollWidth clientWidth acc
       end)
    moves st.

End Component.

Arguments State : clear implicits.
Arguments World : clear implicits.

(** A run of clicks on header cells. *)
Definition clickAll (clicked : list Header.t) (cfg : SortConfig)
    : SortConfig :=
  List.fold_left (fun acc header => onHeaderClick header acc) clicked cfg.

(** The sort icon of a header cell: none unless the cell is the sort key,
    then the up arrow for ["asc"] and the down arrow otherwise. *)
Inductive SortIcon := ArrowUp | ArrowDown.

Definition sortIcon (cfg : SortConfig) (header : Header.t)
    : option SortIcon :=
  if bool_decide (key cfg = Some (Header.id header)) then
    Some (if String.eqb (direction cfg) "asc" then ArrowUp else ArrowDown)
  else None.

End DataGrid.

(** ** CSVUploader: the headers built from the fields of the file *)

Module CSVUploader.

(** [results.meta.fields.map((field) => ({ ... }))] *)
Definition formatHeaders (fields : list string) : list Header.t :=
  List.map Header.ofField fields.

End CSVUploader.

(** ** App: the page around the uploader and the grid *)

Module App.


Section Component.
Context {Row : Type}.

(** The [useState] cells of the component. *)
Record State := {
  data : list Row;
  headers : list Header.t;
  isLoading : bool
}.

Definition initialState : State :=
  {| data := []; headers := []; isLoading := false |}.




(** The page: the state of App and the DataGrid instance in the grid
    container, [None] when the container shows something else. *)
Record Page := {
  app : State;
  grid : option (DataGrid.State Row)
}.

Definition initialPage : Page := {| app := initialState; grid := None |}.




End Component.

Arguments State : clear implicits.
Arguments Page : clear implicits.

End App.

(** ** Observer utilities: mutations grouped by target *)

Module Observers.

(** The property names a plain object inherits from [Object.prototype]:
    reading one of them from [{}] gives a truthy value that has no
    [push]. *)
Definition inheritedKeys : list string :=
  [ "constructor"; "__defineGetter__"; "__defineSetter__"; "hasOwnProperty";
    "__lookupGetter__"; "__lookupSetter__"; "isPrototypeOf";
    "propertyIsEnumerable"; "toString"; "valueOf"; "__proto__";
    "toLocaleString" ]%string.

(** [mutation.target.id || "unknown"] *)
Definition targetKey (mutation : Dom.MutationRecord) : string :=
  match Dom.targetId mutation with
  | EmptyString => "unknown"
  | targetId => targetId
  end.

(** The [forEach] of [optimizedCallback] over [mutationsByTarget]; [None]
    stands for the TypeError of calling [push] on an inherited property. *)
Fixpoint groupInto (mutations : list Dom.MutationRecord)
    (mutationsByTarget : gmap string (list Dom.MutationRecord))
    : option (gmap string (list Dom.MutationRecord)) :=
  match mutations with
  | [] => Some mutationsByTarget
  | mutation :: rest =>
      let targetId := targetKey mutation in
      match mutationsByTarget !! targetId with
      | Some group =>
          groupInto rest (<[targetId := group ++ [mutation]]> mutationsByTarget)
      | None =>
          if bool_decide (targetId ∈ inheritedKeys) then None
          else groupInto rest (<[targetId := [mutation]]> mutationsByTarget)
      end
  end.

(** The second argument [optimizedCallback] passes to the callback. *)
Definition mutationsByTarget (mutations : list Dom.MutationRecord)
    : option (gmap string (list Dom.MutationRecord)) :=
  groupInto mutations ∅.

End Observers.

(** ** The window formula of the specification *)

Section WindowSpec.
Import DataGridBody.

(** [computeWindow] as the specification words it, with [ceil] and [floor]
    of a quotient stated through their defining bounds:
    [visibleCount = ceil(viewportHeight / rowHeight)],
    [overscan = ceil(visibleCount * 0.5)],
    [rawStart = floor(scrollTop / rowHeight)]. *)
Definition computeWindow_spec (scrollTop viewportHeight rowHeight : Q)
    (datasetLength : Z) (w : Window) : Prop :=
  exists visibleCount overscan rawStart : Z,
    ((inject_Z visibleCount - 1) * rowHeight < viewportHeight
       <= inject_Z visibleCount * rowHeight)%Q /\
    2 * overscan - 2 < visibleCount <= 2 * overscan /\
    (inject_Z rawStart * rowHeight <= scrollTop
       < (inject_Z rawStart + 1) * rowHeight)%Q /\
    start w = Z.max 0 (rawStart - overscan) /\
    end_ w = Z.min (datasetLength - 1) (rawStart + visibleCount + overscan) /\
    (topOffsetPx w == inject_Z (start w) * rowHeight)%Q.

(** Row [i] occupies the pixels [i * rowHeight, (i + 1) * rowHeight). *)
Definition inRowSpan (rowHeight : Q) (i : Z) (p : Q) : Prop :=
  (inject_Z i * rowHeight <= p < (inject_Z i + 1) * rowHeight)%Q.

(** The viewport shows the pixels [scrollTop, scrollTop + viewportHeight). *)
Definition inViewport (scrollTop viewportHeight p : Q) : Prop :=
  (scrollTop <= p < scrollTop + viewportHeight)%Q.

(** The formula of the range DataGrid renders through VirtualizedRows, for
    the container height [height] DataGrid has measured, with [ceil] and
    [floor] of a quotient stated through their defining bounds:
    [rawStart = floor(scrollTop / ROW_HEIGHT)],
    [visibleCount = ceil((height || 300) / ROW_HEIGHT)],
    [startIndex = max(0, rawStart)] and, exclusive,
    [endIndex = min(dataLength, startIndex + max(10, visibleCount) + 2)]. *)
Definition renderedRange_spec (ROW_HEIGHT scrollTop height : Q)
    (dataLength : Z) (r : VirtualizedRows.Range) : Prop :=
  exists rawStart visibleCount : Z,
    (inject_Z rawStart * ROW_HEIGHT <= scrollTop
       < (inject_Z rawStart + 1) * ROW_HEIGHT)%Q /\
    ((inject_Z visibleCount - 1) * ROW_HEIGHT < JS.or height 300
       <= inject_Z visibleCount * ROW_HEIGHT)%Q /\
    VirtualizedRows.startIndex r = Z.max 0 rawStart /\
    VirtualizedRows.endIndex r
    = Z.min dataLength (Z.max 0 rawStart + Z.max 10 visibleCount + 2).

End WindowSpec.

(** ** Scroll synchronisation, as the specification words it *)

Section ScrollSpec.
Import DataGrid.
Context {Row : Type}.

(** The offset a scroll notification from [src] carries: the [scrollLeft]
    the handler reads from its target. *)
Definition sourceOffset (src : Target) (st : State Row) : option Q :=
  match src with
  | Body => scrollLeft <$> bodyRef st
  | HeaderRegion => scrollLeft <$> headerRef st
  | Elsewhere => None
  end.

(** Both regions are mounted and hold the horizontal offset [L]. *)
Definition bothAt (L : Q) (st : State Row) : Prop :=
  exists b h, bodyRef st = Some b /\ headerRef st = Some h /\
    (scrollLeft b == L)%Q /\ (scrollLeft h == L)%Q.

(** The offset of the region the handler copies to, and the end of that
    region's scroll range. *)
Definition targetOffset (src : Target) (st : State Row) : option Q :=
  match src with
  | Body => scrollLeft <$> headerRef st
  | HeaderRegion => scrollLeft <$> bodyRef st
  | Elsewhere => None
  end.

Definition targetMax (range : ScrollRange) (src : Target) : Q :=
  match src with
  | Body => headerMax range
  | HeaderRegion => bodyMax range
  | Elsewhere => 0
  end.

(** Each mounted region is scrolled to an offset of its scroll range. *)
Definition withinRange (range : ScrollRange) (st : State Row) : Prop :=
  (forall b, bodyRef st = Some b -> (0 <= scrollLeft b <= bodyMax range)%Q) /\
  (forall h, headerRef st = Some h ->
     (0 <= scrollLeft h <= headerMax range)%Q).

End ScrollSpec.

(** ** Predicates on the states of the components *)

(** A column with the bounds the uploader gives, and a width inside them. *)
Definition uploaderColumn (h : Header.t) : Prop :=
  Header.minWidth h = 50%Q /\ Header.maxWidth h = 500%Q /\
  (50 <= Header.width h <= 500)%Q.

(** A column as [parseCSV] builds it, whatever its width: resizable, with
    the bounds 50 and 500. *)
Definition parsedColumn (h : Header.t) : Prop :=
  Header.resizable h = true /\
  Header.minWidth h = 50%Q /\ Header.maxWidth h = 500%Q.

(** The grid is settled: both regions are mounted, the header is at the
    body's horizontal offset and the stored position is the body's. *)
Definition settled {Row : Type} (st : DataGrid.State Row) : Prop :=
  exists b h, DataGrid.bodyRef st = Some b /\ DataGrid.headerRef st = Some h /\
    (DataGrid.scrollLeft h == DataGrid.scrollLeft b)%Q /\
    (DataGrid.top (DataGrid.scrollPosition st) == DataGrid.scrollTop b)%Q /\
    (DataGrid.left (DataGrid.scrollPosition st) == DataGrid.scrollLeft b)%Q.

(** A sort state that clicks on the headers [clicked] can lead to. *)
Definition wellFormed (clicked : list Header.t) (cfg : DataGrid.SortConfig)
    : Prop :=
  (DataGrid.direction cfg = "asc"%string
   \/ DataGrid.direction cfg = "desc"%string) /\
  (DataGrid.key cfg = None -> DataGrid.direction cfg = "asc"%string) /\
  (forall k, DataGrid.key cfg = Some k ->
     exists h, In h clicked /\ Header.sortable h = true /\ Header.id h = k).

(** The mutations of a batch whose key is [k], in the order of the batch. *)
Definition withKey (k : string) (mutations : list Dom.MutationRecord)
    : list Dom.MutationRecord :=
  List.filter (fun m => String.eqb (Observers.targetKey m) k) mutations.

(** The group of [k] once [mutations] have been added to the groups
    [acc]. *)
Definition grouped (acc : gmap string (list Dom.MutationRecord))
    (mutations : list Dom.MutationRecord) (k : string)
    : option (list Dom.MutationRecord) :=
  match acc !! k, withKey k mutations with
  | Some group, more => Some (group ++ more)
  | None, [] => None
  | None, more => Some more
  end.

(** Recomputing the window of the mounted body changes nothing. *)
Definition upToDate {Row : Type} (data : list Row)
    (m : DataGridBody.Mounted Row) : Prop :=
  DataGridBody.calculateVisibleRows (Some (DataGridBody.container m)) data
    (DataGridBody.state m)
  = DataGridBody.state m.

(** Either one frame is requested and the gate is closed, or none is, the
    gate is open and the stored window is the one of the current scroll
    offset. *)
Definition gateInvariant {Row : Type} (data : list Row)
    (m : DataGridBody.Mounted Row) : Prop :=
  (DataGridBody.scrollTicking (DataGridBody.state m) = true
   /\ DataGridBody.frames m = 1%nat) \/
  (DataGridBody.scrollTicking (DataGridBody.state m) = false
   /\ DataGridBody.frames m = 0%nat /\ upToDate data m).

Definition isScroll (ev : DataGridBody.Event) : bool :=
  match ev with DataGridBody.Scroll _ _ => true | DataGridBody.Frame => false end.

(** ** Scenarios *)

(** A grid over 10000 rows, scrolled down to 8000px and right to 120px. *)
Definition scrolledGrid : DataGrid.State nat :=
  {| DataGrid.data := seq 0 (Z.to_nat 10000);
     DataGrid.headers := [Header.ofField "a"];
     DataGrid.sortConfig :=
       {| DataGrid.key := None; DataGrid.direction := "asc" |};
     DataGrid.dimensionsHeight := 300;
     DataGrid.scrollPosition :=
       {| DataGrid.top := 8000; DataGrid.left := 120 |};
     DataGrid.bodyRef :=
       Some {| DataGrid.scrollTop := 8000; DataGrid.scrollLeft := 120 |};
     DataGrid.headerRef :=
       Some {| DataGrid.scrollTop := 0; DataGrid.scrollLeft := 120 |} |}.

(** The grid of the window example: 10000 rows in a container measured
    300px high, scrolled down to 3500px. *)
Definition exampleGrid : DataGrid.State nat :=
  {| DataGrid.data := seq 0 (Z.to_nat 10000);
     DataGrid.headers := [Header.ofField "a"];
     DataGrid.sortConfig :=
       {| DataGrid.key := None; DataGrid.direction := "asc" |};
     DataGrid.dimensionsHeight := 300;
     DataGrid.scrollPosition :=
       {| DataGrid.top := 3500; DataGrid.left := 0 |};
     DataGrid.bodyRef :=
       Some {| DataGrid.scrollTop := 3500; DataGrid.scrollLeft := 0 |};
     DataGrid.headerRef :=
       Some {| DataGrid.scrollTop := 0; DataGrid.scrollLeft := 0 |} |}.



(** Columns 1200px wider than the grid; the body shows a vertical
    scrollbar of 15px, which the header does not have, so the body can be
    scrolled 15px further than the header. *)
Definition scrollbarRange : DataGrid.ScrollRange :=
  {| DataGrid.bodyMax := 1215; DataGrid.headerMax := 1200 |}.

(** The body has been scrolled to the right end of its range, 1215px; the
    header is still at 1100px. *)
Definition farRightGrid : DataGrid.State nat :=
  {| DataGrid.data := [1; 2; 3]%nat;
     DataGrid.headers := [Header.ofField "a"];
     DataGrid.sortConfig :=
       {| DataGrid.key := None; DataGrid.direction := "asc" |};
     DataGrid.dimensionsHeight := 300;
     DataGrid.scrollPosition := {| DataGrid.top := 0; DataGrid.left := 1100 |};
     DataGrid.bodyRef :=
       Some {| DataGrid.scrollTop := 0; DataGrid.scrollLeft := 1215 |};
     DataGrid.headerRef :=
       Some {| DataGrid.scrollTop := 0; DataGrid.scrollLeft := 1100 |} |}.

(** Scroll ranges wide enough for the grids above. *)
Definition wideRange : DataGrid.ScrollRange :=
  {| DataGrid.bodyMax := 2000; DataGrid.headerMax := 2000 |}.

(** The body has been scrolled right to 120px, the header has not yet
    followed. *)
Definition bodyScrolledGrid : DataGrid.State nat :=
  {| DataGrid.data := [1; 2; 3]%nat;
     DataGrid.headers := [Header.ofField "a"];
     DataGrid.sortConfig :=
       {| DataGrid.key := None; DataGrid.direction := "asc" |};
     DataGrid.dimensionsHeight := 300;
     DataGrid.scrollPosition := {| DataGrid.top := 0; DataGrid.left := 0 |};
     DataGrid.bodyRef :=
       Some {| DataGrid.scrollTop := 0; DataGrid.scrollLeft := 120 |};
     DataGrid.headerRef :=
       Some {| DataGrid.scrollTop := 0; DataGrid.scrollLeft := 0 |} |}.

(** A stand-in for [_.orderBy] where a concrete function is needed. *)
Definition reverseOrder : list nat -> list string -> list string -> list nat :=
  fun d _ _ => rev d.

(** A hundred rows, and a body container scrolled down by ten rows whose
    first row measures 40.4px. *)
Definition hundredRows : list nat := seq 0 100.

Definition sampleContainer : DataGridBody.Container :=
  {| DataGridBody.scrollTop := 350;
     DataGridBody.clientHeight := 300;
     DataGridBody.rowElementHeight := Some (202 # 5)%Q |}.


(** The mounted body once its window has been computed, with no frame
    requested. *)
Definition idleBody : DataGridBody.Mounted nat :=
  {| DataGridBody.state :=
       DataGridBody.calculateVisibleRows (Some sampleContainer) hundredRows
         DataGridBody.initialState;
     DataGridBody.container := sampleContainer;
     DataGridBody.scrollLeft := 0;
     DataGridBody.frames := 0;
     DataGridBody.reported := [] |}.

(** The headers of a file with the fields [a] and [b]. *)
Definition twoColumns : list Header.t :=
  CSVUploader.formatHeaders ["a"; "b"]%string.

(** A column that can be neither sorted nor resized, and a column whose
    id is the empty string. *)
Definition plainColumn : Header.t :=
  {| Header.id := "note"; Header.name := "note"; Header.width := 150;
     Header.minWidth := 50; Header.maxWidth := 500;
     Header.resizable := false; Header.sortable := false |}.

Definition unnamedColumn : Header.t := Header.ofField EmptyString.

(** A drag of column [a] in a container whose right edge is at 1000px. *)
Definition edgeDrag : DataGrid.Drag :=
  {| DataGrid.startX := 900; DataGrid.startWidth := 150;
     DataGrid.dragged := Header.ofField "a";
     DataGrid.containerRight := 1000 |}.

(** A batch of mutations: two attribute changes of the element [grid] and
    a child-list change of an element without id. *)
Definition sampleMutations : list Dom.MutationRecord :=
  [ {| Dom.type := Dom.attributes; Dom.attributeName := Some "class"%string;
       Dom.targetId := "grid" |};
    {| Dom.type := Dom.childList; Dom.attributeName := None;
       Dom.targetId := EmptyString |};
    {| Dom.type := Dom.attributes; Dom.attributeName := Some "style"%string;
       Dom.targetId := "grid" |} ].

(** * Properties *)

(** ** Floor and ceiling of a quotient *)

Section WindowProps.
Import DataGridBody.

Lemma inject_Z_succ (a : Z) : (inject_Z (a + 1) == inject_Z a + 1)%Q.
Proof. rewrite inject_Z_plus. reflexivity. Qed.

Lemma inject_Z_pred (a : Z) : (inject_Z (a - 1) == inject_Z a - 1)%Q.
Proof.
  unfold Z.sub. rewrite inject_Z_plus, inject_Z_opp. reflexivity.
Qed.

Lemma floor_div_bounds (x r : Q) :
  (0 < r)%Q ->
  (inject_Z (JS.floor (x / r)) * r <= x /\ x < (inject_Z (JS.floor (x / r)) + 1) * r)%Q.
Proof.
  intros Hr. unfold JS.floor.
  assert (Hx : (x / r * r == x)%Q) by (field; lra).
  pose proof (Qfloor_le (x / r)) as H1.
  pose proof (Qlt_floor (x / r)) as H2.
  rewrite inject_Z_succ in H2.
  split.
  - apply Qle_trans with (x / r * r)%Q; [|lra].
    apply Qmult_le_compat_r; lra.
  - apply Qle_lt_trans with (x / r * r)%Q; [lra|].
    apply Qmult_lt_compat_r; lra.
Qed.

Lemma ceil_div_bounds (x r : Q) :
  (0 < r)%Q ->
  ((inject_Z (JS.ceil (x / r)) - 1) * r < x /\ x <= inject_Z (JS.ceil (x / r)) * r)%Q.
Proof.
  intros Hr. unfold JS.ceil.
  assert (Hx : (x / r * r == x)%Q) by (field; lra).
  pose proof (Qle_ceiling (x / r)) as H1.
  pose proof (Qceiling_lt (x / r)) as H2.
  rewrite inject_Z_pred in H2.
  split.
  - apply Qlt_le_trans with (x / r * r)%Q; [|lra].
    apply Qmult_lt_compat_r; lra.
  - apply Qle_trans with (x / r * r)%Q; [lra|].
    apply Qmult_le_compat_r; lra.
Qed.

(** A positive factor cancels between integer multiples. *)
Lemma mult_lt_cancel (a b : Z) (r : Q) :
  (0 < r)%Q -> (inject_Z a * r < inject_Z b * r)%Q -> a < b.
Proof.
  intros Hr H. apply Qmult_lt_r in H; [|exact Hr].
  now rewrite <- Zlt_Qlt in H.
Qed.

Lemma half_ceil (n : Z) :
  2 * JS.ceil (inject_Z n * (1 # 2)) - 2 < n <= 2 * JS.ceil (inject_Z n * (1 # 2)).
Proof.
  unfold JS.ceil.
  pose proof (Qle_ceiling (inject_Z n * (1 # 2))) as H1.
  pose proof (Qceiling_lt (inject_Z n * (1 # 2))) as H2.
  set (c := Qceiling _) in *.
  rewrite inject_Z_pred in H2.
  split.
  - rewrite Zlt_Qlt. replace (2 * c - 2) with (2 * (c - 1)) by lia.
    rewrite inject_Z_mult, inject_Z_pred. 
    change (inject_Z 2) with 2%Q. lra.
  - rewrite Zle_Qle, inject_Z_mult. change (inject_Z 2) with 2%Q. lra.
Qed.

Lemma visibleWindow_meets_spec s vh rh len :
  (0 < rh)%Q -> computeWindow_spec s vh rh len (visibleWindow s vh rh len).
Proof.
  intros Hr.
  exists (JS.ceil (vh / rh)), (JS.ceil (inject_Z (JS.ceil (vh / rh)) * (1 # 2))),
         (JS.floor (s / rh)).
  split; [apply ceil_div_bounds; exact Hr|].
  split; [apply half_ceil|].
  split; [apply floor_div_bounds; exact Hr|].
  simpl. repeat split; reflexivity.
Qed.

Lemma floor_unique (a b : Z) (x r : Q) :
  (0 < r)%Q ->
  (inject_Z a * r <= x < (inject_Z a + 1) * r)%Q ->
  (inject_Z b * r <= x < (inject_Z b + 1) * r)%Q -> a = b.
Proof.
  intros Hr [Ha1 Ha2] [Hb1 Hb2].
  assert (a < b + 1).
  { apply (mult_lt_cancel _ _ r Hr). rewrite inject_Z_succ. lra. }
  assert (b < a + 1).
  { apply (mult_lt_cancel _ _ r Hr). rewrite inject_Z_succ. lra. }
  lia.
Qed.

Lemma ceil_unique (a b : Z) (x r : Q) :
  (0 < r)%Q ->
  ((inject_Z a - 1) * r < x <= inject_Z a * r)%Q ->
  ((inject_Z b - 1) * r < x <= inject_Z b * r)%Q -> a = b.
Proof.
  intros Hr [Ha1 Ha2] [Hb1 Hb2].
  assert (a - 1 < b).
  { apply (mult_lt_cancel _ _ r Hr). rewrite inject_Z_pred. lra. }
  assert (b - 1 < a).
  { apply (mult_lt_cancel _ _ r Hr). rewrite inject_Z_pred. lra. }
  lia.
Qed.

Lemma computeWindow_spec_unique s vh rh len w1 w2 :
  (0 < rh)%Q ->
  computeWindow_spec s vh rh len w1 -> computeWindow_spec s vh rh len w2 ->
  start w1 = start w2 /\ end_ w1 = end_ w2 /\ (topOffsetPx w1 == topOffsetPx w2)%Q.
Proof.
  intros Hr (v1 & o1 & r1 & Hv1 & Ho1 & Hr1 & Hs1 & He1 & Ht1)
            (v2 & o2 & r2 & Hv2 & Ho2 & Hr2 & Hs2 & He2 & Ht2).
  assert (v1 = v2) by (eapply ceil_unique; eauto).
  assert (r1 = r2) by (eapply floor_unique; eauto).
  assert (o1 = o2) by lia.
  subst. assert (start w1 = start w2) by congruence.
  repeat split; [congruence..|].
  rewrite Ht1, Ht2. rewrite H. reflexivity.
Qed.

Lemma mult_pos_cancel (a : Z) (r : Q) :
  (0 < r)%Q -> (0 < inject_Z a * r)%Q -> 0 < a.
Proof.
  intros Hr H. apply (mult_lt_cancel 0 a r Hr).
  change (inject_Z 0) with 0%Q. lra.
Qed.

(** Signs and bounds of the intermediate quantities. *)
Lemma visibleRowCount_pos (vh rh : Q) :
  (0 < rh)%Q -> (0 < vh)%Q -> 1 <= JS.ceil (vh / rh).
Proof.
  intros Hr Hv. destruct (ceil_div_bounds vh rh Hr) as [_ H].
  assert (0 < JS.ceil (vh / rh)) by (apply (mult_pos_cancel _ rh Hr); lra).
  lia.
Qed.

Lemma rawStart_nonneg (s rh : Q) :
  (0 < rh)%Q -> (0 <= s)%Q -> 0 <= JS.floor (s / rh).
Proof.
  intros Hr Hs. destruct (floor_div_bounds s rh Hr) as [_ H].
  assert (0 < JS.floor (s / rh) + 1).
  { apply (mult_pos_cancel _ rh Hr). rewrite inject_Z_succ. lra. }
  lia.
Qed.

Lemma rawStart_below (s rh : Q) (n : Z) :
  (0 < rh)%Q -> (s < inject_Z n * rh)%Q -> JS.floor (s / rh) < n.
Proof.
  intros Hr Hs. destruct (floor_div_bounds s rh Hr) as [H _].
  apply (mult_lt_cancel _ _ rh Hr). lra.
Qed.

Lemma slice_inside {A : Type} (arr : list A) (s e : Z) :
  0 <= s <= e -> e <= Z.of_nat (length arr) ->
  JS.slice arr s e = firstn (Z.to_nat (e - s)) (skipn (Z.to_nat s) arr) /\
  Z.of_nat (length (JS.slice arr s e)) = e - s.
Proof.
  intros Hs He. unfold JS.slice, JS.relIndex.
  destruct (Z.ltb_spec s 0); [lia|]. destruct (Z.ltb_spec e 0); [lia|].
  rewrite !Z.min_l by lia. split; [reflexivity|].
  rewrite length_firstn, length_skipn. lia.
Qed.

Lemma slice_lookup {A : Type} (arr : list A) (s e : Z) (k : nat) :
  0 <= s <= e -> e <= Z.of_nat (length arr) -> Z.of_nat k < e - s ->
  JS.slice arr s e !! k = arr !! (Z.to_nat s + k)%nat.
Proof.
  intros Hs He Hk. destruct (slice_inside arr s e Hs He) as [-> _].
  rewrite lookup_take_lt by lia. now rewrite lookup_drop.
Qed.

(** The rows [calculateVisibleRows] stores are the rows [start .. end] of
    the dataset. *)
Lemma calculateVisibleRows_rows {Row : Type} (c : Container)
    (data : list Row) (st : State Row) (k : nat) :
  let w := visibleWindow (scrollTop c)
             (JS.or (clientHeight c) (dimensionsHeight st))
             (inject_Z (measuredRowHeight st)) (Z.of_nat (length data)) in
  0 < measuredRowHeight st ->
  0 <= start w -> start w <= end_ w -> end_ w < Z.of_nat (length data) ->
  Z.of_nat k <= end_ w - start w ->
  visibleRows (calculateVisibleRows (Some c) data st) !! k
  = data !! (Z.to_nat (start w) + k)%nat.
Proof.
  intros w _ H0 H1 H2 Hk. cbn [calculateVisibleRows visibleRows]. fold w.
  apply slice_lookup; lia.
Qed.

Lemma div_le_mono (a b r : Q) : (0 < r)%Q -> (a <= b)%Q -> (a / r <= b / r)%Q.
Proof.
  intros Hr Hab. unfold Qdiv. apply Qmult_le_compat_r; [exact Hab|].
  apply Qlt_le_weak, Qinv_lt_0_compat, Hr.
Qed.

Lemma floor_div_mono (a b r : Q) :
  (0 < r)%Q -> (a <= b)%Q -> JS.floor (a / r) <= JS.floor (b / r).
Proof. intros Hr Hab. apply Qfloor_resp_le, div_le_mono; assumption. Qed.

Lemma ceil_div_mono (a b r : Q) :
  (0 < r)%Q -> (a <= b)%Q -> JS.ceil (a / r) <= JS.ceil (b / r).
Proof. intros Hr Hab. apply Qceiling_resp_le, div_le_mono; assumption. Qed.

(** ** The viewport window (DataGridBody) *)

(** C2, without a bound on the scroll offset: with 5 rows of 35px in a
    300px viewport and a scroll offset of 8000 the window starts at row 223
    and ends at row 4; the start is neither below the end nor inside
    [0, 5). *)
Lemma C2_window_out_of_bounds :
  let w := visibleWindow 8000 300 35 5 in
  0 <= 5 /\ (0 <= 8000)%Q /\ (0 < 300)%Q /\ (0 < 35)%Q /\
  start w = 223 /\ end_ w = 4 /\
  ~ (start w <= end_ w) /\ ~ (0 <= start w < 5).
Proof.
  cbv zeta. repeat split; try reflexivity; try discriminate.
  - vm_compute. intros H; apply H; reflexivity.
  - vm_compute. intros [_ H]; discriminate H.
Qed.

(** C2, with the scroll offset inside the scrollable extent: for a
    positive row height, a positive viewport height and a non-negative
    scroll offset, an empty dataset gives the empty
    range ([end = -1], below [start]); and whenever the scroll offset lies
    inside the scrollable extent [datasetLength * rowHeight], the window
    satisfies [0 <= start <= end < datasetLength] and the slice taken from
    the dataset has exactly [end - start + 1] rows. *)
Theorem C2_window_in_bounds
    (scrollTop viewportHeight rowHeight : Q) (datasetLength : Z) :
  (0 < rowHeight)%Q -> (0 < viewportHeight)%Q -> (0 <= scrollTop)%Q ->
  0 <= datasetLength ->
  let w := visibleWindow scrollTop viewportHeight rowHeight datasetLength in
  (datasetLength = 0 -> end_ w = -1 /\ end_ w < start w) /\
  ((scrollTop < inject_Z datasetLength * rowHeight)%Q ->
     0 <= start w /\ start w <= end_ w /\ end_ w < datasetLength /\
     forall (Row : Type) (data : list Row),
       Z.of_nat (length data) = datasetLength ->
       Z.of_nat (length (JS.slice data (start w) (end_ w + 1)))
       = end_ w - start w + 1).
Proof.
  intros Hr Hv Hs Hn w.
  pose proof (visibleRowCount_pos _ _ Hr Hv) as Hvc.
  pose proof (half_ceil (JS.ceil (viewportHeight / rowHeight))) as Hos.
  pose proof (rawStart_nonneg _ _ Hr Hs) as Hrs.
  assert (Hw : (scrollTop < inject_Z datasetLength * rowHeight)%Q ->
               0 <= start w /\ start w <= end_ w /\ end_ w < datasetLength).
  { intros Hlt. pose proof (rawStart_below _ _ _ Hr Hlt).
    subst w. unfold visibleWindow. cbn [start end_]. lia. }
  split.
  - intros ->. subst w. unfold visibleWindow. cbn [start end_]. lia.
  - intros Hlt. destruct (Hw Hlt) as (H0 & H1 & H2).
    repeat split; try assumption.
    intros Row data Hlen.
    destruct (slice_inside data (start w) (end_ w + 1)) as [_ ->]; lia.
Qed.

Lemma C2_window_in_bounds_witness :
  let w := visibleWindow 3500 300 35 10000 in
  0 <= start w /\ start w <= end_ w /\ end_ w < 10000.
Proof.
  assert (Hr : (0 < 35)%Q) by reflexivity.
  assert (Hv : (0 < 300)%Q) by reflexivity.
  assert (Hs : (0 <= 3500)%Q) by (intros H; discriminate H).
  assert (Hn : 0 <= 10000) by lia.
  destruct (C2_window_in_bounds 3500 300 35 10000 Hr Hv Hs Hn) as [_ H].
  destruct (H eq_refl) as (A & B & C & _).
  cbv zeta. repeat split; assumption.
Defined.

Lemma visibleWindow_covers
    (scrollTop viewportHeight rowHeight : Q) (datasetLength i : Z) (p : Q) :
  (0 < rowHeight)%Q -> 0 <= i < datasetLength ->
  inRowSpan rowHeight i p -> inViewport scrollTop viewportHeight p ->
  let w := visibleWindow scrollTop viewportHeight rowHeight datasetLength in
  start w <= i <= end_ w.
Proof.
  intros Hr Hi [Hp1 Hp2] [Hq1 Hq2] w.
  assert (Hv : (0 < viewportHeight)%Q) by lra.
  pose proof (visibleRowCount_pos _ _ Hr Hv) as Hvc.
  pose proof (half_ceil (JS.ceil (viewportHeight / rowHeight))) as Hos.
  destruct (floor_div_bounds scrollTop rowHeight Hr) as [Hf1 Hf2].
  destruct (ceil_div_bounds viewportHeight rowHeight Hr) as [Hc1 Hc2].
  assert (JS.floor (scrollTop / rowHeight) < i + 1).
  { apply (mult_lt_cancel _ _ rowHeight Hr). rewrite inject_Z_succ. lra. }
  assert (i < JS.floor (scrollTop / rowHeight) + 1
              + JS.ceil (viewportHeight / rowHeight)).
  { apply (mult_lt_cancel _ _ rowHeight Hr).
    rewrite inject_Z_plus, inject_Z_succ. lra. }
  subst w. unfold visibleWindow. cbn [start end_]. lia.
Qed.

End WindowProps.

(** ** The window DataGrid renders (VirtualizedRows) *)

Section VirtualizedProps.
Import VirtualizedRows.

(** On the input of the specification's example VirtualizedRows renders
    the rows [100, 112): no overscan above, two extra rows below. *)
Lemma VirtualizedRows_example :
  visibleRange 35 3500 (DataGrid.visibleRowsCount 35 300) 10000
  = {| startIndex := 100; endIndex := 112 |}.
Proof. reflexivity. Qed.

(** The sentinel callbacks leave a range computed by the effect as it is. *)
Lemma visibleRange_settled (RH scrollTop : Q) (count len : Z) :
  (0 < RH)%Q ->
  let r := visibleRange RH scrollTop count len in
  loadAbove r = r /\ loadBelow len r = r.
Proof.
  intros _. unfold visibleRange, loadAbove, loadBelow. cbn [startIndex endIndex].
  split; f_equal; lia.
Qed.

Lemma visibleRange_in_bounds (RH scrollTop : Q) (count len : Z) :
  (0 < RH)%Q -> (0 <= scrollTop < inject_Z len * RH)%Q -> 0 <= count ->
  let r := visibleRange RH scrollTop count len in
  0 <= startIndex r /\ startIndex r < endIndex r /\ endIndex r <= len.
Proof.
  intros Hr [Hs1 Hs2] Hc r.
  pose proof (rawStart_nonneg _ _ Hr Hs1).
  pose proof (rawStart_below _ _ _ Hr Hs2).
  subst r. unfold visibleRange. cbn [startIndex endIndex]. lia.
Qed.

Lemma visibleRange_covers (RH scrollTop viewportHeight : Q) (count len i : Z)
    (p : Q) :
  (0 < RH)%Q -> (0 <= scrollTop)%Q -> 0 <= i < len ->
  JS.ceil (viewportHeight / RH) <= count + 1 ->
  inRowSpan RH i p -> inViewport scrollTop viewportHeight p ->
  let r := visibleRange RH scrollTop count len in
  startIndex r <= i < endIndex r.
Proof.
  intros Hr Hs Hi Hc [Hp1 Hp2] [Hq1 Hq2] r.
  pose proof (rawStart_nonneg _ _ Hr Hs) as Hrs.
  destruct (floor_div_bounds scrollTop RH Hr) as [Hf1 Hf2].
  destruct (ceil_div_bounds viewportHeight RH Hr) as [Hc1 Hc2].
  assert (JS.floor (scrollTop / RH) < i + 1).
  { apply (mult_lt_cancel _ _ RH Hr). rewrite inject_Z_succ. lra. }
  assert (i < JS.floor (scrollTop / RH) + 1 + JS.ceil (viewportHeight / RH)).
  { apply (mult_lt_cancel _ _ RH Hr).
    rewrite inject_Z_plus, inject_Z_succ. lra. }
  subst r. unfold visibleRange. cbn [startIndex endIndex]. lia.
Qed.

End VirtualizedProps.

(** ** The two windows: DataGridBody's and the one DataGrid renders *)

Section RenderedWindow.

Lemma visibleRange_meets_spec (RH scrollTop height : Q) (len : Z) :
  (0 < RH)%Q ->
  renderedRange_spec RH scrollTop height len
    (VirtualizedRows.visibleRange RH scrollTop
       (DataGrid.visibleRowsCount RH height) len).
Proof.
  intros Hr.
  exists (JS.floor (scrollTop / RH)), (JS.ceil (JS.or height 300 / RH)).
  split; [apply floor_div_bounds; exact Hr|].
  split; [apply ceil_div_bounds; exact Hr|].
  split; reflexivity.
Qed.

Lemma renderedRange_spec_unique (RH scrollTop height : Q) (len : Z)
    (r1 r2 : VirtualizedRows.Range) :
  (0 < RH)%Q ->
  renderedRange_spec RH scrollTop height len r1 ->
  renderedRange_spec RH scrollTop height len r2 ->
  VirtualizedRows.startIndex r1 = VirtualizedRows.startIndex r2 /\
  VirtualizedRows.endIndex r1 = VirtualizedRows.endIndex r2.
Proof.
  intros Hr (s1 & v1 & Hs1 & Hv1 & E1 & F1) (s2 & v2 & Hs2 & Hv2 & E2 & F2).
  assert (s1 = s2) by (eapply floor_unique; eauto).
  assert (v1 = v2) by (eapply ceil_unique; eauto).
  subst. split; congruence.
Qed.

(** C1: two windows are computed in the code.  For a positive row height
    the window of [calculateVisibleRows] (DataGridBody) is exactly the
    formula of the specification: it satisfies [computeWindow_spec], every
    window satisfying it has the same [start], [end] and top offset, and
    for 10000 rows of 35px in a 300px viewport scrolled to 3500 it is
    [95 .. 114].  The range DataGrid renders through VirtualizedRows is
    exactly the formula of [renderedRange_spec]: it starts at
    [max(0, floor(scrollTop / ROW_HEIGHT))], with no overscan above, ends
    before [min(dataLength, startIndex + max(10, ceil((height || 300) /
    ROW_HEIGHT)) + 2)], and is placed at [startIndex * ROW_HEIGHT]; on the
    same example it is the rows [100 .. 111]. *)
Theorem C1_window_formula :
  (forall scrollTop viewportHeight rowHeight datasetLength,
      (0 < rowHeight)%Q ->
      let w := DataGridBody.visibleWindow scrollTop viewportHeight rowHeight
                 datasetLength in
      computeWindow_spec scrollTop viewportHeight rowHeight datasetLength w /\
      forall w',
        computeWindow_spec scrollTop viewportHeight rowHeight datasetLength
          w' ->
        DataGridBody.start w' = DataGridBody.start w /\
        DataGridBody.end_ w' = DataGridBody.end_ w /\
        (DataGridBody.topOffsetPx w' == DataGridBody.topOffsetPx w)%Q) /\
  (forall (Row : Type) (c : DataGridBody.Container) (data : list Row)
          (st : DataGridBody.State Row),
      0 < DataGridBody.measuredRowHeight st ->
      let w := DataGridBody.visibleWindow (DataGridBody.scrollTop c)
                 (JS.or (DataGridBody.clientHeight c)
                        (DataGridBody.dimensionsHeight st))
                 (inject_Z (DataGridBody.measuredRowHeight st))
                 (Z.of_nat (length data)) in
      let st' := DataGridBody.calculateVisibleRows (Some c) data st in
      DataGridBody.startIndex st' = DataGridBody.start w /\
      DataGridBody.visibleRows st'
      = JS.slice data (DataGridBody.start w) (DataGridBody.end_ w + 1) /\
      (inject_Z (DataGridBody.startIndex st')
       * inject_Z (DataGridBody.measuredRowHeight st')
       == DataGridBody.topOffsetPx w)%Q) /\
  (let w := DataGridBody.visibleWindow 3500 300 35 10000 in
   DataGridBody.start w = 95 /\ DataGridBody.end_ w = 114) /\
  (forall ROW_HEIGHT scrollTop height dataLength,
      (0 < ROW_HEIGHT)%Q ->
      let r := VirtualizedRows.visibleRange ROW_HEIGHT scrollTop
                 (DataGrid.visibleRowsCount ROW_HEIGHT height) dataLength in
      renderedRange_spec ROW_HEIGHT scrollTop height dataLength r /\
      (forall r',
         renderedRange_spec ROW_HEIGHT scrollTop height dataLength r' ->
         VirtualizedRows.startIndex r' = VirtualizedRows.startIndex r /\
         VirtualizedRows.endIndex r' = VirtualizedRows.endIndex r) /\
      VirtualizedRows.offsetY ROW_HEIGHT r
      = (inject_Z (VirtualizedRows.startIndex r) * ROW_HEIGHT)%Q) /\
  (forall (Row : Type) (ROW_HEIGHT : Q)
          (orderBy : list Row -> list string -> list string -> list Row)
          (st : DataGrid.State Row),
      (0 < ROW_HEIGHT)%Q ->
      DataGrid.renderedRange ROW_HEIGHT orderBy st
      = VirtualizedRows.visibleRange ROW_HEIGHT
          (DataGrid.top (DataGrid.scrollPosition st))
          (DataGrid.visibleRowsCount ROW_HEIGHT (DataGrid.dimensionsHeight st))
          (Z.of_nat (length (DataGrid.sortedRows orderBy (DataGrid.data st)
                               (DataGrid.sortConfig st))))) /\
  (let r := DataGrid.renderedRange 35 reverseOrder exampleGrid in
   VirtualizedRows.startIndex r = 100 /\ VirtualizedRows.endIndex r - 1 = 111).
Proof.
  split; [|split; [|split; [|split; [|split]]]].
  - intros s vh rh len Hr w. split.
    + apply visibleWindow_meets_spec; exact Hr.
    + intros w' Hw'.
      apply (computeWindow_spec_unique s vh rh len w' w Hr Hw').
      apply visibleWindow_meets_spec; exact Hr.
  - intros Row c data st _ w st'. repeat split; reflexivity.
  - split; reflexivity.
  - intros RH s h len Hr r. split; [|split].
    + apply visibleRange_meets_spec; exact Hr.
    + intros r' Hr'.
      apply (renderedRange_spec_unique RH s h len r' r Hr Hr').
      apply visibleRange_meets_spec; exact Hr.
    + reflexivity.
  - intros Row RH orderBy st _. reflexivity.
  - split; vm_compute; reflexivity.
Qed.

Lemma C1_window_formula_witness :
  (0 < 35)%Q /\
  computeWindow_spec 3500 300 35 10000
    (DataGridBody.visibleWindow 3500 300 35 10000) /\
  renderedRange_spec 35 3500 300 10000
    (VirtualizedRows.visibleRange 35 3500 (DataGrid.visibleRowsCount 35 300)
       10000).
Proof.
  split; [reflexivity|]. split.
  - exact (proj1 (proj1 C1_window_formula 3500%Q 300%Q 35%Q 10000 eq_refl)).
  - exact (proj1 (proj1 (proj2 (proj2 (proj2 C1_window_formula)))
                    35%Q 3500%Q 300%Q 10000 eq_refl)).
Defined.

(** C1, on the example of the specification, for the window the grid
    shows: with 10000 rows of 35px in a container 300px high, scrolled to
    3500, DataGrid renders the rows 100 to 111; the rows 95 to 99 and 112
    to 114 of the window [95 .. 114] are not rendered. *)
Lemma C1_rendered_window_differs :
  let r := DataGrid.renderedRange 35 reverseOrder exampleGrid in
  let rendered :=
    VirtualizedRows.visibleData
      (DataGrid.sortedRows reverseOrder (DataGrid.data exampleGrid)
         (DataGrid.sortConfig exampleGrid)) r in
  (0 < 35)%Q /\
  DataGrid.data exampleGrid = seq 0 (Z.to_nat 10000) /\
  VirtualizedRows.startIndex r = 100 /\
  VirtualizedRows.endIndex r = 112 /\
  rendered = seq 100 12 /\
  ~ In 95%nat rendered /\ ~ In 114%nat rendered.
Proof.
  cbv zeta.
  assert (E : VirtualizedRows.visibleData
                (DataGrid.sortedRows reverseOrder (DataGrid.data exampleGrid)
                   (DataGrid.sortConfig exampleGrid))
                (DataGrid.renderedRange 35 reverseOrder exampleGrid)
              = seq 100 12) by (vm_compute; reflexivity).
  rewrite E.
  split; [reflexivity|]. split; [reflexivity|].
  split; [vm_compute; reflexivity|]. split; [vm_compute; reflexivity|].
  split; [reflexivity|].
  split; intros H; apply in_seq in H; lia.
Qed.

(** C3: for a positive row height, every row of the dataset whose pixel
    span meets the visible interval lies inside the window of
    [calculateVisibleRows]; and it lies inside the range DataGrid renders
    through VirtualizedRows when the scroll offset is not negative and the
    viewport is no higher than the container height DataGrid has measured
    (300 while it has measured none). *)
Theorem C3_visible_rows_covered :
  (forall (scrollTop viewportHeight rowHeight : Q) (datasetLength i : Z)
          (p : Q),
      (0 < rowHeight)%Q -> 0 <= i < datasetLength ->
      inRowSpan rowHeight i p -> inViewport scrollTop viewportHeight p ->
      let w := DataGridBody.visibleWindow scrollTop viewportHeight rowHeight
                 datasetLength in
      DataGridBody.start w <= i <= DataGridBody.end_ w) /\
  (forall (ROW_HEIGHT scrollTop viewportHeight height : Q)
          (dataLength i : Z) (p : Q),
      (0 < ROW_HEIGHT)%Q -> (0 <= scrollTop)%Q ->
      (viewportHeight <= JS.or height 300)%Q ->
      0 <= i < dataLength ->
      inRowSpan ROW_HEIGHT i p -> inViewport scrollTop viewportHeight p ->
      let r := VirtualizedRows.visibleRange ROW_HEIGHT scrollTop
                 (DataGrid.visibleRowsCount ROW_HEIGHT height) dataLength in
      VirtualizedRows.startIndex r <= i < VirtualizedRows.endIndex r).
Proof.
  split.
  - intros s vh rh len i p Hr Hi Hp Hq.
    exact (visibleWindow_covers s vh rh len i p Hr Hi Hp Hq).
  - intros RH s vh h len i p Hr Hs Hvh Hi Hp Hq.
    apply (visibleRange_covers RH s vh _ len i p Hr Hs Hi); [|exact Hp|exact Hq].
    pose proof (ceil_div_mono vh (JS.or h 300) RH Hr Hvh).
    unfold DataGrid.visibleRowsCount. lia.
Qed.

Lemma C3_visible_rows_covered_witness :
  (let w := DataGridBody.visibleWindow 3500 300 35 10000 in
   DataGridBody.start w <= 108 <= DataGridBody.end_ w) /\
  (let r := VirtualizedRows.visibleRange 35 3500
              (DataGrid.visibleRowsCount 35 300) 10000 in
   VirtualizedRows.startIndex r <= 108 < VirtualizedRows.endIndex r).
Proof.
  assert (Hr : (0 < 35)%Q) by reflexivity.
  assert (Hs : (0 <= 3500)%Q) by (intros H; discriminate H).
  assert (Hvh : (300 <= JS.or 300 300)%Q) by (vm_compute; intros H; discriminate H).
  assert (Hi : 0 <= 108 < 10000) by lia.
  assert (Hp : inRowSpan 35 108 3799).
  { split; [intros H; discriminate H | reflexivity]. }
  assert (Hq : inViewport 3500 300 3799).
  { split; [intros H; discriminate H | reflexivity]. }
  split.
  - exact (proj1 C3_visible_rows_covered 3500%Q 300%Q 35%Q 10000 108 3799%Q
             Hr Hi Hp Hq).
  - exact (proj2 C3_visible_rows_covered 35%Q 3500%Q 300%Q 300%Q 10000 108
             3799%Q Hr Hs Hvh Hi Hp Hq).
Defined.

(** C3, for a grid that has not measured its container yet: a grid just
    mounted on a hundred rows of 35px renders the rows [0 .. 11], the range
    for a height of 300px; in a viewport of 700px row 15 is visible, at
    pixel 530, and is not in the range. *)
Lemma C3_unmeasured_viewport_gap :
  let st := DataGrid.mount hundredRows twoColumns in
  let r := DataGrid.renderedRange 35 reverseOrder st in
  (0 < 35)%Q /\ 0 <= 15 < Z.of_nat (length (DataGrid.data st)) /\
  DataGrid.dimensionsHeight st = 0%Q /\
  inRowSpan 35 15 530 /\ inViewport 0 700 530 /\
  VirtualizedRows.startIndex r = 0 /\ VirtualizedRows.endIndex r = 12 /\
  ~ (VirtualizedRows.startIndex r <= 15 <= VirtualizedRows.endIndex r).
Proof.
  cbv zeta.
  assert (E : DataGrid.renderedRange 35 reverseOrder
                (DataGrid.mount hundredRows twoColumns)
              = {| VirtualizedRows.startIndex := 0;
                   VirtualizedRows.endIndex := 12 |})
    by (vm_compute; reflexivity).
  rewrite E. cbn [VirtualizedRows.startIndex VirtualizedRows.endIndex].
  split; [reflexivity|]. split; [vm_compute; split; [discriminate|reflexivity]|].
  split; [reflexivity|].
  split; [split; [intros H; discriminate H | reflexivity]|].
  split; [split; [intros H; discriminate H | reflexivity]|].
  split; [reflexivity|]. split; [reflexivity|]. lia.
Qed.

End RenderedWindow.

(** ** The sort engine (DataGrid) *)

Section SortProps.
Import DataGrid.
Context {Row : Type}.
Variable orderBy : list Row -> list string -> list string -> list Row.

Lemma handleSort_cycle (k : string) :
  handleSort k
    (handleSort k (handleSort k {| key := None; direction := "asc" |}))
  = {| key := None; direction := "asc" |}.
Proof.
  unfold handleSort at 3. cbn [key direction].
  rewrite bool_decide_eq_false_2 by discriminate.
  unfold handleSort at 2. cbn [key direction].
  rewrite bool_decide_eq_true_2 by reflexivity. cbn.
  unfold handleSort. cbn [key direction].
  rewrite bool_decide_eq_true_2 by reflexivity. reflexivity.
Qed.

Lemma onHeaderClick_sortable (header : Header.t) (cfg : SortConfig) :
  onHeaderClick header cfg
  = if Header.sortable header then handleSort (Header.id header) cfg else cfg.
Proof. reflexivity. Qed.

(** C4: the three-state toggle.  Activating column [k] turns
    [{k, asc}] into [{k, desc}], [{k, desc}] into the unsorted state
    [{null, asc}], and every state whose key is not [k] into [{k, asc}]. *)
Theorem C4_sort_toggle (k : string) (prev : SortConfig) :
  (key prev = Some k -> direction prev = "asc" ->
     handleSort k prev = {| key := Some k; direction := "desc" |}) /\
  (key prev = Some k -> direction prev = "desc" ->
     handleSort k prev = {| key := None; direction := "asc" |}) /\
  (key prev <> Some k ->
     handleSort k prev = {| key := Some k; direction := "asc" |}).
Proof.
  unfold handleSort. repeat split.
  - intros Hk ->. rewrite bool_decide_eq_true_2 by exact Hk. reflexivity.
  - intros Hk ->. rewrite bool_decide_eq_true_2 by exact Hk. reflexivity.
  - intros Hk. rewrite bool_decide_eq_false_2 by exact Hk. reflexivity.
Qed.

(** C5: deriving the sorted view leaves every array of the store, the
    dataset among them, as it was; the view holds the rows [sortedRows]
    denotes; with no active key the view is the dataset itself, in its
    original order; and three activations of one column from the unsorted
    state give back that view. *)
Theorem C5_sorted_view_preserves_dataset
    (store : gmap positive (list Row)) (d : positive) (cfg : SortConfig)
    (rows : list Row) :
  store !! d = Some rows ->
  let res := sortedData orderBy store d cfg in
  (forall l v, store !! l = Some v -> res.1 !! l = Some v) /\
  res.1 !! d = Some rows /\
  res.1 !! res.2 = Some (sortedRows orderBy rows cfg) /\
  (keyTruthy (key cfg) = false ->
     res = (store, d) /\ sortedRows orderBy rows cfg = rows) /\
  (forall k,
     sortedData orderBy store d
       (handleSort k
          (handleSort k (handleSort k {| key := None; direction := "asc" |})))
     = (store, d)).
Proof.
  intros Hd res.
  assert (Hpres : forall l v, store !! l = Some v -> res.1 !! l = Some v).
  { intros l v Hl. subst res. unfold sortedData.
    destruct (negb (keyTruthy (key cfg))); [exact Hl|]. cbn [fst].
    rewrite lookup_insert_ne; [exact Hl|].
    intros Heq. pose proof (is_fresh (dom store)) as Hf.
    rewrite Heq in Hf. apply Hf. apply elem_of_dom. eauto. }
  split; [exact Hpres|]. split; [apply Hpres; exact Hd|].
  split.
  { subst res. unfold sortedData, sortedRows.
    destruct (negb (keyTruthy (key cfg))); cbn [fst snd]; [exact Hd|].
    rewrite lookup_insert_eq, Hd. reflexivity. }
  split.
  { intros Hk. subst res. unfold sortedData, sortedRows. rewrite Hk.
    split; reflexivity. }
  intros k. rewrite handleSort_cycle. reflexivity.
Qed.

End SortProps.

Lemma C4_sort_toggle_witness :
  DataGrid.handleSort "age"
    {| DataGrid.key := Some "age"%string; DataGrid.direction := "asc" |}
  = {| DataGrid.key := Some "age"%string; DataGrid.direction := "desc" |}.
Proof.
  exact (proj1 (C4_sort_toggle "age"
                  {| DataGrid.key := Some "age"%string;
                     DataGrid.direction := "asc" |})
               eq_refl eq_refl).
Defined.

Lemma C5_sorted_view_preserves_dataset_witness :
  let store : gmap positive (list nat) := {[ 1%positive := [3; 1; 2]%nat ]} in
  let cfg := {| DataGrid.key := Some "age"%string;
                DataGrid.direction := "asc" |} in
  (DataGrid.sortedData reverseOrder store 1 cfg).1 !! 1%positive
  = Some [3; 1; 2]%nat.
Proof.
  intros store cfg.
  assert (Hd : store !! 1%positive = Some [3; 1; 2]%nat) by reflexivity.
  exact (proj1 (proj2
           (C5_sorted_view_preserves_dataset reverseOrder store 1 cfg
              [3; 1; 2]%nat Hd))).
Defined.

(** ** Column resizing (DataGrid and DataGridHeader) *)

Section ResizeProps.
Import DataGrid.

Lemma clamp_cases (x lo hi : Q) :
  (lo <= hi)%Q ->
  ((x < lo)%Q -> JS.clamp x lo hi = lo) /\
  ((hi < x)%Q -> JS.clamp x lo hi = hi) /\
  ((lo <= x <= hi)%Q -> JS.clamp x lo hi = x).
Proof.
  intros Hb. unfold JS.clamp.
  destruct (Qle_bool x hi) eqn:E1.
  - apply Qle_bool_iff in E1.
    destruct (Qle_bool lo x) eqn:E2.
    + apply Qle_bool_iff in E2. repeat split; intros; try reflexivity; lra.
    + assert (~ (lo <= x)%Q) by (rewrite <- Qle_bool_iff, E2; discriminate).
      repeat split; intros; try reflexivity; lra.
  - assert (~ (x <= hi)%Q) by (rewrite <- Qle_bool_iff, E1; discriminate).
    destruct (Qle_bool lo hi) eqn:E2.
    + repeat split; intros; try reflexivity; lra.
    + assert (~ (lo <= hi)%Q) by (rewrite <- Qle_bool_iff, E2; discriminate). lra.
Qed.

Lemma max_min_cases (x lo hi : Q) :
  (lo <= hi)%Q ->
  ((x < lo)%Q -> JS.max lo (JS.min hi x) = lo) /\
  ((hi < x)%Q -> JS.max lo (JS.min hi x) = hi) /\
  ((lo <= x <= hi)%Q -> JS.max lo (JS.min hi x) == x)%Q.
Proof.
  intros Hb. unfold JS.max, JS.min.
  destruct (Qle_bool hi x) eqn:E1.
  - apply Qle_bool_iff in E1.
    destruct (Qle_bool lo hi) eqn:E2.
    + repeat split; intros; try reflexivity; lra.
    + assert (~ (lo <= hi)%Q) by (rewrite <- Qle_bool_iff, E2; discriminate). lra.
  - assert (~ (hi <= x)%Q) by (rewrite <- Qle_bool_iff, E1; discriminate).
    destruct (Qle_bool lo x) eqn:E2.
    + apply Qle_bool_iff in E2. repeat split; intros; try reflexivity; lra.
    + assert (~ (lo <= x)%Q) by (rewrite <- Qle_bool_iff, E2; discriminate).
      repeat split; intros; try reflexivity; lra.
Qed.


Lemma handleColumnResize_widths (columnId : string) (newWidth : Q)
    (hs : list Header.t) (i : nat) (h : Header.t) :
  hs !! i = Some h ->
  handleColumnResize columnId newWidth hs !! i
  = Some (if String.eqb (Header.id h) columnId
          then Header.withWidth newWidth h else h).
Proof.
  intros Hi. unfold handleColumnResize.
  change (List.map ?f hs) with (f <$> hs).
  rewrite list_lookup_fmap, Hi. reflexivity.
Qed.

Lemma handleMouseMove_headers {Row : Type} (d : Drag) (x sw cw : Q)
    (st : State Row) :
  headers (handleMouseMove d x sw cw st)
  = handleColumnResize (Header.id (dragged d))
      (JS.clamp (startWidth d + (x - startX d)) 50 500) (headers st).
Proof.
  unfold handleMouseMove. cbn [setHeaders headerRef].
  destruct (headerRef st) as [h|]; [|reflexivity].
  destruct (Qlt_le_dec _ _); [|reflexivity].
  destruct (Qlt_le_dec _ _); reflexivity.
Qed.

(** A column that is not resizable has no handle, hence no gesture. *)
Lemma not_resizable_no_gesture (header : Header.t) (x r : Q) :
  Header.resizable header = false -> onMouseDown header x r = None.
Proof. intros H. unfold onMouseDown. now rewrite H. Qed.

Lemma find_some_id (headerId : string) (hs : list Header.t) (h : Header.t) :
  Header.find headerId hs = Some h -> Header.id h = headerId.
Proof.
  unfold Header.find. intros H. apply find_some in H as [_ H].
  now apply String.eqb_eq in H.
Qed.

Lemma header_not_resizable_noop (x : Q) (headerId : string)
    (hs : list Header.t) (h : Header.t) (st : DataGridHeader.State) :
  Header.find headerId hs = Some h -> Header.resizable h = false ->
  DataGridHeader.handleResizeStart x headerId hs st = Some st.
Proof.
  intros Hf Hr. unfold DataGridHeader.handleResizeStart. now rewrite Hf, Hr.
Qed.

Lemma header_idle_resizeEnd (x : Q) (hs : list Header.t) :
  DataGridHeader.handleResizeEnd x hs DataGridHeader.initialState
  = Some (DataGridHeader.initialState, None).
Proof. reflexivity. Qed.

Lemma header_resizeEnd_clamps (x : Q) (hs : list Header.t)
    (st : DataGridHeader.State) (column : string) (h : Header.t) :
  DataGridHeader.resizing st = Some column ->
  Header.find column hs = Some h ->
  exists st', 
    DataGridHeader.handleResizeEnd x hs st
    = Some (st', Some (column,
          JS.max (Header.minWidth h)
            (JS.min (Header.maxWidth h)
               (DataGridHeader.startWidth st + (x - DataGridHeader.startX st))%Q))).
Proof.
  intros Hr Hf. unfold DataGridHeader.handleResizeEnd. rewrite Hr, Hf.
  eexists. reflexivity.
Qed.

(** For a column as [parseCSV] builds it the fixed interval of the DataGrid
    gesture is the column's own. *)
Lemma handleMouseMove_uploader_column {Row : Type} (field : string)
    (x r sw cw : Q) (st : State Row) (i : nat) :
  headers st !! i = Some (Header.ofField field) ->
  exists drag, 
    onMouseDown (Header.ofField field) x r = Some drag /\
    forall x',
      headers (handleMouseMove drag x' sw cw st) !! i
      = Some (Header.withWidth
                (JS.clamp (Header.width (Header.ofField field) + (x' - x))
                   (Header.minWidth (Header.ofField field))
                   (Header.maxWidth (Header.ofField field)))
                (Header.ofField field)).
Proof.
  intros Hi. eexists. split; [reflexivity|].
  intros x'. rewrite handleMouseMove_headers.
  rewrite (handleColumnResize_widths _ _ _ _ _ Hi).
  cbn [dragged Header.id Header.ofField startWidth startX].
  rewrite String.eqb_refl. reflexivity.
Qed.

Lemma handleMouseMove_parsed {Row : Type} (d : Drag) (x sw cw : Q)
    (st : State Row) :
  Forall parsedColumn (headers st) ->
  Forall parsedColumn (headers (handleMouseMove d x sw cw st)).
Proof.
  intros Hall. rewrite handleMouseMove_headers.
  unfold handleColumnResize. apply List.Forall_forall. intros h Hin.
  apply in_map_iff in Hin as (h0 & <- & Hin0).
  rewrite List.Forall_forall in Hall. specialize (Hall h0 Hin0).
  destruct (String.eqb _ _); exact Hall.
Qed.

Lemma dragAll_parsed {Row : Type} (d : list Row) (fields : list string)
    (moves : list (Drag * Q * Q * Q)) :
  Forall parsedColumn
    (headers (dragAll moves
                (initialState d (CSVUploader.formatHeaders fields)))).
Proof.
  assert (H0 : Forall parsedColumn
                 (headers (initialState d
                             (CSVUploader.formatHeaders fields)))).
  { cbn [initialState headers]. unfold CSVUploader.formatHeaders.
    apply List.Forall_forall. intros h Hin.
    apply in_map_iff in Hin as (f & <- & _). repeat split. }
  revert H0. generalize (initialState d (CSVUploader.formatHeaders fields)).
  induction moves as [|[[[dr x] sw] cw] rest IH]; intros st0 H0.
  - exact H0.
  - change (dragAll ((dr, x, sw, cw) :: rest) st0)
      with (dragAll rest (handleMouseMove dr x sw cw st0)).
    apply IH. apply handleMouseMove_parsed. exact H0.
Qed.

(** C6: in a grid on the headers of a loaded file, after any resize moves
    made so far, every column [c] has a resize handle, and a drag of that
    handle stores for the column exactly the proposed width
    [c.width + (clientX' - clientX)] clamped into the column's own bounds
    [c.minWidth, c.maxWidth]: the minimum for a proposal below it, the
    maximum for a proposal above it, the proposal itself in between; all
    other fields of the column are kept.  Every width is the proposal of
    some pointer position.  A column that is not resizable has no handle,
    so no gesture starts on it.  In DataGridHeader, [handleResizeEnd]
    reports the proposed width clamped into the bounds of the column being
    dragged, and [handleResizeStart] on a column that is not resizable
    leaves the state as it is. *)
Theorem C6_resize_clamps_into_column_bounds :
  (forall (Row : Type) (d : list Row) (fields : list string)
          (moves : list (Drag * Q * Q * Q)) (i : nat) (c : Header.t)
          (clientX containerRight : Q),
      let st := dragAll moves
                  (initialState d (CSVUploader.formatHeaders fields)) in
      headers st !! i = Some c ->
      (Header.minWidth c <= Header.maxWidth c)%Q /\
      exists drag,
        onMouseDown c clientX containerRight = Some drag /\
        forall clientX' scrollWidth clientWidth : Q,
          let proposed := (Header.width c + (clientX' - clientX))%Q in
          let c' :=
            Header.withWidth
              (JS.clamp proposed (Header.minWidth c) (Header.maxWidth c)) c in
          headers (handleMouseMove drag clientX' scrollWidth clientWidth st)
            !! i = Some c' /\
          ((proposed < Header.minWidth c)%Q ->
             Header.width c' = Header.minWidth c) /\
          ((Header.maxWidth c < proposed)%Q ->
             Header.width c' = Header.maxWidth c) /\
          ((Header.minWidth c <= proposed <= Header.maxWidth c)%Q ->
             Header.width c' = proposed)) /\
  (forall (c : Header.t) (clientX w : Q),
      exists clientX', (Header.width c + (clientX' - clientX) == w)%Q) /\
  (forall (c : Header.t) (clientX containerRight : Q),
      Header.resizable c = false ->
      onMouseDown c clientX containerRight = None) /\
  (forall (x : Q) (hs : list Header.t) (st : DataGridHeader.State)
          (column : string) (c : Header.t),
      DataGridHeader.resizing st = Some column ->
      Header.find column hs = Some c ->
      (Header.minWidth c <= Header.maxWidth c)%Q ->
      let proposed :=
        (DataGridHeader.startWidth st + (x - DataGridHeader.startX st))%Q in
      exists st' w,
        DataGridHeader.handleResizeEnd x hs st
        = Some (st', Some (column, w)) /\
        ((proposed < Header.minWidth c)%Q -> w = Header.minWidth c) /\
        ((Header.maxWidth c < proposed)%Q -> w = Header.maxWidth c) /\
        ((Header.minWidth c <= proposed <= Header.maxWidth c)%Q ->
           (w == proposed)%Q)) /\
  (forall (x : Q) (headerId : string) (hs : list Header.t) (c : Header.t)
          (st : DataGridHeader.State),
      Header.find headerId hs = Some c -> Header.resizable c = false ->
      DataGridHeader.handleResizeStart x headerId hs st = Some st).
Proof.
  split; [|split; [|split; [|split]]].
  - intros Row d fields moves i c x r st Hi.
    pose proof (Forall_lookup_1 _ _ _ _ (dragAll_parsed d fields moves) Hi)
      as (Hres & Hmin & Hmax).
    assert (Hb : (Header.minWidth c <= Header.maxWidth c)%Q).
    { rewrite Hmin, Hmax. intros H. discriminate H. }
    split; [exact Hb|].
    exists {| startX := x; startWidth := Header.width c; dragged := c;
              containerRight := r |}.
    split; [unfold onMouseDown; rewrite Hres; reflexivity|].
    intros x' sw cw proposed c'.
    split.
    + rewrite handleMouseMove_headers.
      rewrite (handleColumnResize_widths _ _ _ _ _ Hi).
      cbn [dragged startWidth startX]. rewrite String.eqb_refl.
      subst c' proposed. rewrite Hmin, Hmax. reflexivity.
    + subst c'. cbn [Header.withWidth Header.width].
      exact (clamp_cases proposed _ _ Hb).
  - intros c x w. exists (x + (w - Header.width c))%Q. ring.
  - intros c x r. apply not_resizable_no_gesture.
  - intros x hs st column c Hr Hf Hb proposed.
    destruct (header_resizeEnd_clamps x hs st column c Hr Hf) as [st' E].
    exists st'. eexists. split; [exact E|].
    exact (max_min_cases proposed _ _ Hb).
  - intros x headerId hs c st. apply header_not_resizable_noop.
Qed.

End ResizeProps.

Lemma C6_resize_clamps_into_column_bounds_witness :
  exists drag,
    DataGrid.onMouseDown (Header.ofField "a") 300 1000 = Some drag /\
    DataGrid.headers
      (DataGrid.handleMouseMove drag 100 0 0
         (DataGrid.initialState [tt] twoColumns)) !! 0%nat
    = Some (Header.withWidth 50 (Header.ofField "a")).
Proof.
  assert (Hi : DataGrid.headers
                 (DataGrid.dragAll []
                    (DataGrid.initialState [tt]
                       (CSVUploader.formatHeaders ["a"; "b"]%string)))
               !! 0%nat = Some (Header.ofField "a")) by reflexivity.
  destruct (proj2 (proj1 C6_resize_clamps_into_column_bounds unit [tt]
                     ["a"; "b"]%string [] 0%nat (Header.ofField "a")
                     300%Q 1000%Q Hi)) as (drag & Hd & Hmove).
  exists drag. split; [exact Hd|].
  exact (proj1 (Hmove 100%Q 0%Q 0%Q)).
Defined.


(** ** Horizontal scroll synchronisation (DataGrid) *)

Section ScrollProps.
Import DataGrid.
Context {Row : Type}.

Lemma handleScroll_body (st : State Row) (b h : Element) :
  bodyRef st = Some b -> headerRef st = Some h ->
  let res := handleScroll Body st in
  bodyRef res.1 = Some b /\
  (exists h', headerRef res.1 = Some h' /\ (scrollLeft h' == scrollLeft b)%Q /\
     scrollTop h' = scrollTop h) /\
  ((scrollLeft h == scrollLeft b)%Q -> headerRef res.1 = Some h /\ res.2 = []) /\
  (~ (scrollLeft h == scrollLeft b)%Q -> res.2 = [HeaderRegion]).
Proof.
  intros Hb Hh. unfold handleScroll. rewrite Hb. cbn [setScrollPosition headerRef].
  rewrite Hh.
  destruct (Qeq_bool (scrollLeft h) (scrollLeft b)) eqn:E; cbn [negb fst snd].
  - apply Qeq_bool_iff in E. cbn [setScrollPosition bodyRef headerRef].
    split; [exact Hb|]. split; [exists h; auto|]. split; [auto|].
    intros Hn. contradiction.
  - assert (Hn : ~ (scrollLeft h == scrollLeft b)%Q).
    { intros H. apply Qeq_bool_iff in H. congruence. }
    cbn [setHeaderRef setScrollPosition bodyRef headerRef].
    split; [exact Hb|]. split.
    { eexists. split; [reflexivity|]. split; reflexivity. }
    split; [intros H; contradiction | reflexivity].
Qed.

Lemma handleScroll_header (st : State Row) (b h : Element) :
  bodyRef st = Some b -> headerRef st = Some h ->
  let res := handleScroll HeaderRegion st in
  headerRef res.1 = Some h /\
  (exists b', bodyRef res.1 = Some b' /\ (scrollLeft b' == scrollLeft h)%Q /\
     scrollTop b' = scrollTop b) /\
  ((scrollLeft b == scrollLeft h)%Q -> bodyRef res.1 = Some b /\ res.2 = []) /\
  (~ (scrollLeft b == scrollLeft h)%Q -> res.2 = [Body]).
Proof.
  intros Hb Hh. unfold handleScroll. rewrite Hh. cbn [setScrollPosition bodyRef].
  rewrite Hb.
  destruct (Qeq_bool (scrollLeft b) (scrollLeft h)) eqn:E; cbn [negb fst snd].
  - apply Qeq_bool_iff in E. cbn [setScrollPosition bodyRef headerRef].
    split; [exact Hh|]. split; [exists b; auto|]. split; [auto|].
    intros Hn. contradiction.
  - assert (Hn : ~ (scrollLeft b == scrollLeft h)%Q).
    { intros H. apply Qeq_bool_iff in H. congruence. }
    cbn [setBodyRef setScrollPosition bodyRef headerRef].
    split; [exact Hh|]. split.
    { eexists. split; [reflexivity|]. split; reflexivity. }
    split; [intros H; contradiction | reflexivity].
Qed.

(** The stored horizontal offset follows the notification. *)
Lemma handleScroll_stored_left (st : State Row) (src : Target)
    (L : Q) :
  sourceOffset src st = Some L ->
  (left (scrollPosition (handleScroll src st).1) == L)%Q.
Proof.
  intros Hsrc. destruct src; cbn [sourceOffset] in Hsrc; [| |discriminate].
  - destruct (bodyRef st) as [b|] eqn:Hb; [|discriminate].
    injection Hsrc as <-. unfold handleScroll. rewrite Hb.
    assert (Hl : (left (scrollPosition (setScrollPosition
              (fun prev =>
                 if Qeq_bool (top prev) (scrollTop b)
                    && Qeq_bool (left prev) (scrollLeft b)
                 then prev
                 else {| top := scrollTop b; left := scrollLeft b |}) st))
             == scrollLeft b)%Q).
    { cbn [setScrollPosition scrollPosition].
      destruct (Qeq_bool (top _) _); cbn [andb]; [|reflexivity].
      destruct (Qeq_bool (left _) _) eqn:E; [|reflexivity].
      now apply Qeq_bool_iff in E. }
    cbn [headerRef setScrollPosition].
    destruct (headerRef st) as [h|]; [|exact Hl].
    destruct (negb _); exact Hl.
  - destruct (headerRef st) as [h|] eqn:Hh; [|discriminate].
    injection Hsrc as <-. unfold handleScroll. rewrite Hh.
    assert (Hl : (left (scrollPosition (setScrollPosition
              (fun prev =>
                 if Qeq_bool (left prev) (scrollLeft h) then prev
                 else {| top := top prev; left := scrollLeft h |}) st))
             == scrollLeft h)%Q).
    { cbn [setScrollPosition scrollPosition].
      destruct (Qeq_bool (left _) _) eqn:E; [|reflexivity].
      now apply Qeq_bool_iff in E. }
    cbn [bodyRef setScrollPosition].
    destruct (bodyRef st) as [b|]; [|exact Hl].
    destruct (negb _); exact Hl.
Qed.

Lemma run_idle (range : ScrollRange) (n : nat) (w : World Row) :
  pending w = [] -> run range n w = w.
Proof. intros H. destruct n; cbn [run]; [reflexivity|]. now rewrite H. Qed.

Lemma run_step (range : ScrollRange) (n : nat) (st : State Row) (e : Target)
    (rest : list Target) :
  run range (S n) {| grid := st; pending := e :: rest |}
  = run range n {| grid := (handleScrollIn range e st).1;
                   pending := rest ++ (handleScrollIn range e st).2 |}.
Proof.
  cbn [run pending]. unfold deliver. cbn [pending grid].
  destruct (handleScrollIn range e st). reflexivity.
Qed.

(** One run of the handler on a body event: the header is left alone when
    it agrees with the body, is moved to the body's offset when that lies
    within its range, and to the end of its range otherwise. *)
Lemma handleScrollIn_body (range : ScrollRange) (st : State Row)
    (b h : Element) :
  bodyRef st = Some b -> headerRef st = Some h ->
  (0 <= scrollLeft b)%Q -> (0 <= headerMax range)%Q ->
  let res := handleScrollIn range Body st in
  bodyRef res.1 = Some b /\
  exists h', headerRef res.1 = Some h' /\ scrollTop h' = scrollTop h /\
    (((scrollLeft h == scrollLeft b)%Q /\ h' = h /\ res.2 = []) \/
     (~ (scrollLeft h == scrollLeft b)%Q /\
      (scrollLeft b <= headerMax range)%Q /\
      scrollLeft h' = scrollLeft b /\ res.2 = [HeaderRegion]) \/
     (~ (scrollLeft h == scrollLeft b)%Q /\
      (headerMax range < scrollLeft b)%Q /\
      scrollLeft h' = headerMax range /\
      (((scrollLeft h == headerMax range)%Q /\ res.2 = []) \/
       (~ (scrollLeft h == headerMax range)%Q /\ res.2 = [HeaderRegion])))).
Proof.
  intros Hb Hh H0 HM. unfold handleScrollIn. rewrite Hb.
  cbn [setScrollPosition headerRef]. rewrite Hh.
  destruct (Qeq_bool (scrollLeft h) (scrollLeft b)) eqn:E; cbn [negb].
  - apply Qeq_bool_iff in E. cbn [fst snd setScrollPosition bodyRef headerRef].
    split; [exact Hb|]. exists h. split; [exact Hh|]. split; [reflexivity|].
    left. auto.
  - assert (Hn : ~ (scrollLeft h == scrollLeft b)%Q).
    { intros H. apply Qeq_bool_iff in H. congruence. }
    unfold assignScrollLeft. cbn [scrollLeft scrollTop].
    destruct (Qlt_le_dec (headerMax range) (scrollLeft b)) as [Hlt|Hle].
    + rewrite (proj1 (proj2 (clamp_cases (scrollLeft b) 0 (headerMax range) HM))
                 Hlt).
      destruct (Qeq_bool (scrollLeft h) (headerMax range)) eqn:E2; cbn [negb];
        cbn [fst snd setHeaderRef setScrollPosition bodyRef headerRef];
        (split; [exact Hb|]); eexists; (split; [reflexivity|]);
        (split; [reflexivity|]); right; right;
        (split; [exact Hn|]); (split; [exact Hlt|]);
        (split; [reflexivity|]).
      * left. split; [now apply Qeq_bool_iff|reflexivity].
      * right. split; [|reflexivity].
        intros H. apply Qeq_bool_iff in H. congruence.
    + rewrite (proj2 (proj2 (clamp_cases (scrollLeft b) 0 (headerMax range) HM))
                 (conj H0 Hle)).
      rewrite E. cbn [negb].
      cbn [fst snd setHeaderRef setScrollPosition bodyRef headerRef].
      split; [exact Hb|]. eexists. split; [reflexivity|].
      split; [reflexivity|]. right. left. auto.
Qed.

Lemma handleScrollIn_header (range : ScrollRange) (st : State Row)
    (b h : Element) :
  bodyRef st = Some b -> headerRef st = Some h ->
  (0 <= scrollLeft h)%Q -> (0 <= bodyMax range)%Q ->
  let res := handleScrollIn range HeaderRegion st in
  headerRef res.1 = Some h /\
  exists b', bodyRef res.1 = Some b' /\ scrollTop b' = scrollTop b /\
    (((scrollLeft b == scrollLeft h)%Q /\ b' = b /\ res.2 = []) \/
     (~ (scrollLeft b == scrollLeft h)%Q /\
      (scrollLeft h <= bodyMax range)%Q /\
      scrollLeft b' = scrollLeft h /\ res.2 = [Body]) \/
     (~ (scrollLeft b == scrollLeft h)%Q /\
      (bodyMax range < scrollLeft h)%Q /\
      scrollLeft b' = bodyMax range /\
      (((scrollLeft b == bodyMax range)%Q /\ res.2 = []) \/
       (~ (scrollLeft b == bodyMax range)%Q /\ res.2 = [Body])))).
Proof.
  intros Hb Hh H0 HM. unfold handleScrollIn. rewrite Hh.
  cbn [setScrollPosition bodyRef]. rewrite Hb.
  destruct (Qeq_bool (scrollLeft b) (scrollLeft h)) eqn:E; cbn [negb].
  - apply Qeq_bool_iff in E. cbn [fst snd setScrollPosition bodyRef headerRef].
    split; [exact Hh|]. exists b. split; [exact Hb|]. split; [reflexivity|].
    left. auto.
  - assert (Hn : ~ (scrollLeft b == scrollLeft h)%Q).
    { intros H. apply Qeq_bool_iff in H. congruence. }
    unfold assignScrollLeft. cbn [scrollLeft scrollTop].
    destruct (Qlt_le_dec (bodyMax range) (scrollLeft h)) as [Hlt|Hle].
    + rewrite (proj1 (proj2 (clamp_cases (scrollLeft h) 0 (bodyMax range) HM))
                 Hlt).
      destruct (Qeq_bool (scrollLeft b) (bodyMax range)) eqn:E2; cbn [negb];
        cbn [fst snd setBodyRef setScrollPosition bodyRef headerRef];
        (split; [exact Hh|]); eexists; (split; [reflexivity|]);
        (split; [reflexivity|]); right; right;
        (split; [exact Hn|]); (split; [exact Hlt|]);
        (split; [reflexivity|]).
      * left. split; [now apply Qeq_bool_iff|reflexivity].
      * right. split; [|reflexivity].
        intros H. apply Qeq_bool_iff in H. congruence.
    + rewrite (proj2 (proj2 (clamp_cases (scrollLeft h) 0 (bodyMax range) HM))
                 (conj H0 Hle)).
      rewrite E. cbn [negb].
      cbn [fst snd setBodyRef setScrollPosition bodyRef headerRef].
      split; [exact Hh|]. eexists. split; [reflexivity|].
      split; [reflexivity|]. right. left. auto.
Qed.

Lemma withinRange_refs (range : ScrollRange) (st : State Row) (b h : Element) :
  bodyRef st = Some b -> headerRef st = Some h ->
  (0 <= scrollLeft b <= bodyMax range)%Q ->
  (0 <= scrollLeft h <= headerMax range)%Q ->
  withinRange range st.
Proof.
  intros Hb Hh Rb Rh. split.
  - intros b0 H. assert (b0 = b) by congruence. subst. exact Rb.
  - intros h0 H. assert (h0 = h) by congruence. subst. exact Rh.
Qed.

(** The echoes of a body event die out within three runs of the handler. *)
Lemma settle_from_body (range : ScrollRange) (st : State Row)
    (b h : Element) :
  bodyRef st = Some b -> headerRef st = Some h ->
  (0 <= scrollLeft b <= bodyMax range)%Q ->
  (0 <= scrollLeft h <= headerMax range)%Q ->
  exists w,
    (forall n, (3 <= n)%nat ->
       run range n {| grid := st; pending := [Body] |} = w) /\
    pending w = [] /\ withinRange range (grid w) /\
    ((scrollLeft b <= headerMax range)%Q -> bothAt (scrollLeft b) (grid w)).
Proof.
  intros Hb Hh Rb Rh.
  assert (HMh : (0 <= headerMax range)%Q) by lra.
  assert (HMb : (0 <= bodyMax range)%Q) by lra.
  destruct (handleScrollIn_body range st b h Hb Hh (proj1 Rb) HMh)
    as (R1b & h1 & R1h & _ & Hcase).
  set (res1 := handleScrollIn range Body st) in *.
  assert (Hone : res1.2 = [] ->
            forall n, (3 <= n)%nat ->
              run range n {| grid := st; pending := [Body] |}
              = {| grid := res1.1; pending := [] |}).
  { intros E [|n] Hn; [lia|]. rewrite run_step. fold res1. rewrite E.
    apply run_idle. reflexivity. }
  destruct Hcase as [(Hag & -> & E1)|[(Hn1 & Hle & Hl1 & E1)|(Hn1 & Hlt & Hl1 & Hsub)]].
  - exists {| grid := res1.1; pending := [] |}.
    split; [exact (Hone E1)|]. split; [reflexivity|]. cbn [grid].
    split; [exact (withinRange_refs range _ b h R1b R1h Rb Rh)|].
    intros _. exists b, h. split; [exact R1b|]. split; [exact R1h|].
    split; [reflexivity|exact Hag].
  - assert (H1 : (0 <= scrollLeft h1)%Q) by (rewrite Hl1; lra).
    destruct (handleScrollIn_header range res1.1 b h1 R1b R1h H1 HMb)
      as (R2h & b2 & R2b & _ & Hcase2).
    set (res2 := handleScrollIn range HeaderRegion res1.1) in *.
    destruct Hcase2 as [(Hag2 & -> & E2)|[(Hn2 & _)|(Hn2 & _)]];
      [|exfalso; apply Hn2; rewrite Hl1; reflexivity..].
    exists {| grid := res2.1; pending := [] |}.
    split.
    { intros [|[|n]] Hn; [lia|lia|]. rewrite run_step. fold res1. rewrite E1.
      cbn [app]. rewrite run_step. fold res2. rewrite E2.
      apply run_idle. reflexivity. }
    split; [reflexivity|]. cbn [grid].
    split.
    { apply (withinRange_refs range _ b h1 R2b R2h Rb). rewrite Hl1. lra. }
    intros _. exists b, h1. split; [exact R2b|]. split; [exact R2h|].
    split; [reflexivity|]. rewrite Hl1. reflexivity.
  - destruct Hsub as [(Hat & E1)|(Hnat & E1)].
    + exists {| grid := res1.1; pending := [] |}.
      split; [exact (Hone E1)|]. split; [reflexivity|]. cbn [grid].
      split.
      { apply (withinRange_refs range _ b h1 R1b R1h Rb). rewrite Hl1. lra. }
      intros Hle. lra.
    + assert (H1 : (0 <= scrollLeft h1)%Q) by (rewrite Hl1; lra).
      destruct (handleScrollIn_header range res1.1 b h1 R1b R1h H1 HMb)
        as (R2h & b2 & R2b & _ & Hcase2).
      set (res2 := handleScrollIn range HeaderRegion res1.1) in *.
      destruct Hcase2 as [(Hag2 & _)|[(Hn2 & Hle2 & Hl2 & E2)|(_ & Hlt2 & _)]];
        [exfalso; rewrite Hl1 in Hag2; lra| |exfalso; rewrite Hl1 in Hlt2; lra].
      assert (H2 : (0 <= scrollLeft b2)%Q) by (rewrite Hl2; exact H1).
      destruct (handleScrollIn_body range res2.1 b2 h1 R2b R2h H2 HMh)
        as (R3b & h3 & R3h & _ & Hcase3).
      set (res3 := handleScrollIn range Body res2.1) in *.
      destruct Hcase3 as [(Hag3 & -> & E3)|[(Hn3 & _)|(Hn3 & _)]];
        [|exfalso; apply Hn3; rewrite Hl2; reflexivity..].
      exists {| grid := res3.1; pending := [] |}.
      split.
      { intros [|[|[|n]]] Hn; [lia|lia|lia|]. rewrite run_step. fold res1.
        rewrite E1. cbn [app]. rewrite run_step. fold res2. rewrite E2.
        cbn [app]. rewrite run_step. fold res3. rewrite E3.
        apply run_idle. reflexivity. }
      split; [reflexivity|]. cbn [grid].
      split.
      { apply (withinRange_refs range _ b2 h1 R3b R3h).
        - rewrite Hl2, Hl1. lra.
        - rewrite Hl1. lra. }
      intros Hle. lra.
Qed.

(** The echoes of a header event die out within three runs of the
    handler. *)
Lemma settle_from_header (range : ScrollRange) (st : State Row)
    (b h : Element) :
  bodyRef st = Some b -> headerRef st = Some h ->
  (0 <= scrollLeft b <= bodyMax range)%Q ->
  (0 <= scrollLeft h <= headerMax range)%Q ->
  exists w,
    (forall n, (3 <= n)%nat ->
       run range n {| grid := st; pending := [HeaderRegion] |} = w) /\
    pending w = [] /\ withinRange range (grid w) /\
    ((scrollLeft h <= bodyMax range)%Q -> bothAt (scrollLeft h) (grid w)).
Proof.
  intros Hb Hh Rb Rh.
  assert (HMh : (0 <= headerMax range)%Q) by lra.
  assert (HMb : (0 <= bodyMax range)%Q) by lra.
  destruct (handleScrollIn_header range st b h Hb Hh (proj1 Rh) HMb)
    as (R1h & b1 & R1b & _ & Hcase).
  set (res1 := handleScrollIn range HeaderRegion st) in *.
  assert (Hone : res1.2 = [] ->
            forall n, (3 <= n)%nat ->
              run range n {| grid := st; pending := [HeaderRegion] |}
              = {| grid := res1.1; pending := [] |}).
  { intros E [|n] Hn; [lia|]. rewrite run_step. fold res1. rewrite E.
    apply run_idle. reflexivity. }
  destruct Hcase as [(Hag & -> & E1)|[(Hn1 & Hle & Hl1 & E1)|(Hn1 & Hlt & Hl1 & Hsub)]].
  - exists {| grid := res1.1; pending := [] |}.
    split; [exact (Hone E1)|]. split; [reflexivity|]. cbn [grid].
    split; [exact (withinRange_refs range _ b h R1b R1h Rb Rh)|].
    intros _. exists b, h. split; [exact R1b|]. split; [exact R1h|].
    split; [exact Hag|reflexivity].
  - assert (H1 : (0 <= scrollLeft b1)%Q) by (rewrite Hl1; lra).
    destruct (handleScrollIn_body range res1.1 b1 h R1b R1h H1 HMh)
      as (R2b & h2 & R2h & _ & Hcase2).
    set (res2 := handleScrollIn range Body res1.1) in *.
    destruct Hcase2 as [(Hag2 & -> & E2)|[(Hn2 & _)|(Hn2 & _)]];
      [|exfalso; apply Hn2; rewrite Hl1; reflexivity..].
    exists {| grid := res2.1; pending := [] |}.
    split.
    { intros [|[|n]] Hn; [lia|lia|]. rewrite run_step. fold res1. rewrite E1.
      cbn [app]. rewrite run_step. fold res2. rewrite E2.
      apply run_idle. reflexivity. }
    split; [reflexivity|]. cbn [grid].
    split.
    { apply (withinRange_refs range _ b1 h R2b R2h); [|exact Rh].
      rewrite Hl1. lra. }
    intros _. exists b1, h. split; [exact R2b|]. split; [exact R2h|].
    split; [|reflexivity]. rewrite Hl1. reflexivity.
  - destruct Hsub as [(Hat & E1)|(Hnat & E1)].
    + exists {| grid := res1.1; pending := [] |}.
      split; [exact (Hone E1)|]. split; [reflexivity|]. cbn [grid].
      split.
      { apply (withinRange_refs range _ b1 h R1b R1h); [|exact Rh].
        rewrite Hl1. lra. }
      intros Hle. lra.
    + assert (H1 : (0 <= scrollLeft b1)%Q) by (rewrite Hl1; lra).
      destruct (handleScrollIn_body range res1.1 b1 h R1b R1h H1 HMh)
        as (R2b & h2 & R2h & _ & Hcase2).
      set (res2 := handleScrollIn range Body res1.1) in *.
      destruct Hcase2 as [(Hag2 & _)|[(Hn2 & Hle2 & Hl2 & E2)|(_ & Hlt2 & _)]];
        [exfalso; rewrite Hl1 in Hag2; lra| |exfalso; rewrite Hl1 in Hlt2; lra].
      assert (H2 : (0 <= scrollLeft h2)%Q) by (rewrite Hl2; exact H1).
      destruct (handleScrollIn_header range res2.1 b1 h2 R2b R2h H2 HMb)
        as (R3h & b3 & R3b & _ & Hcase3).
      set (res3 := handleScrollIn range HeaderRegion res2.1) in *.
      destruct Hcase3 as [(Hag3 & -> & E3)|[(Hn3 & _)|(Hn3 & _)]];
        [|exfalso; apply Hn3; rewrite Hl2; reflexivity..].
      exists {| grid := res3.1; pending := [] |}.
      split.
      { intros [|[|[|n]]] Hn; [lia|lia|lia|]. rewrite run_step. fold res1.
        rewrite E1. cbn [app]. rewrite run_step. fold res2. rewrite E2.
        cbn [app]. rewrite run_step. fold res3. rewrite E3.
        apply run_idle. reflexivity. }
      split; [reflexivity|]. cbn [grid].
      split.
      { apply (withinRange_refs range _ b1 h2 R3b R3h).
        - rewrite Hl1. lra.
        - rewrite Hl2, Hl1. lra. }
      intros Hle. lra.
Qed.

(** Where the offset copied lies within the range of the region it is
    copied to, the browser stores it as written: the handler is
    [handleScroll]. *)
Lemma handleScrollIn_within (range : ScrollRange) (src : Target)
    (st : State Row) :
  (forall L, sourceOffset src st = Some L ->
     (0 <= L <= targetMax range src)%Q) ->
  handleScrollIn range src st = handleScroll src st.
Proof.
  intros Hin. destruct src; [| |reflexivity].
  - unfold handleScrollIn, handleScroll.
    destruct (bodyRef st) as [b|] eqn:Hb; [|reflexivity].
    cbn [setScrollPosition headerRef].
    destruct (headerRef st) as [h|]; [|reflexivity].
    destruct (Qeq_bool (scrollLeft h) (scrollLeft b)) eqn:E; cbn [negb];
      [reflexivity|].
    assert (Hr : (0 <= scrollLeft b <= headerMax range)%Q).
    { apply (Hin (scrollLeft b)). cbn [sourceOffset]. rewrite Hb. reflexivity. }
    unfold assignScrollLeft. cbn [scrollLeft scrollTop].
    rewrite (proj2 (proj2 (clamp_cases (scrollLeft b) 0 (headerMax range)
                             ltac:(lra))) Hr).
    rewrite E. reflexivity.
  - unfold handleScrollIn, handleScroll.
    destruct (headerRef st) as [h|] eqn:Hh; [|reflexivity].
    cbn [setScrollPosition bodyRef].
    destruct (bodyRef st) as [b|]; [|reflexivity].
    destruct (Qeq_bool (scrollLeft b) (scrollLeft h)) eqn:E; cbn [negb];
      [reflexivity|].
    assert (Hr : (0 <= scrollLeft h <= bodyMax range)%Q).
    { apply (Hin (scrollLeft h)). cbn [sourceOffset]. rewrite Hh. reflexivity. }
    unfold assignScrollLeft. cbn [scrollLeft scrollTop].
    rewrite (proj2 (proj2 (clamp_cases (scrollLeft h) 0 (bodyMax range)
                             ltac:(lra))) Hr).
    rewrite E. reflexivity.
Qed.

(** A body event stores the body's offsets. *)
Lemma handleScrollIn_body_position (range : ScrollRange) (st : State Row)
    (b : Element) :
  bodyRef st = Some b ->
  (top (scrollPosition (handleScrollIn range Body st).1) == scrollTop b)%Q /\
  (left (scrollPosition (handleScrollIn range Body st).1) == scrollLeft b)%Q.
Proof.
  intros Hb. destruct st as [d hs sc dh sp bR hR]. cbn [bodyRef] in Hb.
  subst bR.
  unfold handleScrollIn, assignScrollLeft, setScrollPosition, setHeaderRef.
  cbn -[Qeq_bool JS.clamp].
  assert (Hpos : (top (if Qeq_bool (top sp) (scrollTop b)
                          && Qeq_bool (left sp) (scrollLeft b)
                       then sp
                       else {| top := scrollTop b; left := scrollLeft b |})
                  == scrollTop b)%Q /\
                 (left (if Qeq_bool (top sp) (scrollTop b)
                           && Qeq_bool (left sp) (scrollLeft b)
                        then sp
                        else {| top := scrollTop b; left := scrollLeft b |})
                  == scrollLeft b)%Q).
  { destruct (Qeq_bool (top sp) (scrollTop b)) eqn:E1; cbn [andb];
      [|split; reflexivity].
    destruct (Qeq_bool (left sp) (scrollLeft b)) eqn:E2;
      [|split; reflexivity].
    split; now apply Qeq_bool_iff. }
  destruct hR as [h|];
    [destruct (negb (Qeq_bool (scrollLeft h) (scrollLeft b)))|];
    exact Hpos.
Qed.

Lemma handleScrollIn_body_settled (range : ScrollRange) (st : State Row) :
  settled st -> handleScrollIn range Body st = (st, []).
Proof.
  intros (b & h & Hb & Hh & Hl & Ht & Hs).
  destruct st as [d hs sc dh sp bR hR].
  cbn [bodyRef headerRef scrollPosition] in *. subst bR hR.
  unfold handleScrollIn, setScrollPosition, setHeaderRef. cbn -[Qeq_bool].
  apply Qeq_bool_iff in Hl, Ht, Hs. rewrite Ht, Hs, Hl. reflexivity.
Qed.

(** C7: in a grid whose regions are scrolled within their scroll ranges,
    when a scroll notification from the body or the header carries the
    offset [L]: after the handler the source region still holds [L] and the
    other region holds [L] clamped into its own scroll range, so both hold
    [L] whenever [L] lies within the range of the other region; when the
    other region held [L] already the handler writes to neither region and
    raises no notification; and the notifications a write may raise are
    all delivered within three handler runs, after which none is pending,
    both regions are within their ranges, and both hold [L] when [L] lies
    within the range of the other region. *)
Theorem C7_scroll_sync_settles (range : ScrollRange) (st : State Row)
    (src : Target) (L : Q) :
  is_Some (bodyRef st) -> is_Some (headerRef st) -> withinRange range st ->
  sourceOffset src st = Some L ->
  let res := handleScrollIn range src st in
  (sourceOffset src res.1 = Some L /\
   exists T, targetOffset src res.1 = Some T /\
             (T == JS.clamp L 0 (targetMax range src))%Q) /\
  ((L <= targetMax range src)%Q -> bothAt L res.1) /\
  (forall T, targetOffset src st = Some T -> (T == L)%Q ->
     bodyRef res.1 = bodyRef st /\ headerRef res.1 = headerRef st /\
     res.2 = []) /\
  (let w := run range 3 {| grid := st; pending := [src] |} in
   pending w = [] /\ withinRange range (grid w) /\
   ((L <= targetMax range src)%Q -> bothAt L (grid w)) /\
   forall n, (3 <= n)%nat ->
     run range n {| grid := st; pending := [src] |} = w).
Proof.
  intros [b Hb] [h Hh] [Wb Wh] Hsrc res.
  pose proof (Wb b Hb) as Rb. pose proof (Wh h Hh) as Rh.
  assert (HMh : (0 <= headerMax range)%Q) by lra.
  assert (HMb : (0 <= bodyMax range)%Q) by lra.
  destruct src; cbn [sourceOffset] in Hsrc; [| |discriminate].
  - rewrite Hb in Hsrc. injection Hsrc as <-.
    cbn [sourceOffset targetOffset targetMax].
    destruct (handleScrollIn_body range st b h Hb Hh (proj1 Rb) HMh)
      as (R1b & h1 & R1h & _ & Hcase). fold res in R1b, R1h, Hcase.
    rewrite R1b, R1h, Hh, Hb. cbn [fmap option_fmap option_map].
    split; [|split; [|split]].
    + split; [reflexivity|]. exists (scrollLeft h1). split; [reflexivity|].
      destruct Hcase as [(Hag & -> & _)|[(_ & Hle & -> & _)|(_ & Hlt & -> & _)]].
      * rewrite (proj2 (proj2 (clamp_cases (scrollLeft b) 0 (headerMax range) HMh)));
          [exact Hag|lra].
      * rewrite (proj2 (proj2 (clamp_cases (scrollLeft b) 0 (headerMax range) HMh)));
          [reflexivity|lra].
      * rewrite (proj1 (proj2 (clamp_cases (scrollLeft b) 0 (headerMax range) HMh)));
          [reflexivity|exact Hlt].
    + intros Hle. exists b, h1. split; [exact R1b|]. split; [exact R1h|].
      split; [reflexivity|].
      destruct Hcase as [(Hag & -> & _)|[(_ & _ & -> & _)|(_ & Hlt & _)]];
        [exact Hag|reflexivity|lra].
    + intros T HT HTL. injection HT as <-.
      destruct Hcase as [(_ & -> & E)|[(Hn & _)|(Hn & _)]];
        [auto|contradiction..].
    + destruct (settle_from_body range st b h Hb Hh Rb Rh)
        as (w & Hrun & Hp & Hw & Hboth).
      cbv zeta. rewrite (Hrun 3%nat (le_n 3)).
      split; [exact Hp|]. split; [exact Hw|]. split; [exact Hboth|].
      exact Hrun.
  - rewrite Hh in Hsrc. injection Hsrc as <-.
    cbn [sourceOffset targetOffset targetMax].
    destruct (handleScrollIn_header range st b h Hb Hh (proj1 Rh) HMb)
      as (R1h & b1 & R1b & _ & Hcase). fold res in R1b, R1h, Hcase.
    rewrite R1b, R1h, Hh, Hb. cbn [fmap option_fmap option_map].
    split; [|split; [|split]].
    + split; [reflexivity|]. exists (scrollLeft b1). split; [reflexivity|].
      destruct Hcase as [(Hag & -> & _)|[(_ & Hle & -> & _)|(_ & Hlt & -> & _)]].
      * rewrite (proj2 (proj2 (clamp_cases (scrollLeft h) 0 (bodyMax range) HMb)));
          [exact Hag|lra].
      * rewrite (proj2 (proj2 (clamp_cases (scrollLeft h) 0 (bodyMax range) HMb)));
          [reflexivity|lra].
      * rewrite (proj1 (proj2 (clamp_cases (scrollLeft h) 0 (bodyMax range) HMb)));
          [reflexivity|exact Hlt].
    + intros Hle. exists b1, h. split; [exact R1b|]. split; [exact R1h|].
      split; [|reflexivity].
      destruct Hcase as [(Hag & -> & _)|[(_ & _ & -> & _)|(_ & Hlt & _)]];
        [exact Hag|reflexivity|lra].
    + intros T HT HTL. injection HT as <-.
      destruct Hcase as [(_ & -> & E)|[(Hn & _)|(Hn & _)]];
        [auto|contradiction..].
    + destruct (settle_from_header range st b h Hb Hh Rb Rh)
        as (w & Hrun & Hp & Hw & Hboth).
      cbv zeta. rewrite (Hrun 3%nat (le_n 3)).
      split; [exact Hp|]. split; [exact Hw|]. split; [exact Hboth|].
      exact Hrun.
Qed.

End ScrollProps.

Lemma C7_scroll_sync_settles_witness :
  bothAt 120 (DataGrid.handleScrollIn wideRange DataGrid.Body
                bodyScrolledGrid).1.
Proof.
  assert (Hb : is_Some (DataGrid.bodyRef bodyScrolledGrid))
    by (eexists; reflexivity).
  assert (Hh : is_Some (DataGrid.headerRef bodyScrolledGrid))
    by (eexists; reflexivity).
  assert (Hw : withinRange wideRange bodyScrolledGrid).
  { split; intros e He; injection He as <-;
      split; intros H; discriminate H. }
  assert (Hs : sourceOffset DataGrid.Body bodyScrolledGrid = Some 120%Q)
    by reflexivity.
  assert (Hle : (120 <= targetMax wideRange DataGrid.Body)%Q)
    by (intros H; discriminate H).
  exact (proj1 (proj2 (C7_scroll_sync_settles wideRange bodyScrolledGrid
                         DataGrid.Body 120 Hb Hh Hw Hs)) Hle).
Defined.

(** C7, for a body scrolled beyond the range of the header: the body, 15px
    narrower than the header because of its vertical scrollbar, is at the
    right end of its range, 1215px; the range of the header ends at
    1200px.  After the handler the header holds 1200 and not the offset
    1215 of the notification; the scroll event of the header then pulls
    the body back, and the two regions settle at 1200. *)
Lemma C7_header_cannot_follow :
  let res := DataGrid.handleScrollIn scrollbarRange DataGrid.Body
               farRightGrid in
  let w := DataGrid.run scrollbarRange 3
             {| DataGrid.grid := farRightGrid;
                DataGrid.pending := [DataGrid.Body] |} in
  withinRange scrollbarRange farRightGrid /\
  sourceOffset DataGrid.Body farRightGrid = Some 1215%Q /\
  targetOffset DataGrid.Body res.1 = Some 1200%Q /\
  ~ bothAt 1215 res.1 /\
  DataGrid.pending w = [] /\
  bothAt 1200 (DataGrid.grid w) /\ ~ bothAt 1215 (DataGrid.grid w).
Proof.
  cbv zeta.
  assert (E1 : (DataGrid.handleScrollIn scrollbarRange DataGrid.Body
                  farRightGrid).1
               = DataGrid.setHeaderRef
                   (Some {| DataGrid.scrollTop := 0;
                            DataGrid.scrollLeft := 1200 |})
                   (DataGrid.setScrollPosition
                      (fun _ => {| DataGrid.top := 0; DataGrid.left := 1215 |})
                      farRightGrid)) by (vm_compute; reflexivity).
  assert (E2 : DataGrid.run scrollbarRange 3
                 {| DataGrid.grid := farRightGrid;
                    DataGrid.pending := [DataGrid.Body] |}
               = {| DataGrid.grid :=
                      DataGrid.setBodyRef
                        (Some {| DataGrid.scrollTop := 0;
                                 DataGrid.scrollLeft := 1200 |})
                        (DataGrid.setHeaderRef
                           (Some {| DataGrid.scrollTop := 0;
                                    DataGrid.scrollLeft := 1200 |})
                           (DataGrid.setScrollPosition
                              (fun _ => {| DataGrid.top := 0;
                                           DataGrid.left := 1200 |})
                              farRightGrid));
                    DataGrid.pending := [] |}) by (vm_compute; reflexivity).
  rewrite E1, E2.
  split.
  { split; intros e He; injection He as <-; split; intros H; discriminate H. }
  split; [reflexivity|]. split; [reflexivity|].
  split.
  { intros (b & h & _ & Hh & _ & Lh). injection Hh as <-. discriminate Lh. }
  split; [reflexivity|].
  split.
  { eexists _, _. split; [reflexivity|]. split; [reflexivity|].
    split; reflexivity. }
  intros (b & h & _ & Hh & _ & Lh). injection Hh as <-. discriminate Lh.
Qed.

(** ** Dataset replacement (App and DataGrid) *)

Section ReplaceProps.
Import DataGrid.

Lemma commitRefs_scrollPosition {Row} (st : State Row) :
  scrollPosition (commitRefs st) = scrollPosition st.
Proof. unfold commitRefs. destruct (_ || _); reflexivity. Qed.


Lemma isEmpty_false {A} (l : list A) : l <> [] -> isEmpty l = false.
Proof. destruct l; [congruence|reflexivity]. Qed.


(** The scroll event the reset raises on the body keeps the stored
    horizontal offset when it agreed with the body's. *)
Lemma reset_then_scroll_event_left {Row : Type} (st : State Row) (b : Element) :
  bodyRef st = Some b ->
  (left (scrollPosition st) == scrollLeft b)%Q ->
  (left (scrollPosition (handleScroll Body (dataChangeEffect st)).1)
   == left (scrollPosition st))%Q.
Proof.
  intros Hb Hsync.
  rewrite (handleScroll_stored_left (dataChangeEffect st) Body (scrollLeft b)).
  - symmetry. exact Hsync.
  - unfold dataChangeEffect. rewrite Hb. reflexivity.
Qed.






End ReplaceProps.




(** ** Row metrics (DataGridBody) *)

Section MetricsProps.
Import DataGridBody.
Context {Row : Type}.

Lemma round_whole (z : Z) : JS.round (inject_Z z) = z.
Proof.
  unfold JS.round.
  pose proof (Qfloor_le (inject_Z z + (1 # 2))) as H1.
  pose proof (Qlt_floor (inject_Z z + (1 # 2))) as H2.
  set (f := Qfloor _) in *.
  assert (f < z + 1). { rewrite Zlt_Qlt, inject_Z_plus. change (inject_Z 1) with 1%Q. lra. }
  assert (z < f + 1). { rewrite Zlt_Qlt. lra. }
  lia.
Qed.



Lemma measureRowHeight_cases (closureHeight : Z) (c : Container)
    (st : State Row) (raw : Q) :
  rowElementHeight c = Some raw ->
  (0 < JS.round raw /\ 1 < Z.abs (JS.round raw - closureHeight) /\
   measureRowHeight closureHeight (Some c) st
   = setMeasuredRowHeight (JS.round raw) st) \/
  (~ (0 < JS.round raw /\ 1 < Z.abs (JS.round raw - closureHeight)) /\
   measureRowHeight closureHeight (Some c) st = st).
Proof.
  intros Hraw. unfold measureRowHeight. rewrite Hraw. cbv zeta.
  destruct (Z.ltb_spec 0 (JS.round raw)); cbn [andb];
    [|right; split; [lia|reflexivity]].
  destruct (Z.ltb_spec 1 (Z.abs (JS.round raw - closureHeight)));
    [left; auto | right; split; [lia|reflexivity]].
Qed.


End MetricsProps.


(** * Further properties of the components *)

(** ** Windows and layout (DataGridBody and VirtualizedRows) *)

Section WindowExtras.

Lemma slice_length_le {A : Type} (arr : list A) (s e : Z) :
  0 <= s -> 0 <= e ->
  Z.of_nat (length (JS.slice arr s e)) <= Z.max 0 (e - s).
Proof.
  intros Hs He. unfold JS.slice, JS.relIndex.
  destruct (Z.ltb_spec s 0); [lia|]. destruct (Z.ltb_spec e 0); [lia|].
  rewrite length_firstn, length_skipn. lia.
Qed.


(** X2: with the row count DataGrid passes down, the range of
    VirtualizedRows contains every dataset row that shows in a viewport no
    taller than the height DataGrid measured (300 when it has none). *)
Theorem X2_virtualized_rows_cover_viewport
    (RH scrollTop viewportHeight height : Q) (len i : Z) (p : Q) :
  (0 < RH)%Q -> (0 <= scrollTop)%Q -> 0 <= i < len ->
  (viewportHeight <= JS.or height 300)%Q ->
  inRowSpan RH i p -> inViewport scrollTop viewportHeight p ->
  let r := VirtualizedRows.visibleRange RH scrollTop
             (DataGrid.visibleRowsCount RH height) len in
  VirtualizedRows.startIndex r <= i < VirtualizedRows.endIndex r.
Proof.
  intros Hr Hs Hi Hv Hp Hq.
  apply (visibleRange_covers RH scrollTop viewportHeight _ len i p);
    try assumption.
  pose proof (ceil_div_mono _ _ RH Hr Hv).
  unfold DataGrid.visibleRowsCount. lia.
Qed.

Import DataGridBody.

(** X3: whatever the length of the dataset, [calculateVisibleRows]
    materializes at most [2 * ceil(viewportHeight / rowHeight) + 2] rows. *)
Theorem X3_body_rows_bounded (Row : Type) (c : Container) (data : list Row)
    (st : State Row) :
  let viewportHeight := JS.or (clientHeight c) (dimensionsHeight st) in
  let rowHeight := inject_Z (measuredRowHeight st) in
  0 < measuredRowHeight st -> (0 < viewportHeight)%Q -> (0 <= scrollTop c)%Q ->
  Z.of_nat (length (visibleRows (calculateVisibleRows (Some c) data st)))
  <= 2 * JS.ceil (viewportHeight / rowHeight) + 2.
Proof.
  intros vh rh Hh Hv Hs.
  assert (Hr : (0 < rh)%Q).
  { subst rh. change 0%Q with (inject_Z 0). rewrite <- Zlt_Qlt. exact Hh. }
  pose proof (visibleRowCount_pos _ _ Hr Hv) as Hvc.
  pose proof (half_ceil (JS.ceil (vh / rh))) as Hos.
  pose proof (rawStart_nonneg _ _ Hr Hs) as Hrs.
  cbn [calculateVisibleRows visibleRows]. fold vh. fold rh.
  etransitivity; [apply slice_length_le|];
    unfold visibleWindow; cbn [start end_]; lia.
Qed.

(** X4: the overscan margin.  After the scroll offset has moved by at
    most [overscan] rows in either direction, every dataset row that shows
    in the viewport is still inside the window computed before the move. *)
Theorem X4_overscan_margin
    (scrollTop scrollTop' viewportHeight rowHeight : Q) (len i : Z) (p : Q) :
  (0 < rowHeight)%Q -> 0 <= i < len ->
  let overscan :=
    JS.ceil (inject_Z (JS.ceil (viewportHeight / rowHeight)) * (1 # 2)) in
  (scrollTop - inject_Z overscan * rowHeight <= scrollTop'
     <= scrollTop + inject_Z overscan * rowHeight)%Q ->
  inRowSpan rowHeight i p -> inViewport scrollTop' viewportHeight p ->
  let w := visibleWindow scrollTop viewportHeight rowHeight len in
  start w <= i <= end_ w.
Proof.
  intros Hr Hi os [Hd1 Hd2] [Hp1 Hp2] [Hq1 Hq2] w.
  destruct (floor_div_bounds scrollTop rowHeight Hr) as [Hf1 Hf2].
  destruct (ceil_div_bounds viewportHeight rowHeight Hr) as [Hc1 Hc2].
  set (rs := JS.floor (scrollTop / rowHeight)) in *.
  set (vc := JS.ceil (viewportHeight / rowHeight)) in *.
  assert (rs - os < i + 1).
  { apply (mult_lt_cancel _ _ rowHeight Hr).
    rewrite inject_Z_succ. unfold Z.sub.
    rewrite inject_Z_plus, inject_Z_opp. lra. }
  assert (i < rs + 1 + os + vc).
  { apply (mult_lt_cancel _ _ rowHeight Hr).
    rewrite !inject_Z_plus. change (inject_Z 1) with 1%Q. lra. }
  subst w. unfold visibleWindow. cbn [start end_]. fold rs vc os. lia.
Qed.

(** X5: scrolling down never moves a window up: both ends of the window
    of [calculateVisibleRows] and of the range of VirtualizedRows grow
    with the scroll offset. *)
Theorem X5_window_monotone
    (scrollTop1 scrollTop2 viewportHeight rowHeight : Q) (count len : Z) :
  (0 < rowHeight)%Q -> (scrollTop1 <= scrollTop2)%Q ->
  let w1 := visibleWindow scrollTop1 viewportHeight rowHeight len in
  let w2 := visibleWindow scrollTop2 viewportHeight rowHeight len in
  let r1 := VirtualizedRows.visibleRange rowHeight scrollTop1 count len in
  let r2 := VirtualizedRows.visibleRange rowHeight scrollTop2 count len in
  start w1 <= start w2 /\ end_ w1 <= end_ w2 /\
  VirtualizedRows.startIndex r1 <= VirtualizedRows.startIndex r2 /\
  VirtualizedRows.endIndex r1 <= VirtualizedRows.endIndex r2.
Proof.
  intros Hr Hs w1 w2 r1 r2.
  pose proof (floor_div_mono _ _ rowHeight Hr Hs) as Hf.
  subst w1 w2 r1 r2. unfold visibleWindow, VirtualizedRows.visibleRange.
  cbn [start end_ VirtualizedRows.startIndex VirtualizedRows.endIndex]. lia.
Qed.

Lemma js_max_cases (a b : Q) :
  (JS.max a b = a /\ (b <= a)%Q) \/ (JS.max a b = b /\ (a <= b)%Q).
Proof.
  unfold JS.max. destruct (Qle_bool a b) eqn:E.
  - right. split; [reflexivity|]. now apply Qle_bool_iff.
  - left. split; [reflexivity|].
    destruct (Qlt_le_dec b a) as [H|H]; [lra|].
    apply Qle_bool_iff in H. congruence.
Qed.

Lemma js_min_cases (a b : Q) :
  (JS.min a b = a /\ (a <= b)%Q) \/ (JS.min a b = b /\ (b <= a)%Q).
Proof.
  unfold JS.min. destruct (Qle_bool a b) eqn:E.
  - left. split; [reflexivity|]. now apply Qle_bool_iff.
  - right. split; [reflexivity|].
    destruct (Qlt_le_dec b a) as [H|H]; [lra|].
    apply Qle_bool_iff in H. congruence.
Qed.

Lemma inject_Z_mult_le (a b : Z) (r : Q) :
  (0 <= r)%Q -> a <= b -> (inject_Z a * r <= inject_Z b * r)%Q.
Proof.
  intros Hr Hab. apply Qmult_le_compat_r; [|exact Hr].
  now rewrite <- Zle_Qle.
Qed.

(** X6: the layout of VirtualizedRows for a scroll offset inside the
    extent: the top sentinel lies between 0 and the first rendered row,
    the rendered block starts at or above the scroll offset and ends
    inside the spacer, and the bottom sentinel lies between the end of the
    block and the end of the spacer. *)
Theorem X6_virtualized_rows_geometry (Row : Type) (RH scrollTop : Q)
    (count : Z) (data : list Row) :
  (0 < RH)%Q -> 0 <= count ->
  let len := Z.of_nat (length data) in
  (0 <= scrollTop < inject_Z len * RH)%Q ->
  let r := VirtualizedRows.visibleRange RH scrollTop count len in
  let rows := inject_Z (Z.of_nat (length (VirtualizedRows.visibleData data r))) in
  (0 <= VirtualizedRows.topSentinel RH r <= VirtualizedRows.offsetY RH r)%Q /\
  (VirtualizedRows.offsetY RH r <= scrollTop)%Q /\
  (VirtualizedRows.offsetY RH r + rows * RH
   <= VirtualizedRows.totalHeight RH len)%Q /\
  (VirtualizedRows.offsetY RH r + rows * RH
   <= VirtualizedRows.bottomSentinel RH len r
   <= VirtualizedRows.totalHeight RH len)%Q.
Proof.
  intros Hr Hc len Hs r rows.
  destruct (visibleRange_in_bounds RH scrollTop count len Hr Hs Hc)
    as (H0 & H1 & H2). fold r in H0, H1, H2.
  assert (H3 : Z.of_nat (length (VirtualizedRows.visibleData data r))
               = VirtualizedRows.endIndex r - VirtualizedRows.startIndex r).
  { unfold VirtualizedRows.visibleData.
    destruct (slice_inside data (VirtualizedRows.startIndex r)
                (VirtualizedRows.endIndex r)) as [_ ->]; lia. }
  assert (Hrows : (VirtualizedRows.offsetY RH r + rows * RH
                   == inject_Z (VirtualizedRows.endIndex r) * RH)%Q).
  { subst rows. rewrite H3. unfold VirtualizedRows.offsetY.
    unfold Z.sub. rewrite inject_Z_plus, inject_Z_opp. ring. }
  assert (Hend : (inject_Z (VirtualizedRows.endIndex r) * RH
                  <= inject_Z len * RH)%Q).
  { apply inject_Z_mult_le; [lra|lia]. }
  assert (Hstart : (0 <= inject_Z (VirtualizedRows.startIndex r) * RH)%Q).
  { apply Qmult_le_0_compat; [|lra].
    change 0%Q with (inject_Z 0). rewrite <- Zle_Qle. lia. }
  assert (Hoff : (VirtualizedRows.offsetY RH r <= scrollTop)%Q).
  { unfold VirtualizedRows.offsetY. subst r.
    unfold VirtualizedRows.visibleRange. cbn [VirtualizedRows.startIndex].
    pose proof (rawStart_nonneg _ _ Hr (proj1 Hs)).
    rewrite Z.max_r by lia. apply floor_div_bounds. exact Hr. }
  unfold VirtualizedRows.totalHeight.
  split; [|split; [exact Hoff|split; [lra|]]].
  - unfold VirtualizedRows.topSentinel, VirtualizedRows.offsetY.
    destruct (js_max_cases 0 (inject_Z (VirtualizedRows.startIndex r) * RH - RH))
      as [[-> ?]|[-> ?]]; lra.
  - unfold VirtualizedRows.bottomSentinel, VirtualizedRows.totalHeight.
    destruct (js_min_cases (inject_Z len * RH)
                (inject_Z (VirtualizedRows.endIndex r) * RH + RH))
      as [[-> ?]|[-> ?]]; lra.
Qed.

Lemma visibleWindow_bounds (scrollTop viewportHeight rowHeight : Q) (len : Z) :
  (0 < rowHeight)%Q -> (0 < viewportHeight)%Q ->
  (0 <= scrollTop < inject_Z len * rowHeight)%Q ->
  let w := visibleWindow scrollTop viewportHeight rowHeight len in
  0 <= start w /\ start w <= JS.floor (scrollTop / rowHeight) /\
  start w <= end_ w /\ end_ w < len /\
  (end_ w = len - 1 \/
   end_ w = JS.floor (scrollTop / rowHeight)
            + JS.ceil (viewportHeight / rowHeight)
            + JS.ceil (inject_Z (JS.ceil (viewportHeight / rowHeight))
                       * (1 # 2))).
Proof.
  intros Hr Hv [Hs1 Hs2] w.
  pose proof (visibleRowCount_pos _ _ Hr Hv) as Hvc.
  pose proof (half_ceil (JS.ceil (viewportHeight / rowHeight))) as Hos.
  pose proof (rawStart_nonneg _ _ Hr Hs1) as Hrs.
  pose proof (rawStart_below _ _ _ Hr Hs2) as Hlt.
  subst w. unfold visibleWindow. cbn [start end_]. lia.
Qed.

(** X7: the layout of DataGridBody right after a call of
    [calculateVisibleRows] that has read the [data] and the row-height
    estimate of the render that lays the rows out (the calls of the scroll
    listener and of the effects that depend on [calculateVisibleRows]; the
    callbacks of the two observers keep the function of the first render
    and are not covered), for a scroll offset inside the spacer: the rows
    container starts at or above the scroll offset, ends inside the spacer,
    and either reaches below the viewport or ends exactly where the spacer
    ends. *)
Theorem X7_body_rows_inside_spacer (Row : Type) (c : Container)
    (data : list Row) (st : State Row) :
  let viewportHeight := JS.or (clientHeight c) (dimensionsHeight st) in
  let rowHeight := inject_Z (measuredRowHeight st) in
  0 < measuredRowHeight st -> (0 < viewportHeight)%Q ->
  (0 <= scrollTop c < spacerHeight data st)%Q ->
  let st' := calculateVisibleRows (Some c) data st in
  let rows := inject_Z (Z.of_nat (length (visibleRows st'))) in
  (0 <= rowsTop st' <= scrollTop c)%Q /\
  (scrollTop c + viewportHeight <= rowsTop st' + rows * rowHeight \/
   rowsTop st' + rows * rowHeight == spacerHeight data st')%Q /\
  (rowsTop st' + rows * rowHeight <= spacerHeight data st')%Q.
Proof.
  intros vh rh Hh Hv Hs st' rows.
  assert (Hr : (0 < rh)%Q).
  { subst rh. change 0%Q with (inject_Z 0). rewrite <- Zlt_Qlt. exact Hh. }
  set (len := Z.of_nat (length data)).
  set (w := visibleWindow (scrollTop c) vh rh len).
  destruct (visibleWindow_bounds (scrollTop c) vh rh len Hr Hv Hs)
    as (H0 & H1 & H2 & H3 & H4). fold w in H0, H1, H2, H3, H4.
  destruct (floor_div_bounds (scrollTop c) rh Hr) as [Hf1 Hf2].
  destruct (ceil_div_bounds vh rh Hr) as [Hc1 Hc2].
  pose proof (half_ceil (JS.ceil (vh / rh))) as Hos.
  pose proof (visibleRowCount_pos _ _ Hr Hv) as Hvc.
  set (rs := JS.floor (scrollTop c / rh)) in *.
  set (vc := JS.ceil (vh / rh)) in *.
  set (os := JS.ceil (inject_Z vc * (1 # 2))) in *.
  assert (Htop : rowsTop st' = (inject_Z (start w) * rh)%Q) by reflexivity.
  assert (Hsp : spacerHeight data st' = (inject_Z len * rh)%Q) by reflexivity.
  assert (Hrows : (rows == inject_Z (end_ w + 1 - start w))%Q).
  { subst rows. 
    replace (visibleRows st') with (JS.slice data (start w) (end_ w + 1))
      by reflexivity.
    destruct (slice_inside data (start w) (end_ w + 1)) as [_ ->];
      [lia|lia|reflexivity]. }
  assert (Hbot : (rowsTop st' + rows * rh == inject_Z (end_ w + 1) * rh)%Q).
  { rewrite Htop, Hrows. unfold Z.sub.
    rewrite !inject_Z_plus, inject_Z_opp. ring. }
  rewrite Hbot, Hsp, Htop.
  split; [split|split].
  - apply Qmult_le_0_compat; [|lra].
    change 0%Q with (inject_Z 0). rewrite <- Zle_Qle. lia.
  - apply Qle_trans with (inject_Z rs * rh)%Q; [|exact Hf1].
    apply inject_Z_mult_le; [lra|lia].
  - destruct H4 as [H4|H4].
    + right. rewrite H4. replace (len - 1 + 1) with len by lia. reflexivity.
    + left. apply Qle_trans with (inject_Z (rs + 1 + vc) * rh)%Q.
      * rewrite !inject_Z_plus. change (inject_Z 1) with 1%Q. lra.
      * apply inject_Z_mult_le; [lra|lia].
  - apply inject_Z_mult_le; [lra|lia].
Qed.
End WindowExtras.

(** ** Columns and resize gestures (DataGrid and CSVUploader) *)

Section ColumnExtras.
Import DataGrid.

Lemma withWidth_fields (w : Q) (h : Header.t) :
  Header.id (Header.withWidth w h) = Header.id h /\
  Header.name (Header.withWidth w h) = Header.name h /\
  Header.minWidth (Header.withWidth w h) = Header.minWidth h /\
  Header.maxWidth (Header.withWidth w h) = Header.maxWidth h /\
  Header.resizable (Header.withWidth w h) = Header.resizable h /\
  Header.sortable (Header.withWidth w h) = Header.sortable h.
Proof. repeat split. Qed.

Lemma handleColumnResize_unknown (columnId : string) (newWidth : Q)
    (hs : list Header.t) :
  ~ In columnId (List.map Header.id hs) ->
  handleColumnResize columnId newWidth hs = hs.
Proof.
  unfold handleColumnResize. intros Hnot.
  induction hs as [|h hs IH]; [reflexivity|].
  cbn [List.map] in *.
  destruct (String.eqb_spec (Header.id h) columnId) as [E|E].
  - exfalso. apply Hnot. left. exact E.
  - f_equal. apply IH. intros Hin. apply Hnot. right. exact Hin.
Qed.

(** X8: [handleColumnResize] keeps the number and order of the columns
    and every field but the width; it sets the width of the columns with
    the given id, leaves the others as they are, and changes nothing when
    no column has that id. *)
Theorem X8_resize_keeps_columns (columnId : string) (newWidth : Q)
    (hs : list Header.t) :
  let hs' := handleColumnResize columnId newWidth hs in
  length hs' = length hs /\
  List.map Header.id hs' = List.map Header.id hs /\
  List.map Header.minWidth hs' = List.map Header.minWidth hs /\
  List.map Header.maxWidth hs' = List.map Header.maxWidth hs /\
  List.map Header.resizable hs' = List.map Header.resizable hs /\
  List.map Header.sortable hs' = List.map Header.sortable hs /\
  (forall i h, hs !! i = Some h ->
     exists h', hs' !! i = Some h' /\
       (Header.id h = columnId -> Header.width h' = newWidth) /\
       (Header.id h <> columnId -> h' = h)) /\
  (~ In columnId (List.map Header.id hs) -> hs' = hs).
Proof.
  cbv zeta. unfold handleColumnResize.
  split; [apply length_map|].
  assert (Hmap : forall (B : Type) (f : Header.t -> B),
            (forall w h, f (Header.withWidth w h) = f h) ->
            List.map f (List.map (fun header =>
               if String.eqb (Header.id header) columnId
               then Header.withWidth newWidth header else header) hs)
            = List.map f hs).
  { intros B f Hf. rewrite List.map_map. apply List.map_ext.
    intros h. destruct (String.eqb _ _); [apply Hf|reflexivity]. }
  split; [apply Hmap; reflexivity|]. split; [apply Hmap; reflexivity|].
  split; [apply Hmap; reflexivity|]. split; [apply Hmap; reflexivity|].
  split; [apply Hmap; reflexivity|]. split.
  - intros i h Hi.
    pose proof (handleColumnResize_widths columnId newWidth hs i h Hi) as H.
    unfold handleColumnResize in H. rewrite H. eexists. split; [reflexivity|].
    destruct (String.eqb_spec (Header.id h) columnId); split; intros; 
      try reflexivity; congruence.
  - apply (handleColumnResize_unknown columnId newWidth hs).
Qed.

(** X9: of two resizes of one column the later one wins, and resizes of
    different columns commute. *)
Theorem X9_resize_composition (c1 c2 : string) (w1 w2 : Q)
    (hs : list Header.t) :
  handleColumnResize c1 w2 (handleColumnResize c1 w1 hs)
  = handleColumnResize c1 w2 hs /\
  (c1 <> c2 ->
   handleColumnResize c2 w2 (handleColumnResize c1 w1 hs)
   = handleColumnResize c1 w1 (handleColumnResize c2 w2 hs)).
Proof.
  unfold handleColumnResize. split.
  - rewrite List.map_map. apply List.map_ext. intros h.
    destruct (String.eqb_spec (Header.id h) c1) as [E|E].
    + cbn [Header.withWidth Header.id]. rewrite E, String.eqb_refl. reflexivity.
    + destruct (String.eqb_spec (Header.id h) c1); [contradiction|reflexivity].
  - intros Hne. rewrite !List.map_map. apply List.map_ext. intros h.
    destruct (String.eqb_spec (Header.id h) c1) as [E1|E1];
      destruct (String.eqb_spec (Header.id h) c2) as [E2|E2];
      cbn [Header.withWidth Header.id].
    + congruence.
    + destruct (String.eqb_spec (Header.id h) c2); [contradiction|].
      destruct (String.eqb_spec (Header.id h) c1); [reflexivity|contradiction].
    + destruct (String.eqb_spec (Header.id h) c1); [contradiction|].
      destruct (String.eqb_spec (Header.id h) c2); [reflexivity|contradiction].
    + destruct (String.eqb_spec (Header.id h) c1); [contradiction|].
      destruct (String.eqb_spec (Header.id h) c2); [contradiction|reflexivity].
Qed.

(** total width *)
Lemma totalColumnsWidth_from (hs : list Header.t) (acc : Q) :
  (List.fold_left (fun a h => a + Header.width h) hs acc
   == acc + totalColumnsWidth hs)%Q.
Proof.
  unfold totalColumnsWidth. revert acc.
  induction hs as [|h hs IH]; intros acc; cbn [List.fold_left].
  - ring.
  - rewrite IH. rewrite (IH (0 + Header.width h)%Q). ring.
Qed.

Lemma totalColumnsWidth_cons (h : Header.t) (hs : list Header.t) :
  (totalColumnsWidth (h :: hs) == Header.width h + totalColumnsWidth hs)%Q.
Proof.
  unfold totalColumnsWidth at 1. cbn [List.fold_left].
  rewrite totalColumnsWidth_from. ring.
Qed.

(** X10: with unique column ids, resizing a column changes the total
    width by the difference between the new and the old width. *)
Theorem X10_resize_total_width (columnId : string) (newWidth : Q)
    (hs : list Header.t) (i : nat) (h : Header.t) :
  NoDup (List.map Header.id hs) ->
  hs !! i = Some h -> Header.id h = columnId ->
  (totalColumnsWidth (handleColumnResize columnId newWidth hs)
   == totalColumnsWidth hs - Header.width h + newWidth)%Q.
Proof.
  revert i. induction hs as [|h0 hs IH]; intros i Hnd Hi Hid; [discriminate|].
  cbn [List.map] in Hnd. apply NoDup_cons in Hnd as [Hnotin Hnd].
  unfold handleColumnResize. cbn [List.map].
  fold (handleColumnResize columnId newWidth hs).
  rewrite !totalColumnsWidth_cons.
  destruct i as [|i]; cbn in Hi.
  - injection Hi as ->. rewrite Hid, String.eqb_refl.
    cbn [Header.withWidth Header.width].
    rewrite handleColumnResize_unknown; [ring|]. rewrite <- Hid.
    intros Hin. apply Hnotin. apply list_elem_of_In. exact Hin.
  - destruct (String.eqb_spec (Header.id h0) columnId) as [E|E].
    + exfalso. apply Hnotin. rewrite E, <- Hid.
      apply list_elem_of_In, in_map. 
      apply list_elem_of_In. eapply list_elem_of_lookup_2. exact Hi.
    + rewrite (IH i Hnd Hi Hid). ring.
Qed.

Lemma clamp_range (x lo hi : Q) :
  (lo <= hi)%Q -> (lo <= JS.clamp x lo hi <= hi)%Q.
Proof.
  intros Hb. unfold JS.clamp.
  destruct (Qle_bool x hi) eqn:E1.
  - apply Qle_bool_iff in E1.
    destruct (Qle_bool lo x) eqn:E2; [apply Qle_bool_iff in E2|]; lra.
  - destruct (Qle_bool lo hi) eqn:E2; [lra|].
    assert (~ (lo <= hi)%Q) by (rewrite <- Qle_bool_iff, E2; discriminate).
    lra.
Qed.

Lemma formatHeaders_uploader (fields : list string) :
  Forall uploaderColumn (CSVUploader.formatHeaders fields) /\
  List.map Header.id (CSVUploader.formatHeaders fields) = fields.
Proof.
  unfold CSVUploader.formatHeaders. split.
  - apply List.Forall_forall. intros h Hin. apply in_map_iff in Hin as (f & <- & _).
    repeat split; cbn; try reflexivity; intros H; discriminate H.
  - rewrite List.map_map. cbn [Header.ofField Header.id]. apply List.map_id.
Qed.

Lemma handleMouseMove_uploader {Row : Type} (d : Drag) (x sw cw : Q)
    (st : State Row) :
  Forall uploaderColumn (headers st) ->
  Forall uploaderColumn (headers (handleMouseMove d x sw cw st)) /\
  List.map Header.id (headers (handleMouseMove d x sw cw st))
  = List.map Header.id (headers st).
Proof.
  intros Hall. rewrite handleMouseMove_headers. split.
  - unfold handleColumnResize. apply List.Forall_forall. intros h Hin.
    apply in_map_iff in Hin as (h0 & <- & Hin0).
    rewrite List.Forall_forall in Hall. specialize (Hall h0 Hin0).
    destruct (String.eqb _ _); [|exact Hall].
    destruct Hall as (Hmin & Hmax & _). repeat split; try assumption;
      cbn [Header.withWidth Header.width]; apply clamp_range; lra.
  - unfold handleColumnResize. rewrite List.map_map. apply List.map_ext.
    intros h. destruct (String.eqb _ _); reflexivity.
Qed.

Lemma totalColumnsWidth_range (hs : list Header.t) :
  Forall uploaderColumn hs ->
  (50 * inject_Z (Z.of_nat (length hs)) <= totalColumnsWidth hs
   <= 500 * inject_Z (Z.of_nat (length hs)))%Q.
Proof.
  induction 1 as [|h hs Hh _ IH].
  - unfold totalColumnsWidth. cbn [List.fold_left length].
    change (inject_Z (Z.of_nat 0)) with 0%Q. lra.
  - assert (E : (inject_Z (Z.of_nat (length (h :: hs)))
                 == inject_Z (Z.of_nat (length hs)) + 1)%Q).
    { cbn [length]. rewrite Nat2Z.inj_succ. unfold Z.succ.
      apply inject_Z_succ. }
    rewrite totalColumnsWidth_cons, E.
    destruct Hh as (_ & _ & Hw). lra.
Qed.

(** X11: starting from the headers the uploader builds, after any run of
    resize moves the columns are still the fields of the file in order,
    every width is within the column's own bounds, and the total width is
    between 50 and 500 per column. *)
Theorem X11_uploader_columns_stay_in_bounds (Row : Type) (d : list Row)
    (fields : list string) (moves : list (Drag * Q * Q * Q)) :
  let st := dragAll moves (initialState d (CSVUploader.formatHeaders fields)) in
  List.map Header.id (headers st) = fields /\
  Forall (fun h => (Header.minWidth h <= Header.width h
                    <= Header.maxWidth h)%Q) (headers st) /\
  (50 * inject_Z (Z.of_nat (length fields)) <= totalColumnsWidth (headers st)
   <= 500 * inject_Z (Z.of_nat (length fields)))%Q.
Proof.
  cbv zeta.
  assert (Hgen : forall st0 : State Row,
            Forall uploaderColumn (headers st0) ->
            Forall uploaderColumn (headers (dragAll moves st0)) /\
            List.map Header.id (headers (dragAll moves st0))
            = List.map Header.id (headers st0)).
  { induction moves as [|[[[dr x] sw] cw] rest IH]; intros st0 H0.
    - split; [exact H0|reflexivity].
    - change (dragAll ((dr, x, sw, cw) :: rest) st0)
        with (dragAll rest (handleMouseMove dr x sw cw st0)).
      destruct (handleMouseMove_uploader dr x sw cw st0 H0) as [H1 H2].
      destruct (IH _ H1) as [H3 H4]. split; [exact H3|].
      rewrite H4. exact H2. }
  destruct (formatHeaders_uploader fields) as [Hf Hid].
  destruct (Hgen (initialState d (CSVUploader.formatHeaders fields)) Hf)
    as [Hall Hids].
  cbn [initialState headers] in Hids. rewrite Hid in Hids.
  split; [exact Hids|]. split.
  - eapply Forall_impl; [exact Hall|]. intros h (Hmin & Hmax & Hw).
    cbv beta. rewrite Hmin, Hmax. exact Hw.
  - pose proof (totalColumnsWidth_range _ Hall) as Ht.
    assert (Hlen : length (headers (dragAll moves
              (initialState d (CSVUploader.formatHeaders fields))))
            = length fields).
    { rewrite <- Hids at 2. now rewrite length_map. }
    rewrite Hlen in Ht. exact Ht.
Qed.

End ColumnExtras.

(** ** Scroll events and mutation batches (DataGrid) *)

Section ScrollExtras.
Import DataGrid.
Context {Row : Type}.

Lemma Qeq_bool_same (x : Q) : Qeq_bool x x = true.
Proof. apply Qeq_bool_iff. reflexivity. Qed.

Lemma state_eta (st : State Row) :
  {| data := data st; headers := headers st; sortConfig := sortConfig st;
     dimensionsHeight := dimensionsHeight st;
     scrollPosition := scrollPosition st;
     bodyRef := bodyRef st; headerRef := headerRef st |} = st.
Proof. destruct st; reflexivity. Qed.

(** X12: when a resize move within 20px of the right edge finds the header
    at least 10px short of the end of its scroll range, it scrolls the
    header on by 10px; the scroll event of the header then brings the body
    and the stored offset to the same value, and the event that follows on
    the body writes nothing more. *)
Theorem X12_auto_scroll_reaches_body (dr : Drag) (x sw cw : Q)
    (st : State Row) (b h : Element) :
  bodyRef st = Some b -> headerRef st = Some h ->
  (containerRight dr - 20 < x)%Q -> (scrollLeft h + 10 <= sw - cw)%Q ->
  let st1 := handleMouseMove dr x sw cw st in
  let res := handleScroll HeaderRegion st1 in
  bothAt (scrollLeft h + 10) res.1 /\
  (left (scrollPosition res.1) == scrollLeft h + 10)%Q /\
  (handleScroll Body res.1).2 = [].
Proof.
  intros Hb Hh Hx Hroom st1 res.
  assert (Hs : (scrollLeft h < sw - cw)%Q) by lra.
  assert (Hh1 : headerRef st1
                = Some {| scrollTop := scrollTop h;
                          scrollLeft := (scrollLeft h + 10)%Q |}).
  { subst st1. unfold handleMouseMove. cbn [setHeaders headerRef].
    rewrite Hh.
    destruct (Qlt_le_dec (containerRight dr - 20) x) as [_|H]; [|lra].
    destruct (Qlt_le_dec (scrollLeft h) (sw - cw)) as [_|H]; [|lra].
    reflexivity. }
  assert (Hb1 : bodyRef st1 = Some b).
  { subst st1. unfold handleMouseMove. cbn [setHeaders headerRef].
    rewrite Hh.
    destruct (Qlt_le_dec (containerRight dr - 20) x);
      [destruct (Qlt_le_dec (scrollLeft h) (sw - cw))|]; exact Hb. }
  destruct (handleScroll_header st1 b _ Hb1 Hh1)
    as (Rh & (b' & Rb & Rl & _) & _).
  fold res in Rh, Rb. cbn [scrollLeft] in Rl.
  split; [|split].
  - exists b', {| scrollTop := scrollTop h;
                  scrollLeft := (scrollLeft h + 10)%Q |}.
    split; [exact Rb|]. split; [exact Rh|]. split; [exact Rl|].
    reflexivity.
  - apply (handleScroll_stored_left st1 HeaderRegion).
    cbn [sourceOffset]. rewrite Hh1. reflexivity.
  - destruct (handleScroll_body res.1 b' _ Rb Rh) as (_ & _ & Hsame & _).
    apply Hsame. cbn [scrollLeft]. symmetry. exact Rl.
Qed.

(** X13: [handleScroll] is idempotent: a second run on the same target
    changes nothing and raises no further event. *)
Theorem X13_handleScroll_idempotent (target : Target) (st : State Row) :
  handleScroll target (handleScroll target st).1
  = ((handleScroll target st).1, []).
Proof.
  destruct st as [d hs sc dh sp bR hR].
  destruct target; [| |reflexivity];
    unfold handleScroll, setScrollPosition, setHeaderRef, setBodyRef;
    cbn -[Qeq_bool].
  - destruct bR as [b|]; [|reflexivity].
    destruct hR as [h|]; cbn -[Qeq_bool].
    + destruct (Qeq_bool (top sp) (scrollTop b)
                && Qeq_bool (left sp) (scrollLeft b)) eqn:E1;
        destruct (Qeq_bool (scrollLeft h) (scrollLeft b)) eqn:E2;
        cbn -[Qeq_bool];
        rewrite ?E1, ?E2, ?Qeq_bool_same; cbn -[Qeq_bool];
        rewrite ?E1, ?E2, ?Qeq_bool_same; reflexivity.
    + destruct (Qeq_bool (top sp) (scrollTop b)
                && Qeq_bool (left sp) (scrollLeft b)) eqn:E1;
        cbn -[Qeq_bool]; rewrite ?E1, ?Qeq_bool_same; reflexivity.
  - destruct hR as [h|]; [|reflexivity].
    destruct bR as [b|]; cbn -[Qeq_bool].
    + destruct (Qeq_bool (left sp) (scrollLeft h)) eqn:E1;
        destruct (Qeq_bool (scrollLeft b) (scrollLeft h)) eqn:E2;
        cbn -[Qeq_bool];
        rewrite ?E1, ?E2, ?Qeq_bool_same; cbn -[Qeq_bool];
        rewrite ?E1, ?E2, ?Qeq_bool_same; reflexivity.
    + destruct (Qeq_bool (left sp) (scrollLeft h)) eqn:E1;
        cbn -[Qeq_bool]; rewrite ?E1, ?Qeq_bool_same; reflexivity.
Qed.

(** X14: [handleScroll] never writes a vertical offset to an element and
    never touches the data, the columns, the sort state or the dimensions;
    an event of the header keeps the stored vertical offset, an event of
    the body leaves the body as it is and stores the body's vertical
    offset. *)
Theorem X14_vertical_offset_owned_by_body (target : Target) (st : State Row) :
  let st' := (handleScroll target st).1 in
  data st' = data st /\ headers st' = headers st /\
  sortConfig st' = sortConfig st /\
  dimensionsHeight st' = dimensionsHeight st /\
  scrollTop <$> bodyRef st' = scrollTop <$> bodyRef st /\
  scrollTop <$> headerRef st' = scrollTop <$> headerRef st /\
  (target <> Body -> top (scrollPosition st') = top (scrollPosition st)) /\
  (target = Body -> bodyRef st' = bodyRef st /\
     forall b, bodyRef st = Some b ->
       (top (scrollPosition st') == scrollTop b)%Q).
Proof.
  destruct st as [d hs sc dh sp bR hR]. cbv zeta.
  destruct target;
    unfold handleScroll, setScrollPosition, setHeaderRef, setBodyRef;
    cbn -[Qeq_bool].
  - destruct bR as [b|]; cbn -[Qeq_bool].
    + assert (Htop : (top (if Qeq_bool (top sp) (scrollTop b)
                              && Qeq_bool (left sp) (scrollLeft b)
                           then sp
                           else {| top := scrollTop b; left := scrollLeft b |})
                      == scrollTop b)%Q).
      { destruct (Qeq_bool (top sp) (scrollTop b)) eqn:E; cbn [andb];
          [|reflexivity].
        destruct (Qeq_bool (left sp) (scrollLeft b)); [|reflexivity].
        now apply Qeq_bool_iff in E. }
      destruct hR as [h|];
        [destruct (negb (Qeq_bool (scrollLeft h) (scrollLeft b)))|];
        cbn -[Qeq_bool];
        (do 6 (split; [reflexivity|])); (split; [congruence|]);
        intros _; (split; [reflexivity|]);
        intros b0 Hb0; injection Hb0 as <-; exact Htop.
    + do 6 (split; [reflexivity|]). split; [reflexivity|].
      intros _. split; [reflexivity|]. intros b H. discriminate H.
  - destruct hR as [h|]; cbn -[Qeq_bool].
    + destruct bR as [b|];
        [destruct (negb (Qeq_bool (scrollLeft b) (scrollLeft h)))|];
        cbn -[Qeq_bool];
        (do 6 (split; [reflexivity|]));
        (split; [intros _; destruct (Qeq_bool (left sp) (scrollLeft h));
                 reflexivity|]);
        intros H; discriminate H.
    + do 6 (split; [reflexivity|]). split; [reflexivity|].
      intros H; discriminate H.
  - do 6 (split; [reflexivity|]). split; [reflexivity|].
    intros H; discriminate H.
Qed.

Lemma handleScroll_body_top (st : State Row) (b : Element) :
  bodyRef st = Some b ->
  (top (scrollPosition (handleScroll Body st).1) == scrollTop b)%Q.
Proof.
  intros Hb. destruct st as [d hs sc dh sp bR hR]. cbn [bodyRef] in Hb.
  subst bR.
  unfold handleScroll, setScrollPosition, setHeaderRef. cbn -[Qeq_bool].
  assert (Htop : (top (if Qeq_bool (top sp) (scrollTop b)
                          && Qeq_bool (left sp) (scrollLeft b)
                       then sp
                       else {| top := scrollTop b; left := scrollLeft b |})
                  == scrollTop b)%Q).
  { destruct (Qeq_bool (top sp) (scrollTop b)) eqn:E; cbn [andb];
      [|reflexivity].
    destruct (Qeq_bool (left sp) (scrollLeft b)); [|reflexivity].
    now apply Qeq_bool_iff in E. }
  destruct hR as [h|];
    [destruct (negb (Qeq_bool (scrollLeft h) (scrollLeft b)))|];
    exact Htop.
Qed.

Lemma handleScroll_body_settled (st : State Row) :
  settled st -> handleScroll Body st = (st, []).
Proof.
  intros (b & h & Hb & Hh & Hl & Ht & Hs).
  destruct st as [d hs sc dh sp bR hR]. cbn [bodyRef headerRef scrollPosition] in *.
  subst bR hR.
  unfold handleScroll, setScrollPosition, setHeaderRef. cbn -[Qeq_bool].
  apply Qeq_bool_iff in Hl, Ht, Hs. rewrite Ht, Hs, Hl. reflexivity.
Qed.

Lemma relevantMutation_childList (mutations : list Dom.MutationRecord) :
  Forall (fun m => Dom.isAttributes m = false) mutations ->
  relevantMutation mutations = false.
Proof.
  induction 1 as [|m ms Hm _ IH]; [reflexivity|].
  cbn [relevantMutation existsb]. rewrite Hm. exact IH.
Qed.

(** X15: one run of the MutationObserver callback, in a grid with any
    scroll ranges.  A batch without an attribute mutation (child-list
    changes only, say) is ignored; on a settled grid every batch leaves
    the state as it is and raises no scroll event; and on a mounted grid
    whose body is scrolled to an offset within the range of the header, a
    relevant batch leaves the grid settled. *)
Theorem X15_mutations_leave_settled_grid (range : ScrollRange)
    (mutations : list Dom.MutationRecord) (st : State Row) :
  (Forall (fun m => Dom.isAttributes m = false) mutations ->
     onMutations range mutations st = (st, [])) /\
  (settled st -> onMutations range mutations st = (st, [])) /\
  (forall b, bodyRef st = Some b -> is_Some (headerRef st) ->
   (0 <= scrollLeft b <= headerMax range)%Q ->
   relevantMutation mutations = true ->
     settled (onMutations range mutations st).1).
Proof.
  split; [|split].
  - intros Hall. unfold onMutations.
    now rewrite (relevantMutation_childList _ Hall).
  - intros Hs. unfold onMutations.
    destruct (relevantMutation mutations); [|reflexivity].
    destruct Hs as (b & h & Hb & Hh & Hrest) eqn:E. rewrite Hb, Hh.
    apply handleScrollIn_body_settled. exact Hs.
  - intros b Hb [h Hh] Hr Hrel. unfold onMutations. rewrite Hrel, Hb, Hh.
    destruct (handleScrollIn_body range st b h Hb Hh (proj1 Hr))
      as (Rb & h' & Rh & _ & Hcase); [lra|].
    destruct (handleScrollIn_body_position range st b Hb) as [Htop Hleft].
    exists b, h'. split; [exact Rb|]. split; [exact Rh|].
    split; [|split; [exact Htop | exact Hleft]].
    destruct Hcase as [(Hag & -> & _)|[(_ & _ & -> & _)|(_ & Hlt & _)]];
      [exact Hag | reflexivity | lra].
Qed.
End ScrollExtras.

(** ** Sort states (DataGrid) *)

Section SortExtras.
Import DataGrid.

(** One of the three states the toggle produces for column [k]. *)
Lemma handleSort_result (k : string) (prev : SortConfig) :
  handleSort k prev = {| key := Some k; direction := "asc" |} \/
  handleSort k prev = {| key := Some k; direction := "desc" |} \/
  handleSort k prev = {| key := None; direction := "asc" |}.
Proof.
  unfold handleSort. destruct (bool_decide _); [|auto].
  destruct (String.eqb _ "asc"); [auto|].
  destruct (String.eqb _ "desc"); auto.
Qed.

Lemma handleSort_asc (k : string) :
  handleSort k {| key := Some k; direction := "asc" |}
  = {| key := Some k; direction := "desc" |}.
Proof.
  unfold handleSort. cbn [key direction].
  rewrite bool_decide_eq_true_2 by reflexivity. reflexivity.
Qed.

Lemma handleSort_desc (k : string) :
  handleSort k {| key := Some k; direction := "desc" |}
  = {| key := None; direction := "asc" |}.
Proof.
  unfold handleSort. cbn [key direction].
  rewrite bool_decide_eq_true_2 by reflexivity. reflexivity.
Qed.

Lemma handleSort_unsorted (k : string) (dir : string) :
  handleSort k {| key := None; direction := dir |}
  = {| key := Some k; direction := "asc" |}.
Proof.
  unfold handleSort. cbn [key direction].
  rewrite bool_decide_eq_false_2 by discriminate. reflexivity.
Qed.

(** X16: after one activation of a column, three more bring the sort
    state back: the toggle has period three from any state. *)
Theorem X16_sort_toggle_period_three (k : string) (prev : SortConfig) :
  handleSort k (handleSort k (handleSort k (handleSort k prev)))
  = handleSort k prev.
Proof.
  destruct (handleSort_result k prev) as [-> | [-> | ->]];
    rewrite ?handleSort_asc, ?handleSort_desc, ?handleSort_unsorted,
            ?handleSort_asc, ?handleSort_desc, ?handleSort_unsorted,
            ?handleSort_asc, ?handleSort_desc, ?handleSort_unsorted;
    reflexivity.
Qed.

Lemma clickAll_app (l1 l2 : list Header.t) (cfg : SortConfig) :
  clickAll (l1 ++ l2) cfg = clickAll l2 (clickAll l1 cfg).
Proof. unfold clickAll. apply fold_left_app. Qed.

(** X17: after any run of header clicks from the initial sort state the
    direction is ["asc"] or ["desc"], an unsorted state has direction
    ["asc"], and the sort key is the id of a sortable header that was
    clicked; clicks on headers that are not sortable change nothing. *)
Theorem X17_clicks_keep_sort_state_well_formed (clicked : list Header.t) :
  let cfg := clickAll clicked {| key := None; direction := "asc" |} in
  wellFormed clicked cfg /\
  (Forall (fun h => Header.sortable h = false) clicked ->
     cfg = {| key := None; direction := "asc" |}).
Proof.
  cbv zeta. split.
  - induction clicked as [|h rest IH] using rev_ind.
    + repeat split; cbn; auto. intros k H. discriminate H.
    + rewrite clickAll_app. cbn [clickAll List.fold_left].
      set (cfg := clickAll rest _) in *. fold (clickAll rest) in *.
      destruct IH as (Hd & Hn & Hk).
      unfold onHeaderClick. destruct (Header.sortable h) eqn:Hs.
      * destruct (handleSort_result (Header.id h) cfg) as [-> | [-> | ->]];
          (split; [cbn; auto|]); (split; [cbn; try discriminate; auto|]);
          intros k Hkey; cbn in Hkey; try discriminate;
          injection Hkey as <-; exists h; (split; [apply in_or_app; right; left; reflexivity|]);
          auto.
      * split; [exact Hd|]. split; [exact Hn|]. intros k Hkey.
        destruct (Hk k Hkey) as (h0 & Hin & H1 & H2). exists h0.
        split; [apply in_or_app; left; exact Hin|]. auto.
  - intros Hall. induction Hall as [|h rest Hh _ IH]; [reflexivity|].
    cbn [clickAll List.fold_left]. unfold onHeaderClick at 2. rewrite Hh.
    exact IH.
Qed.

(** X18: for a header whose id is not the empty string, whenever its sort
    icon shows the view is the one [_.orderBy] gives for that column; for
    a sortable header whose id is the empty string the icon shows after a
    click, up and then down, while the view stays the unsorted dataset. *)
Theorem X18_empty_column_id (Row : Type)
    (orderBy : list Row -> list string -> list string -> list Row)
    (d : list Row) (header : Header.t) (cfg : SortConfig) :
  (Header.id header <> EmptyString -> sortIcon cfg header <> None ->
     sortedRows orderBy d cfg
     = orderBy d [Header.id header] [direction cfg]) /\
  (Header.id header = EmptyString -> Header.sortable header = true ->
     key cfg = None ->
     let cfg' := onHeaderClick header cfg in
     sortIcon cfg' header = Some ArrowUp /\
     sortedRows orderBy d cfg' = d /\
     sortedRows orderBy d (onHeaderClick header cfg') = d /\
     sortIcon (onHeaderClick header cfg') header = Some ArrowDown).
Proof.
  split.
  - intros Hid Hicon. unfold sortIcon in Hicon.
    destruct (bool_decide (key cfg = Some (Header.id header))) eqn:E;
      [|congruence].
    apply bool_decide_eq_true_1 in E. unfold sortedRows. rewrite E.
    destruct (Header.id header); [congruence|reflexivity].
  - intros Hid Hs Hk. destruct cfg as [k dir]. cbn [key] in Hk. subst k.
    unfold onHeaderClick. rewrite Hs, Hid. rewrite handleSort_unsorted.
    rewrite handleSort_asc. cbv zeta. unfold sortIcon. rewrite Hid.
    cbn [key direction].
    rewrite !bool_decide_eq_true_2 by reflexivity.
    repeat split; reflexivity.
Qed.
End SortExtras.

(** ** Mutations grouped by target (observer utilities) *)

Section ObserverExtras.
Import Observers.

Lemma groupInto_groups (mutations : list Dom.MutationRecord) :
  forall acc : gmap string (list Dom.MutationRecord),
    Forall (fun m => targetKey m ∉ inheritedKeys) mutations ->
    exists g, groupInto mutations acc = Some g /\
              forall k, g !! k = grouped acc mutations k.
Proof.
  induction mutations as [|m rest IH]; intros acc Hall.
  - exists acc. split; [reflexivity|]. intros k. unfold grouped, withKey.
    cbn [List.filter]. destruct (acc !! k); [now rewrite app_nil_r|reflexivity].
  - apply Forall_cons in Hall as [Hm Hrest]. cbn [groupInto].
    destruct (acc !! targetKey m) as [group|] eqn:Hacc.
    + destruct (IH (<[targetKey m := group ++ [m]]> acc) Hrest)
        as (g & Hg & Hk).
      exists g. split; [exact Hg|]. intros k. rewrite Hk.
      unfold grouped, withKey. cbn [List.filter].
      destruct (String.eqb_spec (targetKey m) k) as [<-|Hne].
      * rewrite lookup_insert_eq, Hacc. now rewrite <- app_assoc.
      * rewrite lookup_insert_ne by exact Hne. reflexivity.
    + rewrite bool_decide_eq_false_2 by exact Hm.
      destruct (IH (<[targetKey m := [m]]> acc) Hrest) as (g & Hg & Hk).
      exists g. split; [exact Hg|]. intros k. rewrite Hk.
      unfold grouped, withKey. cbn [List.filter].
      destruct (String.eqb_spec (targetKey m) k) as [<-|Hne].
      * rewrite lookup_insert_eq, Hacc. reflexivity.
      * rewrite lookup_insert_ne by exact Hne. reflexivity.
Qed.

Lemma groupInto_fails (mutations : list Dom.MutationRecord) :
  forall acc : gmap string (list Dom.MutationRecord),
    (forall k, k ∈ inheritedKeys -> acc !! k = None) ->
    Exists (fun m => targetKey m ∈ inheritedKeys) mutations ->
    groupInto mutations acc = None.
Proof.
  induction mutations as [|m rest IH]; intros acc Hacc Hex.
  - inversion Hex.
  - cbn [groupInto].
    destruct (decide (targetKey m ∈ inheritedKeys)) as [Hin|Hnot].
    + rewrite (Hacc _ Hin). now rewrite bool_decide_eq_true_2.
    + apply Exists_cons in Hex as [Hm|Hrest]; [contradiction|].
      destruct (acc !! targetKey m) as [group|].
      * apply IH; [|exact Hrest]. intros k Hk.
        rewrite lookup_insert_ne; [apply Hacc; exact Hk|].
        intros <-. contradiction.
      * rewrite bool_decide_eq_false_2 by exact Hnot.
        apply IH; [|exact Hrest]. intros k Hk.
        rewrite lookup_insert_ne; [apply Hacc; exact Hk|].
        intros <-. contradiction.
Qed.

(** X19: when no target key is a property name inherited from
    [Object.prototype], the groups are exactly the mutations of each key in
    the order of the batch, and keys without a mutation have no group; when
    some key is inherited the grouping throws; mutations of targets
    without an id are in the group ["unknown"]. *)
Theorem X19_mutations_grouped_by_target
    (mutations : list Dom.MutationRecord) :
  (Forall (fun m => targetKey m ∉ inheritedKeys) mutations ->
     exists g, mutationsByTarget mutations = Some g /\
       forall k, g !! k = match withKey k mutations with
                          | [] => None
                          | group => Some group
                          end) /\
  (Exists (fun m => targetKey m ∈ inheritedKeys) mutations ->
     mutationsByTarget mutations = None) /\
  (forall m, In m mutations -> Dom.targetId m = EmptyString ->
     In m (withKey "unknown" mutations)).
Proof.
  split; [|split].
  - intros Hall. destruct (groupInto_groups mutations ∅ Hall) as (g & Hg & Hk).
    exists g. split; [exact Hg|]. intros k. rewrite Hk. unfold grouped.
    rewrite lookup_empty. reflexivity.
  - intros Hex. apply groupInto_fails; [|exact Hex].
    intros k _. apply lookup_empty.
  - intros m Hin Hid. unfold withKey. apply filter_In. split; [exact Hin|].
    unfold targetKey. rewrite Hid. reflexivity.
Qed.
End ObserverExtras.

(** ** The scroll gate (DataGridBody) *)

Section GateExtras.
Import DataGridBody.
Context {Row : Type}.

Lemma calculateVisibleRows_idempotent (c : Container) (data : list Row)
    (st : State Row) :
  calculateVisibleRows (Some c) data (calculateVisibleRows (Some c) data st)
  = calculateVisibleRows (Some c) data st.
Proof. reflexivity. Qed.

Lemma step_invariant (data : list Row) (ev : Event) (m : Mounted Row) :
  gateInvariant data m ->
  gateInvariant data (step data ev m) /\
  (length (reported (step data ev m)) + frames (step data ev m)
   <= length (reported m) + frames m + (if isScroll ev then 1 else 0))%nat /\
  (isScroll ev = false -> frames m = 1%nat ->
     upToDate data (step data ev m) /\
     reported (step data ev m) = reported m ++ [scrollLeft m]).
Proof.
  unfold gateInvariant, upToDate.
  intros [[Ht Hf]|(Ht & Hf & Hu)]; destruct ev as [t l|];
    cbn [step isScroll].
  - rewrite Ht. cbn [negb state frames reported].
    split; [left; split; assumption|]. split; [lia|].
    intros H. discriminate H.
  - rewrite Hf. cbn [state frames reported container calculateVisibleRows
                     scrollTicking].
    split; [right; repeat split|]. split.
    + rewrite length_app. cbn [length]. lia.
    + intros _ _. split; reflexivity.
  - rewrite Ht. cbn [negb state frames reported setTicking scrollTicking].
    split; [left; split; [reflexivity|lia]|]. split; [lia|].
    intros H. discriminate H.
  - rewrite Hf. split; [right; auto|]. split; [lia|]. intros _ H. lia.
Qed.

(** X20: the scroll gate of DataGridBody.  Through any run of scroll
    events and animation frames at most one frame is requested at a time;
    whenever none is requested the stored window is the one of the current
    scroll offset; no more recomputations run than scroll events arrived;
    and one more frame leaves the gate open, the window up to date and,
    when a frame was requested, reports the current horizontal offset. *)
Theorem X20_scroll_gate_single_flight (data : list Row) (evs : list Event)
    (m : Mounted Row) :
  gateInvariant data m ->
  let m' := steps data evs m in
  gateInvariant data m' /\ (frames m' <= 1)%nat /\
  (frames m' = 0%nat ->
     state m' = calculateVisibleRows (Some (container m')) data (state m')) /\
  (length (reported m') + frames m'
   <= length (reported m) + frames m
      + length (List.filter isScroll evs))%nat /\
  (let m'' := step data Frame m' in
   frames m'' = 0%nat /\ scrollTicking (state m'') = false /\
   upToDate data m'' /\
   (frames m' = 1%nat -> reported m'' = reported m' ++ [scrollLeft m'])).
Proof.
  intros Hinv. cbv zeta.
  assert (Hgen : gateInvariant data (steps data evs m) /\
          (length (reported (steps data evs m)) + frames (steps data evs m)
           <= length (reported m) + frames m
              + length (List.filter isScroll evs))%nat).
  { revert m Hinv. induction evs as [|ev rest IH]; intros m Hinv.
    - split; [exact Hinv|cbn; lia].
    - change (steps data (ev :: rest) m)
        with (steps data rest (step data ev m)).
      destruct (step_invariant data ev m Hinv) as (H1 & H2 & _).
      destruct (IH _ H1) as [H3 H4]. split; [exact H3|].
      cbn [List.filter]. destruct (isScroll ev); cbn [length] in *; lia. }
  destruct Hgen as [Hg Hn]. split; [exact Hg|]. split; [|split; [|split]].
  - destruct Hg as [[_ ->]|(_ & -> & _)]; lia.
  - intros Hf. destruct Hg as [[_ H]|(_ & _ & Hu)]; [lia|].
    symmetry. exact Hu.
  - exact Hn.
  - destruct (step_invariant data Frame _ Hg) as (Hg' & _ & Hrun).
    destruct Hg as [[Ht Hf]|(Ht & Hf & Hu)].
    + destruct (Hrun eq_refl Hf) as [Hu' Hrep].
      cbn [step] in *. rewrite Hf in *.
      cbn [frames state calculateVisibleRows scrollTicking] in *.
      repeat split; auto.
    + cbn [step]. rewrite Hf. repeat split; auto. intros H. lia.
Qed.
End GateExtras.

(** ** The row-height estimate (DataGridBody) *)

Section MetricsExtras.
Import DataGridBody.
Context {Row : Type}.

(** X21: a call of [measureRowHeight] from any of its call sites gives the
    same state when it is repeated on the same row; it changes nothing but
    the estimate; a height that rounds to zero or less is ignored; after a
    height that rounds to a positive [s], either the stored estimate is
    within one pixel of [s], or nothing was stored and [s] is within one
    pixel of the estimate held by the function that ran; for the call of
    the scroll effect the stored estimate is within one pixel of [s]. *)
Theorem X21_estimate_tracks_sample (site : CallSite) (c : Container)
    (st : State Row) (raw : Q) :
  rowElementHeight c = Some raw ->
  let s := JS.round raw in
  let st' := measureFrom site (Some c) st in
  measureFrom site (Some c) st' = st' /\
  visibleRows st' = visibleRows st /\ startIndex st' = startIndex st /\
  scrollTicking st' = scrollTicking st /\
  (s <= 0 -> st' = st) /\
  (0 < s ->
     Z.abs (s - measuredRowHeight st') <= 1 \/
     (st' = st /\ Z.abs (s - estimateSeenFrom site st) <= 1)) /\
  (site = ScrollEffect -> 0 < s -> Z.abs (s - measuredRowHeight st') <= 1).
Proof.
  intros Hraw s st'. subst st'. unfold measureFrom.
  destruct (measureRowHeight_cases (estimateSeenFrom site st) c st raw Hraw)
    as [(Hpos & Hfar & E)|(Hn & E)]; fold s in E.
  - fold s in Hpos, Hfar. rewrite E.
    assert (Hsame : measureRowHeight
                      (estimateSeenFrom site (setMeasuredRowHeight s st))
                      (Some c) (setMeasuredRowHeight s st)
                    = setMeasuredRowHeight s st).
    { destruct (measureRowHeight_cases
                  (estimateSeenFrom site (setMeasuredRowHeight s st)) c
                  (setMeasuredRowHeight s st) raw Hraw)
        as [(_ & _ & E')|(_ & E')]; [|exact E'].
      rewrite E'. reflexivity. }
    split; [exact Hsame|].
    cbn [setMeasuredRowHeight measuredRowHeight visibleRows startIndex
         scrollTicking].
    repeat split; try reflexivity; intros; lia.
  - fold s in Hn. rewrite !E.
    repeat split; try reflexivity.
    + intros Hs. right. split; [reflexivity|]. lia.
    + intros -> Hs. cbn [estimateSeenFrom] in Hn. lia.
Qed.
End MetricsExtras.

(** ** The resize gesture of DataGridHeader *)

Section HeaderExtras.

Lemma max_min_range (x lo hi : Q) :
  (lo <= hi)%Q -> (lo <= JS.max lo (JS.min hi x) <= hi)%Q.
Proof.
  intros Hb. unfold JS.max, JS.min.
  destruct (Qle_bool hi x) eqn:E1.
  - destruct (Qle_bool lo hi) eqn:E2; [lra|].
    assert (~ (lo <= hi)%Q) by (rewrite <- Qle_bool_iff, E2; discriminate).
    lra.
  - assert (~ (hi <= x)%Q) by (rewrite <- Qle_bool_iff, E1; discriminate).
    destruct (Qle_bool lo x) eqn:E2; [apply Qle_bool_iff in E2|]; lra.
Qed.

(** X22: in DataGridHeader, without a column being resized
    [handleResizeMove] and [handleResizeEnd] do nothing; with one, the
    width [handleResizeEnd] reports is the one [handleResizeMove] previews
    at the same pointer position, it lies within the column's bounds when
    these are ordered, and afterwards no column is being resized; both
    throw when the column is not among the headers. *)
Theorem X22_header_resize_end (x : Q) (hs : list Header.t)
    (st : DataGridHeader.State) :
  (DataGridHeader.resizing st = None ->
     DataGridHeader.handleResizeMove x hs st = Some None /\
     DataGridHeader.handleResizeEnd x hs st = Some (st, None)) /\
  (forall column h,
     DataGridHeader.resizing st = Some column ->
     Header.find column hs = Some h ->
     exists w st',
       DataGridHeader.handleResizeMove x hs st = Some (Some w) /\
       DataGridHeader.handleResizeEnd x hs st = Some (st', Some (column, w)) /\
       Header.id h = column /\
       DataGridHeader.resizing st' = None /\
       DataGridHeader.handleResizeEnd x hs st' = Some (st', None) /\
       ((Header.minWidth h <= Header.maxWidth h)%Q ->
          (Header.minWidth h <= w <= Header.maxWidth h)%Q)) /\
  (forall column,
     DataGridHeader.resizing st = Some column ->
     Header.find column hs = None ->
     DataGridHeader.handleResizeMove x hs st = None /\
     DataGridHeader.handleResizeEnd x hs st = None).
Proof.
  unfold DataGridHeader.handleResizeMove, DataGridHeader.handleResizeEnd.
  split; [|split].
  - intros ->. split; reflexivity.
  - intros column h -> Hf. rewrite Hf. eexists. eexists.
    split; [reflexivity|]. split; [reflexivity|].
    split; [exact (find_some_id column hs h Hf)|].
    split; [reflexivity|]. split; [reflexivity|].
    intros Hb. apply max_min_range. exact Hb.
  - intros column -> Hf. rewrite Hf. split; reflexivity.
Qed.

(** X23: in DataGridHeader the listeners a gesture attaches read the
    state of the render that attached them: after a mousedown on a
    resizable column of an idle header, a mouseup at any position reports
    no width, leaves [resizingColumn] set and leaves the listeners
    attached. *)
Theorem X23_first_gesture_reports_nothing (x0 x : Q) (headerId : string)
    (hs : list Header.t) (h : Header.t) (st : DataGridHeader.State) :
  Header.find headerId hs = Some h -> Header.resizable h = true ->
  DataGridHeader.resizing st = None ->
  let idle := {| DataGridHeader.current := st;
                 DataGridHeader.attached := [] |} in
  exists l,
    DataGridHeader.mouseDown x0 headerId hs idle = Some l /\
    DataGridHeader.current l
    = {| DataGridHeader.resizingColumn := Some headerId;
         DataGridHeader.startX := x0;
         DataGridHeader.startWidth := Header.width h |} /\
    DataGridHeader.attached l = [st] /\
    DataGridHeader.mouseUp x hs (DataGridHeader.attached l)
      (DataGridHeader.current l)
    = Some (l, []).
Proof.
  intros Hf Hr Hidle idle.
  exists {| DataGridHeader.current :=
              {| DataGridHeader.resizingColumn := Some headerId;
                 DataGridHeader.startX := x0;
                 DataGridHeader.startWidth := Header.width h |};
            DataGridHeader.attached := [st] |}.
  split.
  - unfold DataGridHeader.mouseDown, DataGridHeader.handleResizeStart.
    rewrite Hf, Hr. reflexivity.
  - cbn [DataGridHeader.current DataGridHeader.attached].
    split; [reflexivity|]. split; [reflexivity|].
    cbn [DataGridHeader.mouseUp]. unfold DataGridHeader.handleResizeEnd.
    rewrite Hidle. reflexivity.
Qed.
End HeaderExtras.

(** ** The properties above on concrete grids *)


Lemma X2_virtualized_rows_cover_viewport_witness :
  let r := VirtualizedRows.visibleRange 35 3500
             (DataGrid.visibleRowsCount 35 300) 10000 in
  VirtualizedRows.startIndex r <= 108 < VirtualizedRows.endIndex r.
Proof.
  assert (Hr : (0 < 35)%Q) by reflexivity.
  assert (Hs : (0 <= 3500)%Q) by (intros H; discriminate H).
  assert (Hi : 0 <= 108 < 10000) by lia.
  assert (Hv : (300 <= JS.or 300 300)%Q) by (vm_compute; intros H; discriminate H).
  assert (Hp : inRowSpan 35 108 3799).
  { split; [intros H; discriminate H | reflexivity]. }
  assert (Hq : inViewport 3500 300 3799).
  { split; [intros H; discriminate H | reflexivity]. }
  exact (X2_virtualized_rows_cover_viewport 35 3500 300 300 10000 108 3799
           Hr Hs Hi Hv Hp Hq).
Defined.

Lemma X3_body_rows_bounded_witness :
  Z.of_nat (length (DataGridBody.visibleRows
                      (DataGridBody.calculateVisibleRows (Some sampleContainer)
                         hundredRows DataGridBody.initialState)))
  <= 2 * JS.ceil (JS.or 300 0 / inject_Z 35) + 2.
Proof.
  assert (Hh : 0 < DataGridBody.measuredRowHeight
                     (@DataGridBody.initialState nat)) by reflexivity.
  assert (Hv : (0 < JS.or (DataGridBody.clientHeight sampleContainer)
                      (DataGridBody.dimensionsHeight
                         (@DataGridBody.initialState nat)))%Q)
    by (vm_compute; reflexivity).
  assert (Hs : (0 <= DataGridBody.scrollTop sampleContainer)%Q)
    by (intros H; discriminate H).
  exact (X3_body_rows_bounded nat sampleContainer hundredRows
           DataGridBody.initialState Hh Hv Hs).
Defined.

Lemma X4_overscan_margin_witness :
  let w := DataGridBody.visibleWindow 3500 300 35 10000 in
  DataGridBody.start w <= 111 <= DataGridBody.end_ w.
Proof.
  assert (Hr : (0 < 35)%Q) by reflexivity.
  assert (Hi : 0 <= 111 < 10000) by lia.
  assert (Hd : (3500 - inject_Z (JS.ceil (inject_Z (JS.ceil (300 / 35))
                                           * (1 # 2))) * 35
                <= 3600
                <= 3500 + inject_Z (JS.ceil (inject_Z (JS.ceil (300 / 35))
                                             * (1 # 2))) * 35)%Q).
  { split; vm_compute; intros H; discriminate H. }
  assert (Hp : inRowSpan 35 111 3890).
  { split; [intros H; discriminate H | reflexivity]. }
  assert (Hq : inViewport 3600 300 3890).
  { split; [intros H; discriminate H | reflexivity]. }
  exact (X4_overscan_margin 3500 3600 300 35 10000 111 3890 Hr Hi Hd Hp Hq).
Defined.

Lemma X5_window_monotone_witness :
  DataGridBody.start (DataGridBody.visibleWindow 3500 300 35 10000)
  <= DataGridBody.start (DataGridBody.visibleWindow 3600 300 35 10000).
Proof.
  assert (Hr : (0 < 35)%Q) by reflexivity.
  assert (Hs : (3500 <= 3600)%Q) by (intros H; discriminate H).
  exact (proj1 (X5_window_monotone 3500 3600 300 35 10 10000 Hr Hs)).
Defined.

Lemma X6_virtualized_rows_geometry_witness :
  let r := VirtualizedRows.visibleRange 35 350 10 100 in
  (VirtualizedRows.offsetY 35 r <= 350)%Q.
Proof.
  assert (Hr : (0 < 35)%Q) by reflexivity.
  assert (Hc : 0 <= 10) by lia.
  assert (Hs : (0 <= 350 < inject_Z (Z.of_nat (length hundredRows)) * 35)%Q).
  { split; [intros H; discriminate H | reflexivity]. }
  exact (proj1 (proj2 (X6_virtualized_rows_geometry nat 35 350 10 hundredRows
                         Hr Hc Hs))).
Defined.

Lemma X7_body_rows_inside_spacer_witness :
  let st' := DataGridBody.calculateVisibleRows (Some sampleContainer)
               hundredRows DataGridBody.initialState in
  (0 <= DataGridBody.rowsTop st' <= 350)%Q.
Proof.
  assert (Hh : 0 < DataGridBody.measuredRowHeight
                     (@DataGridBody.initialState nat)) by reflexivity.
  assert (Hv : (0 < JS.or (DataGridBody.clientHeight sampleContainer)
                      (DataGridBody.dimensionsHeight
                         (@DataGridBody.initialState nat)))%Q)
    by (vm_compute; reflexivity).
  assert (Hs : (0 <= DataGridBody.scrollTop sampleContainer
                < DataGridBody.spacerHeight hundredRows
                    DataGridBody.initialState)%Q).
  { split; [intros H; discriminate H | reflexivity]. }
  exact (proj1 (X7_body_rows_inside_spacer nat sampleContainer hundredRows
                  DataGridBody.initialState Hh Hv Hs)).
Defined.

Lemma X8_resize_keeps_columns_witness :
  DataGrid.handleColumnResize "zzz" 200 twoColumns = twoColumns.
Proof.
  assert (Hnot : ~ In "zzz"%string (List.map Header.id twoColumns)).
  { intros [H|[H|[]]]; discriminate H. }
  exact (proj2 (proj2 (proj2 (proj2 (proj2 (proj2 (proj2
           (X8_resize_keeps_columns "zzz" 200 twoColumns))))))) Hnot).
Defined.

Lemma X9_resize_composition_witness :
  DataGrid.handleColumnResize "b" 300
    (DataGrid.handleColumnResize "a" 200 twoColumns)
  = DataGrid.handleColumnResize "a" 200
      (DataGrid.handleColumnResize "b" 300 twoColumns).
Proof.
  assert (Hne : "a"%string <> "b"%string) by discriminate.
  exact (proj2 (X9_resize_composition "a" "b" 200 300 twoColumns) Hne).
Defined.

Lemma X10_resize_total_width_witness :
  (DataGrid.totalColumnsWidth (DataGrid.handleColumnResize "b" 300 twoColumns)
   == DataGrid.totalColumnsWidth twoColumns - 150 + 300)%Q.
Proof.
  assert (Hnd : NoDup (List.map Header.id twoColumns)).
  { apply (bool_decide_unpack _). vm_compute. exact I. }
  assert (Hi : twoColumns !! 1%nat = Some (Header.ofField "b")) by reflexivity.
  exact (X10_resize_total_width "b" 300 twoColumns 1 (Header.ofField "b")
           Hnd Hi eq_refl).
Defined.

Lemma X12_auto_scroll_reaches_body_witness :
  bothAt (120 + 10)
    (DataGrid.handleScroll DataGrid.HeaderRegion
       (DataGrid.handleMouseMove edgeDrag 990 2000 800 scrolledGrid)).1.
Proof.
  assert (Hb : DataGrid.bodyRef scrolledGrid
               = Some {| DataGrid.scrollTop := 8000;
                         DataGrid.scrollLeft := 120 |}) by reflexivity.
  assert (Hh : DataGrid.headerRef scrolledGrid
               = Some {| DataGrid.scrollTop := 0;
                         DataGrid.scrollLeft := 120 |}) by reflexivity.
  assert (Hx : (DataGrid.containerRight edgeDrag - 20 < 990)%Q)
    by reflexivity.
  assert (Hs : (120 + 10 <= 2000 - 800)%Q) by (intros H; discriminate H).
  exact (proj1 (X12_auto_scroll_reaches_body edgeDrag 990 2000 800
                  scrolledGrid _ _ Hb Hh Hx Hs)).
Defined.

Lemma X14_vertical_offset_owned_by_body_witness :
  DataGrid.bodyRef (DataGrid.handleScroll DataGrid.Body bodyScrolledGrid).1
  = DataGrid.bodyRef bodyScrolledGrid.
Proof.
  exact (proj1 (proj2 (proj2 (proj2 (proj2 (proj2 (proj2 (proj2
           (X14_vertical_offset_owned_by_body DataGrid.Body
              bodyScrolledGrid))))))) eq_refl)).
Defined.

Lemma X15_mutations_leave_settled_grid_witness :
  DataGrid.onMutations scrollbarRange sampleMutations scrolledGrid
  = (scrolledGrid, []).
Proof.
  assert (Hs : settled scrolledGrid).
  { eexists. eexists. split; [reflexivity|]. split; [reflexivity|].
    repeat split; reflexivity. }
  exact (proj1 (proj2 (X15_mutations_leave_settled_grid scrollbarRange
                         sampleMutations scrolledGrid)) Hs).
Defined.

Lemma X17_clicks_keep_sort_state_well_formed_witness :
  DataGrid.clickAll [plainColumn; plainColumn]
    {| DataGrid.key := None; DataGrid.direction := "asc" |}
  = {| DataGrid.key := None; DataGrid.direction := "asc" |}.
Proof.
  assert (Hall : Forall (fun h => Header.sortable h = false)
                   [plainColumn; plainColumn]).
  { repeat constructor. }
  exact (proj2 (X17_clicks_keep_sort_state_well_formed
                  [plainColumn; plainColumn]) Hall).
Defined.

Lemma X18_empty_column_id_witness :
  let cfg' := DataGrid.onHeaderClick unnamedColumn
                {| DataGrid.key := None; DataGrid.direction := "asc" |} in
  DataGrid.sortIcon cfg' unnamedColumn = Some DataGrid.ArrowUp /\
  DataGrid.sortedRows reverseOrder hundredRows cfg' = hundredRows.
Proof.
  destruct (proj2 (X18_empty_column_id nat reverseOrder hundredRows
                     unnamedColumn
                     {| DataGrid.key := None; DataGrid.direction := "asc" |})
              eq_refl eq_refl eq_refl) as (H1 & H2 & _).
  split; assumption.
Defined.

Lemma X19_mutations_grouped_by_target_witness :
  exists g, Observers.mutationsByTarget sampleMutations = Some g /\
            g !! "unknown"%string = Some (withKey "unknown" sampleMutations).
Proof.
  assert (Hall : Forall (fun m => Observers.targetKey m
                                  ∉ Observers.inheritedKeys) sampleMutations).
  { repeat constructor; apply (bool_decide_unpack _); vm_compute; exact I. }
  destruct (proj1 (X19_mutations_grouped_by_target sampleMutations) Hall)
    as (g & Hg & Hk).
  exists g. split; [exact Hg|]. rewrite Hk. reflexivity.
Defined.

Lemma X20_scroll_gate_single_flight_witness :
  (DataGridBody.frames
     (DataGridBody.steps hundredRows
        [DataGridBody.Scroll 700 0; DataGridBody.Scroll 1400 0] idleBody)
   <= 1)%nat.
Proof.
  assert (Hinv : gateInvariant hundredRows idleBody).
  { right. split; [reflexivity|]. split; reflexivity. }
  exact (proj1 (proj2 (X20_scroll_gate_single_flight hundredRows
           [DataGridBody.Scroll 700 0; DataGridBody.Scroll 1400 0]
           idleBody Hinv))).
Defined.

Lemma X21_estimate_tracks_sample_witness :
  Z.abs (JS.round (202 # 5)
         - DataGridBody.measuredRowHeight
             (DataGridBody.measureFrom DataGridBody.ScrollEffect
                (Some sampleContainer) (@DataGridBody.initialState nat))) <= 1.
Proof.
  assert (Hraw : DataGridBody.rowElementHeight sampleContainer
                 = Some (202 # 5)%Q) by reflexivity.
  assert (Hpos : 0 < JS.round (202 # 5)) by reflexivity.
  exact (proj2 (proj2 (proj2 (proj2 (proj2 (proj2
           (X21_estimate_tracks_sample DataGridBody.ScrollEffect
              sampleContainer (@DataGridBody.initialState nat) (202 # 5)%Q
              Hraw)))))) eq_refl Hpos).
Defined.

Lemma X22_header_resize_end_witness :
  DataGridHeader.handleResizeEnd 100 twoColumns DataGridHeader.initialState
  = Some (DataGridHeader.initialState, None).
Proof.
  exact (proj2 (proj1 (X22_header_resize_end 100 twoColumns
                         DataGridHeader.initialState) eq_refl)).
Defined.

Lemma X23_first_gesture_reports_nothing_witness :
  exists l,
    DataGridHeader.mouseDown 300 "a" twoColumns
      {| DataGridHeader.current := DataGridHeader.initialState;
         DataGridHeader.attached := [] |} = Some l /\
    DataGridHeader.mouseUp 100 twoColumns (DataGridHeader.attached l)
      (DataGridHeader.current l) = Some (l, []).
Proof.
  assert (Hf : Header.find "a" twoColumns = Some (Header.ofField "a"))
    by reflexivity.
  destruct (X23_first_gesture_reports_nothing 300 100 "a" twoColumns
              (Header.ofField "a") DataGridHeader.initialState
              Hf eq_refl eq_refl) as (l & H1 & _ & _ & H4).
  exists l. split; assumption.
Defined.
